(** * Archan: architecture criteria over a design structure matrix

    A shallow embedding of the rule engine of the [archan] package:

    - [src/archan/criterion.py]: the [Criterion] class, the mediation matrix
      generator, the compliance comparison and the checks registered in
      [CRITERIA];
    - [archan/checker.py]: the older [Archan] class, embedded in
      [Module Archan] below.

    Python lists are [list]s read with stdpp's lookup, integers are [Z],
    strings are [string], and every operation that can raise returns a
    [result]. Loops over [range] are folds over [seq] that thread the
    variables the loop body assigns. *)

From Stdlib Require Import ZArith QArith Lia Ascii.
From stdpp Require Import base list strings pretty gmap sorting.

Local Open Scope Z_scope.

(** ** Exceptions and the error monad *)

Inductive exn : Type :=
  | IndexError
  | ValueError
  | ZeroDivisionError
  | TypeError
  | ArchanError (msg : string).

Inductive result (A : Type) : Type :=
  | Ok (a : A)
  | Raise (e : exn).
Arguments Ok {A} a.
Arguments Raise {A} e.

Global Instance result_ret : MRet result := @Ok.
Global Instance result_bind : MBind result := λ A B f m,
  match m with Ok a => f a | Raise e => Raise e end.
Global Instance result_fmap : FMap result := λ A B f m,
  match m with Ok a => Ok (f a) | Raise e => Raise e end.

(** [l[i]] for an index produced by [range] (never negative). *)
Definition getitem {A} (l : list A) (i : nat) : result A :=
  match l !! i with
  | Some x => Ok x
  | None => Raise IndexError
  end.

(** [l[i] = x] *)
Definition setitem {A} (l : list A) (i : nat) (x : A) : result (list A) :=
  if decide (i < length l)%nat then Ok (<[i := x]> l) else Raise IndexError.

(** [m[i][j]] *)
Definition getitem2 {A} (m : list (list A)) (i j : nat) : result A :=
  row ← getitem m i; getitem row j.

(** [m[i][j] = x]: the row object [m[i]] is fetched, then updated in place. *)
Definition setitem2 {A} (m : list (list A)) (i j : nat) (x : A)
  : result (list (list A)) :=
  row ← getitem m i;
  row' ← setitem row j x;
  Ok (<[i := row']> m).

(** [for i in l: s = body(i, s)] *)
Fixpoint for_ {X St} (l : list X) (body : X → St → result St) (s : St)
  : result St :=
  match l with
  | [] => Ok s
  | i :: l' => s' ← body i s; for_ l' body s'
  end.

(** [range(a, b)] *)
Definition range (a b : nat) : list nat := seq a (b - a).

(** Short-circuit [x or y] and [x and y] over fallible operands. *)
Definition por (x y : result bool) : result bool :=
  b ← x; if b : bool then Ok true else y.
Definition pand (x y : result bool) : result bool :=
  b ← x; if b : bool then y else Ok false.

(** ** Strings *)

(** [s.split('.')[0]]: the part of [s] before its first dot, all of [s] when
    it has none. *)
Fixpoint split_dot_0 (s : string) : string :=
  match s with
  | EmptyString => EmptyString
  | String c r => if Ascii.eqb c "."%char then EmptyString else String c (split_dot_0 r)
  end.

(** [s.startswith(p)] *)
Definition startswith (s p : string) : bool := String.prefix p s.

(** ['.' in s] *)
Fixpoint has_dot (s : string) : bool :=
  match s with
  | EmptyString => false
  | String c r => if Ascii.eqb c "."%char then true else has_dot r
  end.

(** ['\n'.join(l)] *)
Definition join_lines (l : list string) : string :=
  String.concat (String "010" EmptyString) l.

(** ['%s' % n] for an integer. *)
Definition str (n : Z) : string := pretty n.

(** ** The design structure matrix *)

(** Modelled from the spec: the class [DesignStructureMatrix] of
    [archan/dsm.py], which is not among the sources. Its six class
    constants name the categories; an instance carries the categories, the
    entity names, the dependency matrix and its size. *)
Definition framework : string := "framework".
Definition core_lib : string := "core_lib".
Definition app_lib : string := "app_lib".
Definition app_module : string := "app_module".
Definition broker : string := "broker".
Definition data : string := "data".

Record DesignStructureMatrix : Type := {
  categories : list string;
  entities : list string;
  dependency_matrix : list (list Z);
  size : nat
}.

(** The invariant of section 3 of the specification: [size] entities, one
    category each, and a square matrix of that side. *)
Definition wf_dsm (dsm : DesignStructureMatrix) : Prop :=
  length (categories dsm) = size dsm ∧
  length (entities dsm) = size dsm ∧
  length (dependency_matrix dsm) = size dsm ∧
  Forall (λ row, length row = size dsm) (dependency_matrix dsm).

Definition known_category (c : string) : Prop :=
  c ∈ [framework; core_lib; app_lib; app_module; broker; data].

(** [x in (c1, ..., cn)] and [x == c] on category strings. *)
Definition cat_in (x : string) (cs : list string) : bool :=
  bool_decide (x ∈ cs).
Definition cat_eq (x c : string) : bool := bool_decide (x = c).

(** ** criterion.py: the mediation matrix *)

(** [ent[i].startswith(packages[j] + '.')] *)
Definition same_package_clause (ent packages : list string) (i j : nat)
  : result bool :=
  ei ← getitem ent i;
  pj ← getitem packages j;
  Ok (startswith ei (pj +:+ ".")).

(** The test shared by the four middle branches of the generator:
    [cat[j] in tolerated or ent[i].startswith(packages[j] + '.') or i == j]. *)
Definition tolerated_or_same (cat ent packages : list string)
    (tolerated : list string) (i j : nat) : result bool :=
  por (cj ← getitem cat j; Ok (cat_in cj tolerated))
   (por (same_package_clause ent packages i j)
        (Ok (bool_decide (i = j)))).

(** One iteration of the inner loop: the value assigned to
    [mediation_matrix[i][j]], or the error raised for an unknown category. *)
Definition mediation_value (cat ent packages : list string) (i j : nat)
  : result Z :=
  ci ← getitem cat i;
  if cat_eq ci framework then
    cj ← getitem cat j;
    Ok (if cat_eq cj framework then -1 else 0)
  else if cat_eq ci core_lib then
    b ← tolerated_or_same cat ent packages [framework; core_lib] i j;
    Ok (if b : bool then -1 else 0)
  else if cat_eq ci app_lib then
    b ← tolerated_or_same cat ent packages [framework; core_lib; app_lib] i j;
    Ok (if b : bool then -1 else 0)
  else if cat_eq ci app_module then
    b ← tolerated_or_same cat ent packages
          [framework; core_lib; app_lib; broker; data] i j;
    Ok (if b : bool then -1 else 0)
  else if cat_eq ci broker then
    b ← tolerated_or_same cat ent packages [app_module; core_lib; framework] i j;
    Ok (if b : bool then -1 else 0)
  else if cat_eq ci data then
    b ← por (cj ← getitem cat j; Ok (cat_eq cj framework))
            (Ok (bool_decide (i = j)));
    Ok (if b : bool then -1 else 0)
  else
    Raise (ArchanError ("Mediation matrix value NOT generated for "
                        +:+ str (Z.of_nat i) +:+ ":" +:+ str (Z.of_nat j))).

Definition _generate_mediation_matrix (dsm : DesignStructureMatrix)
  : result (list (list Z)) :=
  let cat := categories dsm in
  let ent := entities dsm in
  let size := size dsm in
  let packages := split_dot_0 <$> ent in
  let mediation_matrix := replicate size (replicate size 0) in
  for_ (range 0 size) (λ i mediation_matrix,
    for_ (range 0 size) (λ j mediation_matrix,
      v ← mediation_value cat ent packages i j;
      setitem2 mediation_matrix i j v) mediation_matrix) mediation_matrix.

(** ** criterion.py: the compliance comparison *)

Definition untolerated_message (i j : nat) (ei ej : string) (observed expected : Z)
  : string :=
  "  Untolerated dependency at " +:+ str (Z.of_nat i) +:+ ":"
  +:+ str (Z.of_nat j) +:+ " (" +:+ ei +:+ ":" +:+ ej +:+ "): "
  +:+ str observed +:+ " instead of " +:+ str expected.

(** The condition of the inner loop of [_matrices_compliance]. *)
Definition is_discrepancy (matrix med : list (list Z)) (i j : nat) : result bool :=
  por (pand (e ← getitem2 med i j; Ok (bool_decide (e = 0)))
            (o ← getitem2 matrix i j; Ok (bool_decide (0 < o))))
      (pand (e ← getitem2 med i j; Ok (bool_decide (e = 1)))
            (o ← getitem2 matrix i j; Ok (bool_decide (o < 1)))).

Definition _matrices_compliance (dsm : DesignStructureMatrix)
    (complete_mediation_matrix : list (list Z)) : result (bool * string) :=
  let matrix := dependency_matrix dsm in
  let rows_dep_matrix := length matrix in
  row0 ← getitem matrix 0;
  let cols_dep_matrix := length row0 in
  let rows_med_matrix := length complete_mediation_matrix in
  mrow0 ← getitem complete_mediation_matrix 0;
  let cols_med_matrix := length mrow0 in
  if bool_decide (rows_dep_matrix ≠ rows_med_matrix) ||
     bool_decide (cols_dep_matrix ≠ cols_med_matrix)
  then Raise (ArchanError
    "Matrices are NOT compliant (number of rows/columns not equal)")
  else
    '(discrepancy_found, message) ←
      for_ (range 0 rows_dep_matrix) (λ i st,
        for_ (range 0 cols_dep_matrix) (λ j '(discrepancy_found, message),
          c ← is_discrepancy matrix complete_mediation_matrix i j;
          if c : bool then
            ei ← getitem (entities dsm) i;
            ej ← getitem (entities dsm) j;
            o ← getitem2 matrix i j;
            e ← getitem2 complete_mediation_matrix i j;
            Ok (true, message ++ [untolerated_message i j ei ej o e])
          else Ok (discrepancy_found, message)) st) (false, []);
    Ok (negb discrepancy_found, join_lines message).

Definition check_complete_mediation (dsm : DesignStructureMatrix)
  : result (bool * string) :=
  med_matrix ← _generate_mediation_matrix dsm;
  _matrices_compliance dsm med_matrix.

(** ** criterion.py: economy of mechanism *)

Definition economy_counted (cat : list string) (matrix : list (list Z))
    (i j : nat) : result bool :=
  pand (ci ← getitem cat i; Ok (negb (cat_in ci [framework; core_lib])))
   (pand (cj ← getitem cat j; Ok (negb (cat_in cj [framework; core_lib])))
         (o ← getitem2 matrix i j; Ok (bool_decide (0 < o)))).

Definition economy_message (dependency_number : Z) (dsm_size : nat)
    (simplicity_factor : Z) : string :=
  "  Number of dependencies (" +:+ str dependency_number +:+ ")"
  +:+ " " +:+ "> number of rows (" +:+ str (Z.of_nat dsm_size) +:+ ")"
  +:+ " " +:+ "* simplicity factor (" +:+ str simplicity_factor +:+ ") = "
  +:+ str (Z.of_nat dsm_size * simplicity_factor).

Definition check_economy_of_mechanism (dsm : DesignStructureMatrix)
    (simplicity_factor : Z) : result (bool * string) :=
  let dependency_matrix := dependency_matrix dsm in
  let categories := categories dsm in
  let dsm_size := size dsm in
  dependency_number ←
    for_ (range 0 dsm_size) (λ i dependency_number,
      for_ (range 0 dsm_size) (λ j dependency_number,
        c ← economy_counted categories dependency_matrix i j;
        Ok (if c : bool then dependency_number + 1 else dependency_number))
      dependency_number) 0;
  if bool_decide (dependency_number < Z.of_nat dsm_size * simplicity_factor)
  then Ok (true, "")
  else Ok (false, economy_message dependency_number dsm_size simplicity_factor).

(** ** criterion.py: least common mechanism *)

(** [max(l)] *)
Definition py_max (l : list Z) : result Z :=
  match l with
  | [] => Raise ValueError
  | x :: l' => Ok (foldl Z.max x l')
  end.

(** [l.index(x)] *)
Fixpoint py_index (l : list Z) (x : Z) : result nat :=
  match l with
  | [] => Raise ValueError
  | y :: l' => if bool_decide (y = x) then Ok 0%nat else S <$> py_index l' x
  end.

(** [a / b] on two integers, as the exact quotient. *)
Definition truediv (a b : Z) : result Q :=
  if bool_decide (b = 0) then Raise ZeroDivisionError
  else Ok (inject_Z a / inject_Z b)%Q.

(** [enumerate(l)] *)
Definition enumerate {A} (l : list A) : list (nat * A) :=
  zip (seq 0 (length l)) l.

Definition common_counted (cat : list string) (matrix : list (list Z))
    (i j : nat) : result bool :=
  pand (ci ← getitem cat i; Ok (negb (cat_eq ci framework)))
   (pand (cj ← getitem cat j; Ok (negb (cat_eq cj framework)))
         (o ← getitem2 matrix i j; Ok (bool_decide (0 < o)))).

(** The first two loops of the check: the in-degree of every column, then
    the entries of brokers and application libraries reset to 0. *)
Definition dependent_modules (dsm : DesignStructureMatrix) : result (list Z) :=
  let dependency_matrix := dependency_matrix dsm in
  let categories := categories dsm in
  let dsm_size := size dsm in
  dependent_module_number ←
    for_ (range 0 dsm_size) (λ j dependent_module_number,
      for_ (range 0 dsm_size) (λ i dependent_module_number,
        c ← common_counted categories dependency_matrix i j;
        if c : bool then
          n ← getitem dependent_module_number j;
          setitem dependent_module_number j (n + 1)
        else Ok dependent_module_number)
      (dependent_module_number ++ [0])) [];
  for_ (enumerate categories) (λ '(index, item) dependent_module_number,
    if cat_eq item broker || cat_eq item app_lib
    then setitem dependent_module_number index 0
    else Ok dependent_module_number) dependent_module_number.

Section least_common_mechanism.
(** ['%s' % q] for the float [q]: the rendering of a float is left
    abstract; it only appears at the end of the failure message. *)
Variable str_float : Q → string.

Definition common_message (name : string) (maximum : Z) (size : nat)
    (independence_factor : Z) (quotient : Q) : string :=
  "  Dependencies to " +:+ name +:+ " (" +:+ str maximum +:+ ") "
  +:+ "> matrix size (" +:+ str (Z.of_nat size)
  +:+ ") / independence factor (" +:+ str independence_factor +:+ ") = "
  +:+ str_float quotient.

Definition check_least_common_mechanism (dsm : DesignStructureMatrix)
    (independence_factor : Z) : result (bool * string) :=
  dependent_module_number ← dependent_modules dsm;
  m ← py_max dependent_module_number;
  q ← truediv (Z.of_nat (size dsm)) independence_factor;
  if Qle_bool (inject_Z m) q then Ok (true, "")
  else
    maximum ← py_max dependent_module_number;
    k ← py_index dependent_module_number maximum;
    name ← getitem (entities dsm) k;
    q' ← truediv (Z.of_nat (size dsm)) independence_factor;
    Ok (false, common_message name maximum (size dsm) independence_factor q').
End least_common_mechanism.

(** ** criterion.py: layered architecture *)

Definition layering_guard (cat ent : list string) (i j : nat) : result bool :=
  pand (ci ← getitem cat i; Ok (negb (cat_eq ci broker)))
   (pand (cj ← getitem cat j; Ok (negb (cat_eq cj broker)))
         (ei ← getitem ent i; ej ← getitem ent j;
          Ok (negb (bool_decide (split_dot_0 ei = split_dot_0 ej))))).

Definition layering_message (ei ej : string) : string :=
  "  Dependency from " +:+ ei +:+ " to " +:+ ej
  +:+ " breaks the layered architecture.".

Definition check_layered_architecture (dsm : DesignStructureMatrix)
  : result (bool * string) :=
  '(layered_architecture, messages) ←
    for_ (range 0 (size dsm - 1)) (λ i st,
      for_ (range (i + 1) (size dsm)) (λ j '(layered_architecture, messages),
        g ← layering_guard (categories dsm) (entities dsm) i j;
        if g : bool then
          o ← getitem2 (dependency_matrix dsm) i j;
          if bool_decide (0 < o) then
            ei ← getitem (entities dsm) i;
            ej ← getitem (entities dsm) j;
            Ok (false, messages ++ [layering_message ei ej])
          else Ok (layered_architecture, messages)
        else Ok (layered_architecture, messages)) st) (true, []);
  Ok (layered_architecture, join_lines messages).

(** ** criterion.py: the checks that are not implemented *)

(** What a check hands back as [success]: [True], [False] or [None] in the
    checks of this module, any object in general. *)
Inductive pyval : Type :=
  | PyNone
  | PyBool (b : bool)
  | PyInt (z : Z)
  | PyStr (s : string).

Definition check_separation_of_privileges (dsm : DesignStructureMatrix)
  : result (pyval * string) := Ok (PyNone, "").
Definition check_least_privileges (dsm : DesignStructureMatrix)
  : result (pyval * string) := Ok (PyNone, "").
Definition check_open_design (dsm : DesignStructureMatrix)
  : result (pyval * string) := Ok (PyNone, "").
Definition check_code_clean (dsm : DesignStructureMatrix)
  : result (pyval * string) := Ok (PyNone, "").

(** ** criterion.py: the Criterion class *)

Definition FAILED : Z := 0.
Definition PASSED : Z := 1.
Definition NOT_IMPLEMENTED : Z := -1.
Definition IGNORED : Z := -2.

(** Keyword arguments: a dictionary from parameter names to the integer
    factors the checks of this module take. *)
Abbreviation kwargs_t := (gmap string Z).

(** An instance over argument type [A]. The attribute [check] exists only
    when [__init__] was given a check ([if check: self.check = check]). *)
Record Criterion (A : Type) : Type := {
  codename : string;
  title : string;
  description : string;
  hint : string;
  check : option (A → kwargs_t → result (pyval * string));
  kwargs : kwargs_t
}.
Arguments codename {A} _.
Arguments title {A} _.
Arguments description {A} _.
Arguments hint {A} _.
Arguments check {A} _.
Arguments kwargs {A} _.

(** [is True] and [is False] are identity tests: only the two booleans
    pass them. *)
Definition is_True (v : pyval) : bool :=
  match v with PyBool true => true | _ => false end.
Definition is_False (v : pyval) : bool :=
  match v with PyBool false => true | _ => false end.

(** [Criterion.__call__]: [kwargs.update(self.kwargs)] lets the instance's
    own keyword arguments win over those of the call. *)
Definition call {A} (self : Criterion A) (args : A) (kw : kwargs_t)
  : result (Z * string) :=
  let kw := kwargs self ∪ kw in
  match check self with
  | Some check =>
      '(success, message) ← check args kw;
      if is_True success then Ok (PASSED, message)
      else if is_False success then Ok (FAILED, message)
      else Ok (NOT_IMPLEMENTED, message)
  | None => Ok (NOT_IMPLEMENTED, "")
  end.

(** Binding of the keyword arguments of a call to a function that takes
    none, or one with a default; an unexpected keyword is a [TypeError]. *)
Definition no_keyword {B} (f : result B) (kw : kwargs_t) : result B :=
  if bool_decide (kw = ∅) then f else Raise TypeError.
Definition one_keyword {B} (name : string) (dflt : Z) (f : Z → result B)
    (kw : kwargs_t) : result B :=
  if bool_decide (dom kw ⊆ ({[name]} : gset string))
  then f (default dflt (kw !! name))
  else Raise TypeError.

Definition returns_bool (r : result (bool * string)) : result (pyval * string) :=
  prod_map PyBool id <$> r.

(** ** criterion.py: the registered criteria *)

Section registry.
(** [read_criterion] reads a description from a file. *)
Variable read_criterion : string → string.
Variable str_float : Q → string.

Definition COMPLETE_MEDIATION : Criterion DesignStructureMatrix := {|
  codename := "COMPLETE_MEDIATION"; title := "Complete Mediation";
  description := read_criterion "complete_mediation";
  check := Some (λ dsm, no_keyword (returns_bool (check_complete_mediation dsm)));
  hint := "Remove the dependencies or deviate them through a broker module.";
  kwargs := ∅ |}.
Definition ECONOMY_OF_MECHANISM : Criterion DesignStructureMatrix := {|
  codename := "ECONOMY_OF_MECHANISM"; title := "Economy Of Mechanism";
  description := read_criterion "economy_of_mechanism";
  check := Some (λ dsm, one_keyword "simplicity_factor" 2
    (λ f, returns_bool (check_economy_of_mechanism dsm f)));
  hint := "Reduce the number of dependencies in your own code or increase the simplicity factor.";
  kwargs := ∅ |}.
Definition SEPARATION_OF_PRIVILEGES : Criterion DesignStructureMatrix := {|
  codename := "SEPARATION_OF_PRIVILEGES"; title := "Separation Of Privileges";
  check := Some (λ dsm, no_keyword (check_separation_of_privileges dsm));
  description := read_criterion "separation_of_privileges";
  hint := ""; kwargs := ∅ |}.
Definition LEAST_PRIVILEGES : Criterion DesignStructureMatrix := {|
  codename := "LEAST_PRIVILEGES"; title := "Least Privileges";
  check := Some (λ dsm, no_keyword (check_least_privileges dsm));
  description := read_criterion "least_privileges";
  hint := ""; kwargs := ∅ |}.
Definition LEAST_COMMON_MECHANISM : Criterion DesignStructureMatrix := {|
  codename := "LEAST_COMMON_MECHANISM"; title := "Least Common Mechanism";
  description := read_criterion "least_common_mechanism";
  check := Some (λ dsm, one_keyword "independence_factor" 5
    (λ f, returns_bool (check_least_common_mechanism str_float dsm f)));
  hint := "Reduce number of modules having dependencies to the listed module.";
  kwargs := ∅ |}.
Definition LAYERED_ARCHITECTURE : Criterion DesignStructureMatrix := {|
  codename := "LAYERED_ARCHITECTURE"; title := "Layered Architecture";
  description := read_criterion "layered_architecture";
  check := Some (λ dsm, no_keyword (returns_bool (check_layered_architecture dsm)));
  hint := "Ensure that your applications are listed in the right order when building the DSM, or remove dependencies.";
  kwargs := ∅ |}.
Definition OPEN_DESIGN : Criterion DesignStructureMatrix := {|
  codename := "OPEN_DESIGN"; title := "Open Design";
  description := read_criterion "open_design";
  check := Some (λ dsm, no_keyword (check_open_design dsm));
  hint := ""; kwargs := ∅ |}.
Definition CODE_CLEAN : Criterion DesignStructureMatrix := {|
  codename := "CODE_CLEAN"; title := "Code Clean";
  description := read_criterion "code_clean";
  check := Some (λ dsm, no_keyword (check_code_clean dsm));
  hint := ""; kwargs := ∅ |}.

Definition CRITERIA : list (Criterion DesignStructureMatrix) := [
  COMPLETE_MEDIATION;
  ECONOMY_OF_MECHANISM;
  SEPARATION_OF_PRIVILEGES;
  LEAST_PRIVILEGES;
  LEAST_COMMON_MECHANISM;
  LAYERED_ARCHITECTURE;
  OPEN_DESIGN;
  CODE_CLEAN
].
End registry.

(** ** checker.py: the Archan class

    The methods of the older checker return bare booleans and report on
    standard output; a method here returns its value together with the lines
    it printed. *)

Module Archan.

Record Archan : Type := {
  check_complete_mediation_implemented : bool;
  check_economy_of_mechanism_implemented : bool;
  check_separation_of_privileges_implemented : bool;
  check_least_privileges_implemented : bool;
  check_least_common_mechanism_implemented : bool;
  check_layered_architecture_implemented : bool;
  independence_factor : Z;
  simplicity_factor : Z
}.

(** [Archan()] *)
Definition __init__ : Archan := {|
  check_complete_mediation_implemented := true;
  check_economy_of_mechanism_implemented := true;
  check_separation_of_privileges_implemented := false;
  check_least_privileges_implemented := false;
  check_least_common_mechanism_implemented := true;
  check_layered_architecture_implemented := false;
  independence_factor := 5;
  simplicity_factor := 2
|}.

(** One iteration of the inner loop of the generator. The last branch
    stores -2 before it raises. *)
Definition mediation_step (cat ent packages : list string) (i j : nat)
    (mediation_matrix : list (list Z)) : result (list (list Z)) :=
  ci ← getitem cat i;
  if cat_eq ci framework then
    cj ← getitem cat j;
    setitem2 mediation_matrix i j (if cat_eq cj framework then -1 else 0)
  else if cat_eq ci core_lib then
    b ← tolerated_or_same cat ent packages [framework] i j;
    setitem2 mediation_matrix i j (if b : bool then -1 else 0)
  else if cat_eq ci app_lib then
    b ← tolerated_or_same cat ent packages [framework; core_lib; app_lib] i j;
    setitem2 mediation_matrix i j (if b : bool then -1 else 0)
  else if cat_eq ci app_module then
    b ← tolerated_or_same cat ent packages
          [framework; core_lib; app_lib; broker; data] i j;
    setitem2 mediation_matrix i j (if b : bool then -1 else 0)
  else if cat_eq ci broker then
    b ← tolerated_or_same cat ent packages [app_module; framework] i j;
    setitem2 mediation_matrix i j (if b : bool then -1 else 0)
  else if cat_eq ci data then
    b ← por (cj ← getitem cat j; Ok (cat_eq cj framework))
            (Ok (bool_decide (i = j)));
    setitem2 mediation_matrix i j (if b : bool then -1 else 0)
  else
    _ ← setitem2 mediation_matrix i j (-2);
    Raise (ArchanError ("Mediation matrix value NOT generated for "
                        +:+ str (Z.of_nat i) +:+ ":" +:+ str (Z.of_nat j))).

Definition _generate_mediation_matrix (dsm : DesignStructureMatrix)
  : result (list (list Z)) :=
  let cat := categories dsm in
  let ent := entities dsm in
  let size := size dsm in
  let packages := split_dot_0 <$> ent in
  let mediation_matrix := replicate size (replicate size 0) in
  for_ (range 0 size) (λ i mediation_matrix,
    for_ (range 0 size) (λ j mediation_matrix,
      mediation_step cat ent packages i j mediation_matrix)
    mediation_matrix) mediation_matrix.

Definition discrepancy_line (i j : nat) (ei ej : string) : string :=
  "Matrix discrepancy found at " +:+ str (Z.of_nat i) +:+ ":"
  +:+ str (Z.of_nat j) +:+ " (" +:+ ei +:+ ":" +:+ ej +:+ ")".

Definition _check_matrices_compliance (dsm : DesignStructureMatrix)
    (complete_mediation_matrix : list (list Z)) : result (bool * list string) :=
  let matrix := dependency_matrix dsm in
  let rows_dep_matrix := length matrix in
  row0 ← getitem matrix 0;
  let cols_dep_matrix := length row0 in
  let rows_med_matrix := length complete_mediation_matrix in
  mrow0 ← getitem complete_mediation_matrix 0;
  let cols_med_matrix := length mrow0 in
  if bool_decide (rows_dep_matrix = rows_med_matrix) then
    if bool_decide (cols_dep_matrix = cols_med_matrix) then
      '(discrepancy_found, out) ←
        for_ (range 0 rows_dep_matrix) (λ i st,
          for_ (range 0 cols_dep_matrix) (λ j '(discrepancy_found, out),
            c ← pand (e ← getitem2 complete_mediation_matrix i j;
                      Ok (negb (bool_decide (e = -1))))
                     (o ← getitem2 matrix i j;
                      e ← getitem2 complete_mediation_matrix i j;
                      Ok (negb (bool_decide (o = e))));
            if c : bool then
              ei ← getitem (entities dsm) i;
              ej ← getitem (entities dsm) j;
              Ok (true, out ++ [discrepancy_line i j ei ej])
            else Ok (discrepancy_found, out)) st) (false, []);
      Ok (negb discrepancy_found, out)
    else Ok (false, ["Matrices are NOT compliant(number of columns not equals)"])
  else Ok (false, ["Matrices are NOT compliant (number of rows not equals)"]).

Definition check_complete_mediation (self : Archan)
    (dsm : DesignStructureMatrix) : result (bool * list string) :=
  med_matrix ← _generate_mediation_matrix dsm;
  _check_matrices_compliance dsm med_matrix.

Definition economy_counted (cat : list string) (matrix : list (list Z))
    (i j : nat) : result bool :=
  pand (ci ← getitem cat i; Ok (negb (cat_eq ci framework)))
   (pand (cj ← getitem cat j; Ok (negb (cat_eq cj framework)))
         (o ← getitem2 matrix i j; Ok (bool_decide (0 < o)))).

Definition check_economy_of_mechanism (self : Archan)
    (dsm : DesignStructureMatrix) : result (bool * list string) :=
  let dependency_matrix := dependency_matrix dsm in
  let categories := categories dsm in
  let dsm_size := size dsm in
  dependency_number ←
    for_ (range 0 dsm_size) (λ i dependency_number,
      for_ (range 0 dsm_size) (λ j dependency_number,
        c ← economy_counted categories dependency_matrix i j;
        Ok (if c : bool then dependency_number + 1 else dependency_number))
      dependency_number) 0;
  if bool_decide (dependency_number < Z.of_nat dsm_size * simplicity_factor self)
  then Ok (true, [])
  else Ok (false, ["dependency_number: " +:+ str dependency_number;
                   "rowsdep_matrix: " +:+ str (Z.of_nat dsm_size);
                   "expected dependencies: " +:+ str (simplicity_factor self)]).

Definition check_separation_of_privileges (self : Archan)
    (dsm : DesignStructureMatrix) : bool := false.

Definition check_least_privileges (self : Archan)
    (dsm : DesignStructureMatrix) : bool := false.

(** [old_div(a, b)] on two integers: floor division. *)
Definition old_div (a b : Z) : result Z :=
  if bool_decide (b = 0) then Raise ZeroDivisionError else Ok (a `div` b).

Definition check_least_common_mechanism (self : Archan)
    (dsm : DesignStructureMatrix) : result (bool * list string) :=
  dependent_module_number ← dependent_modules dsm;
  m ← py_max dependent_module_number;
  q ← old_div (Z.of_nat (size dsm)) (independence_factor self);
  if bool_decide (m ≤ q) then Ok (true, [])
  else
    m' ← py_max dependent_module_number;
    q' ← old_div (Z.of_nat (size dsm)) (independence_factor self);
    Ok (false, ["max number of dependencies to a module: " +:+ str m';
                "max number of expected dependencies: " +:+ str q']).

Definition check_layered_architecture (self : Archan) : bool := false.

Definition check_open_design (self : Archan) : bool :=
  check_complete_mediation_implemented self &&
  check_economy_of_mechanism_implemented self &&
  check_separation_of_privileges_implemented self &&
  check_least_privileges_implemented self &&
  check_least_common_mechanism_implemented self &&
  check_layered_architecture_implemented self.

Definition check_code_clean (self : Archan) : bool * list string :=
  (true, ["No code issue found."]).

(** The dictionary literal evaluates its eight values in order. *)
Definition check_all (self : Archan) (dsm : DesignStructureMatrix)
  : result (gmap string bool * list string) :=
  '(cm, out_cm) ← check_complete_mediation self dsm;
  '(eom, out_eom) ← check_economy_of_mechanism self dsm;
  let sop := check_separation_of_privileges self dsm in
  let lp := check_least_privileges self dsm in
  '(lcm, out_lcm) ← check_least_common_mechanism self dsm;
  let la := check_layered_architecture self in
  let od := check_open_design self in
  let '(cc, out_cc) := check_code_clean self in
  Ok (<["CM" := cm]> (<["EOM" := eom]> (<["SOP" := sop]> (<["LP" := lp]>
        (<["LCM" := lcm]> (<["LA" := la]> (<["OD" := od]> {["CC" := cc]})))))),
      out_cm ++ out_eom ++ out_lcm ++ out_cc).

End Archan.


(** * Vocabulary of the statements *)

(** The pairs of indices two nested loops go through, in the order in which
    the body meets them. *)
Definition pairs_of {X Y} (l1 : list X) (l2 : X → list Y) : list (X * Y) :=
  x ← l1; (pair x <$> l2 x).

(** [category(i)], [entity(i)] and [observed(i,j)] of a matrix, and cell
    [(i,j)] of a generated matrix. *)
Definition category (dsm : DesignStructureMatrix) (i : nat) : string :=
  default "" (categories dsm !! i).
Definition entity (dsm : DesignStructureMatrix) (i : nat) : string :=
  default "" (entities dsm !! i).
Definition observed (dsm : DesignStructureMatrix) (i j : nat) : Z :=
  default 0 (dependency_matrix dsm !! i ≫= (.!! j)).
Definition cell (m : list (list Z)) (i j : nat) : option Z :=
  m !! i ≫= (.!! j).

(** The top-level package of an entity: its name up to the first dot. *)
Definition top_level_package (name : string) : string := split_dot_0 name.

(** The value [mediation_value] computes once its lookups have succeeded. *)
Definition rule_value (tolerated : list string) (cj ei ej : string) (i j : nat) : Z :=
  if cat_in cj tolerated || startswith ei (split_dot_0 ej +:+ ".")
     || bool_decide (i = j)
  then -1 else 0.

Definition mediation_cell_with (core_tolerated broker_tolerated : list string)
    (ci cj ei ej : string) (i j : nat) : Z :=
  if cat_eq ci framework then (if cat_eq cj framework then -1 else 0)
  else if cat_eq ci core_lib then rule_value core_tolerated cj ei ej i j
  else if cat_eq ci app_lib then
    rule_value [framework; core_lib; app_lib] cj ei ej i j
  else if cat_eq ci app_module then
    rule_value [framework; core_lib; app_lib; broker; data] cj ei ej i j
  else if cat_eq ci broker then rule_value broker_tolerated cj ei ej i j
  else if cat_eq cj framework || bool_decide (i = j) then -1 else 0.

Definition table_of (dsm : DesignStructureMatrix)
    (f : string → string → string → string → nat → nat → Z) : list (list Z) :=
  (λ i, (λ j, f (category dsm i) (category dsm j)
                (entity dsm i) (entity dsm j) i j) <$> seq 0 (size dsm))
  <$> seq 0 (size dsm).

(** criterion.py and checker.py differ in what a core library and a broker
    may depend on. *)
Definition mediation_cell : string → string → string → string → nat → nat → Z :=
  mediation_cell_with [framework; core_lib] [app_module; core_lib; framework].
Definition legacy_mediation_cell
  : string → string → string → string → nat → nat → Z :=
  mediation_cell_with [framework] [app_module; framework].

(** The categories listed in the branch of the generator for [ci], for the
    four categories whose branch has the package clause. *)
Definition tolerated_categories (ci : string) : list string :=
  if cat_eq ci core_lib then [framework; core_lib]
  else if cat_eq ci app_lib then [framework; core_lib; app_lib]
  else if cat_eq ci app_module then [framework; core_lib; app_lib; broker; data]
  else if cat_eq ci broker then [app_module; core_lib; framework]
  else [].

(** ** Sample matrices *)

(** A core library that is a top-level module of the package of an
    application module. *)
Definition dsm_core_in_package : DesignStructureMatrix := {|
  categories := [core_lib; app_module];
  entities := ["a"; "a.x"];
  dependency_matrix := [[0; 0]; [0; 0]];
  size := 2 |}.

(** Two application modules of one package, the first one named like the
    package itself. *)
Definition dsm_same_package : DesignStructureMatrix := {|
  categories := [app_module; app_module];
  entities := ["a"; "a.x"];
  dependency_matrix := [[0; 0]; [0; 0]];
  size := 2 |}.

(** Two modules of one package next to a data entity of another package. *)
Definition dsm_three : DesignStructureMatrix := {|
  categories := [core_lib; app_module; data];
  entities := ["pkg.core"; "pkg.views"; "store.tables"];
  dependency_matrix := [[0; 0; 0]; [1; 0; 2]; [0; 0; 0]];
  size := 3 |}.


(** ** Counting dependencies *)

(** The number of ordered pairs [(i,j)] of indices below [n] that pass [P]. *)
Definition count_pairs (n : nat) (P : nat → nat → bool) : Z :=
  Z.of_nat (length (List.filter (λ p, P p.1 p.2)
                      (pairs_of (seq 0 n) (λ _, seq 0 n)))).

(** There is a dependency from [i] to [j] and neither has a category among
    [excluded]. *)
Definition coupled (excluded : list string) (dsm : DesignStructureMatrix)
    (i j : nat) : bool :=
  negb (cat_in (category dsm i) excluded)
  && negb (cat_in (category dsm j) excluded)
  && bool_decide (0 < observed dsm i j).

(** The number of rows of a matrix and, when it has a first row, the number
    of its columns. *)
Definition row_count (m : list (list Z)) : nat := length m.
Definition column_count (m : list (list Z)) : option nat := length <$> m !! 0%nat.

(** The return code [Criterion.__call__] gives for a value of [success]. *)
Definition return_code (success : pyval) : Z :=
  match success with
  | PyBool true => PASSED
  | PyBool false => FAILED
  | _ => NOT_IMPLEMENTED
  end.

(** Two core libraries that depend on themselves and on each other. *)
Definition dsm_core_pair : DesignStructureMatrix := {|
  categories := [core_lib; core_lib];
  entities := ["lib.a"; "util.b"];
  dependency_matrix := [[1; 1]; [1; 1]];
  size := 2 |}.


(** Five application modules, each depending on the four others. *)
Definition dsm_complete : DesignStructureMatrix := {|
  categories := replicate 5 app_module;
  entities := ["m.a"; "m.b"; "m.c"; "m.d"; "m.e"];
  dependency_matrix :=
    [[0; 1; 1; 1; 1]; [1; 0; 1; 1; 1]; [1; 1; 0; 1; 1]; [1; 1; 1; 0; 1];
     [1; 1; 1; 1; 0]];
  size := 5 |}.

(** The same modules with nine dependencies left. *)
Definition dsm_nine_edges : DesignStructureMatrix := {|
  categories := replicate 5 app_module;
  entities := ["m.a"; "m.b"; "m.c"; "m.d"; "m.e"];
  dependency_matrix :=
    [[0; 1; 1; 1; 1]; [1; 0; 1; 1; 1]; [1; 0; 0; 0; 0]; [0; 0; 0; 0; 0];
     [0; 0; 0; 0; 0]];
  size := 5 |}.

(** ** Layering *)

(** A dependency from [i] to [j] that breaks the layering: neither is a
    broker, their top-level packages differ and [i] depends on [j]. *)
Definition layering_violation (dsm : DesignStructureMatrix) (i j : nat) : bool :=
  negb (cat_eq (category dsm i) broker)
  && negb (cat_eq (category dsm j) broker)
  && negb (bool_decide (top_level_package (entity dsm i)
                        = top_level_package (entity dsm j)))
  && bool_decide (0 < observed dsm i j).

(** The pairs the two loops of the layering check go through. *)
Definition upper_pairs (n : nat) : list (nat * nat) :=
  pairs_of (range 0 (n - 1)) (λ i, range (i + 1) n).

(** Two application modules of different packages; the second depends on
    the first. *)
Definition dsm_reverse_edge : DesignStructureMatrix := {|
  categories := [app_module; app_module];
  entities := ["a.x"; "b.y"];
  dependency_matrix := [[0; 0]; [1; 0]];
  size := 2 |}.

(** The same two modules; the first depends on the second. *)
Definition dsm_forward_edge : DesignStructureMatrix := {|
  categories := [app_module; app_module];
  entities := ["a.x"; "b.y"];
  dependency_matrix := [[0; 1]; [0; 0]];
  size := 2 |}.


(** ** In-degrees *)

(** The number of entities [i] with a dependency to [j], framework left
    out at both ends. *)
Definition in_degree (dsm : DesignStructureMatrix) (j : nat) : Z :=
  Z.of_nat (length (List.filter (λ i, coupled [framework] dsm i j)
                      (seq 0 (size dsm)))).

(** Brokers and application libraries are expected hubs. *)
Definition exempt (c : string) : bool := cat_eq c broker || cat_eq c app_lib.

Definition counted_in_degree (dsm : DesignStructureMatrix) (j : nat) : Z :=
  if exempt (category dsm j) then 0 else in_degree dsm j.

(** Ten modules; the last one is used by the first three. *)
Definition dsm_hub : DesignStructureMatrix := {|
  categories := replicate 10 app_module;
  entities := ["m.a"; "m.b"; "m.c"; "m.d"; "m.e"; "m.f"; "m.g"; "m.h"; "m.i"; "m.j"];
  dependency_matrix :=
    replicate 3 (replicate 9 0 ++ [1]) ++ replicate 7 (replicate 10 0);
  size := 10 |}.


(** ** Positive cells *)

(** 1 for a positive cell, 0 for any other. *)
Definition indicator (x : Z) : Z := if bool_decide (0 < x) then 1 else 0.

(** The matrix with every cell replaced by its indicator. *)
Definition binarize_matrix (m : list (list Z)) : list (list Z) :=
  (λ row : list Z, indicator <$> row) <$> m.

Definition binarize (dsm : DesignStructureMatrix) : DesignStructureMatrix := {|
  categories := categories dsm;
  entities := entities dsm;
  dependency_matrix := binarize_matrix (dependency_matrix dsm);
  size := size dsm |}.

(** Two runs end alike: with the same error, or with results related by [R]. *)
Definition alike {A B} (R : A → B → Prop) (r : result A) (r' : result B) : Prop :=
  match r, r' with
  | Ok a, Ok b => R a b
  | Raise e, Raise e' => e = e'
  | _, _ => False
  end.


(** ** Discrepancies *)

(** Cell [(i,j)] of a mediation matrix, 0 outside of it. *)
Definition expected (med : list (list Z)) (i j : nat) : Z :=
  default 0 (cell med i j).

(** The test of [_matrices_compliance] on the values of the two cells. *)
Definition discrepancy (dsm : DesignStructureMatrix) (med : list (list Z))
    (i j : nat) : bool :=
  bool_decide (expected med i j = 0) && bool_decide (0 < observed dsm i j)
  || bool_decide (expected med i j = 1) && bool_decide (observed dsm i j < 1).

(** The test of [Archan._check_matrices_compliance]. *)
Definition legacy_discrepancy (dsm : DesignStructureMatrix)
    (med : list (list Z)) (i j : nat) : bool :=
  negb (bool_decide (expected med i j = -1))
  && negb (bool_decide (observed dsm i j = expected med i j)).

(** All pairs of indices below [n], row by row. *)
Definition square_pairs (n : nat) : list (nat * nat) :=
  pairs_of (seq 0 n) (λ _, seq 0 n).

(** An [n] by [n] matrix. *)
Definition square (n : nat) (m : list (list Z)) : Prop :=
  length m = n ∧ Forall (λ row, length row = n) m.

(** An application module that depends on a data entity, a stray category
    and a second module. *)
Definition dsm_stray : DesignStructureMatrix := {|
  categories := [app_module; "plugin"; app_module];
  entities := ["shop.cart"; "shop.hooks"; "blog.posts"];
  dependency_matrix := [[0; 1; 0]; [0; 0; 0]; [1; 0; 0]];
  size := 3 |}.

(** Two application modules of different packages that use each other, and
    a broker. *)
Definition dsm_unmediated : DesignStructureMatrix := {|
  categories := [app_module; app_module; broker];
  entities := ["shop.cart"; "blog.posts"; "hub.events"];
  dependency_matrix := [[0; 2; 1]; [1; 0; 0]; [1; 1; 0]];
  size := 3 |}.


(** The outcome of a check whose message is empty exactly when it passes. *)
Definition consistent (r : result (bool * string)) : Prop :=
  r = Ok (true, "") ∨ ∃ message, message ≠ "" ∧ r = Ok (false, message).

(** [Criterion('STRICT_ECONOMY', 'Strict economy',
    check=check_economy_of_mechanism, simplicity_factor=1)]: a criterion that
    binds the factor of its check. *)
Definition STRICT_ECONOMY : Criterion DesignStructureMatrix := {|
  codename := "STRICT_ECONOMY"; title := "Strict economy";
  description := ""; hint := "";
  check := Some (λ dsm, one_keyword "simplicity_factor" 2
    (λ f, returns_bool (check_economy_of_mechanism dsm f)));
  kwargs := {["simplicity_factor" := 1]} |}.


(** The order in which two nested loops over rows and columns meet the
    cells: an earlier row, or the same row and an earlier column. *)
Definition row_major (p q : nat * nat) : Prop :=
  (p.1 < q.1)%nat ∨ (p.1 = q.1 ∧ (p.2 < q.2)%nat).


(** * Properties *)

(** ** Loops *)

Section loops.
Context {X St : Type}.
Implicit Types (l : list X) (body : X → St → result St) (s : St).

Lemma for_app l1 l2 body s :
  for_ (l1 ++ l2) body s = (s' ← for_ l1 body s; for_ l2 body s').
Proof.
  revert s. induction l1 as [|x l1 IH]; intros s; simpl; [done|].
  destruct (body x s); simpl; auto.
Qed.

Lemma for_ext l body body' s :
  (∀ x s, x ∈ l → body x s = body' x s) →
  for_ l body s = for_ l body' s.
Proof.
  revert s. induction l as [|x l IH]; intros s Hb; simpl; [done|].
  rewrite Hb by left. destruct (body' x s); simpl; [|done].
  apply IH. intros; apply Hb. by right.
Qed.
End loops.

(** Two nested loops are one loop over the pairs of indices. *)
Lemma for_nested {X Y St} (l1 : list X) (l2 : X → list Y)
    (body : X → Y → St → result St) (s : St) :
  for_ l1 (λ x s, for_ (l2 x) (body x) s) s
  = for_ (pairs_of l1 l2) (λ p, body p.1 p.2) s.
Proof.
  revert s. induction l1 as [|x l1 IH]; intros s; [done|].
  unfold pairs_of. simpl. rewrite for_app.
  assert (for_ (l2 x) (body x) s = for_ (pair x <$> l2 x) (λ p, body p.1 p.2) s) as ->.
  { generalize (l2 x) s. induction l as [|y l IHl]; intros s0; simpl; [done|].
    destruct (body x y s0); simpl; auto. }
  destruct (for_ _ _ s); simpl; [|done]. apply IH.
Qed.

Lemma elem_of_pairs_of {X Y} (l1 : list X) (l2 : X → list Y) x y :
  (x, y) ∈ pairs_of l1 l2 ↔ x ∈ l1 ∧ y ∈ l2 x.
Proof.
  unfold pairs_of. rewrite list_elem_of_bind. split.
  - intros (x' & Hin & Hx'). apply list_elem_of_fmap in Hin as (y' & [= -> ->] & Hy').
    done.
  - intros [Hx Hy]. exists x. split; [|done]. apply list_elem_of_fmap. eauto.
Qed.

Lemma elem_of_range a b i : i ∈ range a b ↔ (a ≤ i < b)%nat.
Proof. unfold range. rewrite elem_of_seq. lia. Qed.

(** A loop that counts the indices passing a test. *)
Lemma for_count {X} (l : list X) (test : X → result bool) (P : X → bool) (n : Z) :
  (∀ x, x ∈ l → test x = Ok (P x)) →
  for_ l (λ x n, c ← test x; Ok (if c : bool then n + 1 else n)) n
  = Ok (n + Z.of_nat (length (List.filter P l))).
Proof.
  revert n. induction l as [|x l IH]; intros n Ht; simpl.
  - f_equal. lia.
  - rewrite Ht by left. simpl. rewrite IH by (intros; apply Ht; by right).
    f_equal. destruct (P x); simpl; lia.
Qed.

(** A loop that collects a message for every index passing a test and
    clears a flag when there is one. *)
Lemma for_collect {X} (l : list X) (body : X → bool * list string → result (bool * list string))
    (P : X → bool) (msg : X → string) (b : bool) (ms : list string) :
  (∀ x b ms, x ∈ l →
     body x (b, ms) = Ok (if P x then (false, ms ++ [msg x]) else (b, ms))) →
  for_ l body (b, ms)
  = Ok (b && bool_decide (List.filter P l = []), ms ++ (msg <$> List.filter P l)).
Proof.
  revert b ms. induction l as [|x l IH]; intros b ms Hb; simpl.
  - by rewrite andb_true_r, app_nil_r.
  - rewrite Hb by left. simpl. destruct (P x); simpl.
    + rewrite IH by (intros; apply Hb; by right). simpl.
      by rewrite andb_false_r, <-app_assoc.
    + rewrite IH by (intros; apply Hb; by right). done.
Qed.

(** ** Package names *)

Lemma has_dot_split_dot_0 s : has_dot (split_dot_0 s) = false.
Proof.
  induction s as [|c r IH]; [done|]. cbn [split_dot_0].
  destruct (Ascii.eqb c ".") eqn:Hc; [done|]. cbn [has_dot]. by rewrite Hc.
Qed.

Lemma prefix_String a p c r :
  String.prefix (String a p) (String c r) = bool_decide (a = c) && String.prefix p r.
Proof.
  change (String.prefix (String a p) (String c r))
    with (if Ascii.ascii_dec a c then String.prefix p r else false).
  destruct (Ascii.ascii_dec a c).
  - by rewrite bool_decide_eq_true_2.
  - by rewrite bool_decide_eq_false_2.
Qed.

Lemma ascii_eqb_decide (a c : ascii) : Ascii.eqb a c = bool_decide (a = c).
Proof.
  destruct (Ascii.eqb a c) eqn:E.
  - apply Ascii.eqb_eq in E. by rewrite bool_decide_eq_true_2.
  - apply Ascii.eqb_neq in E. by rewrite bool_decide_eq_false_2.
Qed.

(** A string starts with a dot-free [p] followed by a dot exactly when it
    has a dot and [p] is what comes before its first one. *)
Lemma startswith_dot p s :
  has_dot p = false →
  startswith s (p +:+ ".") = has_dot s && bool_decide (split_dot_0 s = p).
Proof.
  unfold startswith. revert s. induction p as [|a p IH]; intros s Hp.
  - destruct s as [|c r]; [done|].
    change ("" +:+ ".") with (String "." "").
    rewrite prefix_String. cbn [has_dot split_dot_0].
    rewrite ascii_eqb_decide. case_bool_decide as Hc.
    + subst c. rewrite bool_decide_eq_true_2 by done. by destruct r.
    + rewrite bool_decide_eq_false_2 by congruence.
      rewrite (bool_decide_eq_false_2 (String _ _ = "")) by done.
      by rewrite andb_false_r.
  - cbn [has_dot] in Hp. rewrite ascii_eqb_decide in Hp.
    case_bool_decide as Ha; [done|].
    destruct s as [|c r]; [done|].
    change (String a p +:+ ".") with (String a (p +:+ ".")).
    rewrite prefix_String, IH by done. cbn [has_dot split_dot_0].
    rewrite ascii_eqb_decide.
    destruct (decide (a = c)) as [<-|Hne].
    + rewrite bool_decide_eq_true_2, (bool_decide_eq_false_2 (a = "."%char)) by done.
      simpl. f_equal. apply bool_decide_ext. split; [congruence|]. by intros [= ->].
    + rewrite (bool_decide_eq_false_2 (a = c)) by done. simpl.
      case_bool_decide.
      * by rewrite bool_decide_eq_false_2.
      * rewrite bool_decide_eq_false_2; [by rewrite andb_false_r|]. congruence.
Qed.

Lemma startswith_package ei ej :
  startswith ei (split_dot_0 ej +:+ ".")
  = has_dot ei && bool_decide (split_dot_0 ei = split_dot_0 ej).
Proof. apply startswith_dot, has_dot_split_dot_0. Qed.

(** ** Lists filled in place *)

Lemma getitem_Some {A} (l : list A) i x : l !! i = Some x → getitem l i = Ok x.
Proof. unfold getitem. by intros ->. Qed.

Lemma setitem_lt {A} (l : list A) i x :
  (i < length l)%nat → setitem l i x = Ok (<[i := x]> l).
Proof. intros. unfold setitem. by rewrite decide_True. Qed.

Lemma setitem2_Some {A} (m : list (list A)) i j x row :
  m !! i = Some row →
  setitem2 m i j x = (row' ← setitem row j x; Ok (<[i := row']> m)).
Proof. intros Hrow. unfold setitem2. by rewrite (getitem_Some _ _ _ Hrow). Qed.

(** A loop that assigns [g i] to slot [i], for the indices from [a] on. *)
Lemma for_assign {A} (P : A → Prop) (g : nat → A)
    (body : nat → list A → result (list A)) (k : nat) :
  ∀ (a : nat) (s : list A),
    length s = (a + k)%nat →
    Forall P s →
    (∀ i, (a ≤ i < a + k)%nat → P (g i)) →
    (∀ i s, (a ≤ i < a + k)%nat → length s = (a + k)%nat → Forall P s →
       body i s = Ok (<[i := g i]> s)) →
    for_ (seq a k) body s = Ok (take a s ++ (g <$> seq a k)).
Proof.
  induction k as [|k IH]; intros a s Hlen HP Hg Hbody; simpl.
  - rewrite app_nil_r, take_ge by lia. done.
  - rewrite Hbody by (done || lia). simpl.
    rewrite IH.
    + f_equal. rewrite cons_middle, app_assoc. f_equal.
      assert (is_Some (s !! a)) as [x Hx] by (apply lookup_lt_is_Some; lia).
      rewrite (take_S_r (<[a:=g a]> s) a (g a)).
      * by rewrite take_insert_ge by lia.
      * apply list_lookup_insert_eq. lia.
    + rewrite length_insert. lia.
    + apply Forall_insert; [done|]. apply Hg. lia.
    + intros; apply Hg; lia.
    + intros i s' ? ? ?. apply Hbody; [lia|lia|done].
Qed.

(** Assigning to [m[i][j]] along a row is assigning along the row and
    storing it back. *)
Lemma for_setitem2 {A} (v : nat → A) (l : list nat) :
  ∀ (m : list (list A)) (i : nat) (row : list A),
    m !! i = Some row →
    for_ l (λ j m, setitem2 m i j (v j)) m
    = (row' ← for_ l (λ j row, setitem row j (v j)) row; Ok (<[i := row']> m)).
Proof.
  induction l as [|j l IH]; intros m i row Hrow; simpl.
  - by rewrite list_insert_id.
  - rewrite (setitem2_Some _ _ _ _ _ Hrow).
    destruct (setitem row j (v j)) as [row'|e]; simpl; [|done].
    rewrite (IH _ i row').
    + destruct (for_ l _ row'); simpl; [|done]. by rewrite list_insert_insert_eq.
    + apply list_lookup_insert_eq. by eapply lookup_lt_Some.
Qed.

(** The two nested loops of the generators fill an [n] by [n] table. *)
Lemma for_fill_table (n : nat) (f : nat → nat → Z)
    (body : nat → nat → list (list Z) → result (list (list Z))) :
  (∀ i j m, (i < n)%nat → (j < n)%nat → body i j m = setitem2 m i j (f i j)) →
  for_ (range 0 n) (λ i m, for_ (range 0 n) (λ j m, body i j m) m)
       (replicate n (replicate n 0))
  = Ok ((λ i, f i <$> seq 0 n) <$> seq 0 n).
Proof.
  intros Hbody. unfold range. rewrite Nat.sub_0_r.
  rewrite (for_assign (λ row, length row = n) (λ i, f i <$> seq 0 n)).
  - done.
  - by rewrite length_replicate.
  - apply Forall_replicate. by rewrite length_replicate.
  - intros. by rewrite length_fmap, length_seq.
  - intros i m Hi Hlen Hrows.
    assert (is_Some (m !! i)) as [row Hrow] by (apply lookup_lt_is_Some; lia).
    assert (length row = n) as Hrowlen.
    { by eapply (Forall_lookup_1 _ _ _ _ Hrows). }
    rewrite (for_ext _ _ (λ j m, setitem2 m i j (f i j))).
    2:{ intros j m' Hj. apply elem_of_seq in Hj. apply Hbody; lia. }
    rewrite (for_setitem2 _ _ _ _ row) by done.
    rewrite (for_assign (λ _, True) (f i)); simpl; try done.
    + by apply Forall_true.
    + intros j s Hj Hs _. apply setitem_lt. lia.
Qed.

Lemma lookup_table {A} (n : nat) (f : nat → nat → A) i j :
  (i < n)%nat → (j < n)%nat →
  ((λ i, f i <$> seq 0 n) <$> seq 0 n) !! i ≫= (.!! j) = Some (f i j).
Proof.
  intros Hi Hj. rewrite list_lookup_fmap, lookup_seq_lt by done. simpl.
  by rewrite list_lookup_fmap, lookup_seq_lt.
Qed.

(** ** The mediation matrix generator *)

Lemma cat_eq_refl c : cat_eq c c = true.
Proof. by apply bool_decide_eq_true_2. Qed.

Lemma cat_eq_ne a b : a ≠ b → cat_eq a b = false.
Proof. by apply bool_decide_eq_false_2. Qed.

(** Decides the comparisons between two category constants. *)
Ltac cat_eval :=
  repeat match goal with
  | |- context [cat_eq ?a ?a] => rewrite (cat_eq_refl a)
  | |- context [cat_eq ?a ?b] => rewrite (cat_eq_ne a b) by done
  end.

Lemma known_category_cases c :
  known_category c →
  c = framework ∨ c = core_lib ∨ c = app_lib ∨ c = app_module ∨ c = broker
  ∨ c = data.
Proof. unfold known_category. rewrite !elem_of_cons, elem_of_nil. tauto. Qed.

Section lookups.
Context (dsm : DesignStructureMatrix) (Hwf : wf_dsm dsm).

Lemma category_lookup i :
  (i < size dsm)%nat → categories dsm !! i = Some (category dsm i).
Proof.
  intros Hi. destruct Hwf as (Hc & _). unfold category.
  destruct (lookup_lt_is_Some_2 (categories dsm) i) as [c ->]; [lia|done].
Qed.

Lemma entity_lookup i :
  (i < size dsm)%nat → entities dsm !! i = Some (entity dsm i).
Proof.
  intros Hi. destruct Hwf as (_ & He & _). unfold entity.
  destruct (lookup_lt_is_Some_2 (entities dsm) i) as [c ->]; [lia|done].
Qed.

Lemma package_lookup j :
  (j < size dsm)%nat →
  (split_dot_0 <$> entities dsm) !! j = Some (split_dot_0 (entity dsm j)).
Proof. intros. by rewrite list_lookup_fmap, entity_lookup. Qed.

Lemma observed_lookup i j :
  (i < size dsm)%nat → (j < size dsm)%nat →
  getitem2 (dependency_matrix dsm) i j = Ok (observed dsm i j).
Proof.
  intros Hi Hj. destruct Hwf as (_ & _ & Hm & Hrows). unfold observed, getitem2.
  destruct (lookup_lt_is_Some_2 (dependency_matrix dsm) i) as [row Hrow]; [lia|].
  rewrite (getitem_Some _ _ _ Hrow), Hrow. simpl.
  assert (length row = size dsm) as Hlen.
  { by eapply (Forall_lookup_1 _ _ _ _ Hrows). }
  destruct (lookup_lt_is_Some_2 row j) as [x Hx]; [lia|].
  by rewrite (getitem_Some _ _ _ Hx), Hx.
Qed.

Lemma same_package_clause_wf i j :
  (i < size dsm)%nat → (j < size dsm)%nat →
  same_package_clause (entities dsm) (split_dot_0 <$> entities dsm) i j
  = Ok (startswith (entity dsm i) (split_dot_0 (entity dsm j) +:+ ".")).
Proof.
  intros Hi Hj. unfold same_package_clause.
  by rewrite (getitem_Some _ _ _ (entity_lookup i Hi)),
    (getitem_Some _ _ _ (package_lookup j Hj)).
Qed.

Lemma tolerated_or_same_wf tolerated i j :
  (i < size dsm)%nat → (j < size dsm)%nat →
  tolerated_or_same (categories dsm) (entities dsm)
    (split_dot_0 <$> entities dsm) tolerated i j
  = Ok (cat_in (category dsm j) tolerated
        || startswith (entity dsm i) (split_dot_0 (entity dsm j) +:+ ".")
        || bool_decide (i = j)).
Proof.
  intros Hi Hj. unfold tolerated_or_same.
  rewrite (getitem_Some _ _ _ (category_lookup j Hj)),
    same_package_clause_wf by done. simpl.
  destruct (cat_in _ _); [done|]. simpl. by destruct (startswith _ _).
Qed.

Lemma mediation_value_wf i j :
  (i < size dsm)%nat → (j < size dsm)%nat →
  known_category (category dsm i) →
  mediation_value (categories dsm) (entities dsm)
    (split_dot_0 <$> entities dsm) i j
  = Ok (mediation_cell (category dsm i) (category dsm j)
          (entity dsm i) (entity dsm j) i j).
Proof.
  intros Hi Hj Hk.
  unfold mediation_value, mediation_cell, mediation_cell_with, rule_value.
  rewrite (getitem_Some _ _ _ (category_lookup i Hi)),
    (getitem_Some _ _ _ (category_lookup j Hj)). simpl.
  rewrite !tolerated_or_same_wf by done. simpl.
  destruct (known_category_cases _ Hk) as [-> | [-> | [-> | [-> | [-> | ->]]]]];
    cat_eval; try done.
  by destruct (cat_eq _ _).
Qed.

Lemma legacy_mediation_step_wf i j m :
  (i < size dsm)%nat → (j < size dsm)%nat →
  known_category (category dsm i) →
  Archan.mediation_step (categories dsm) (entities dsm)
    (split_dot_0 <$> entities dsm) i j m
  = setitem2 m i j (legacy_mediation_cell (category dsm i) (category dsm j)
                      (entity dsm i) (entity dsm j) i j).
Proof.
  intros Hi Hj Hk.
  unfold Archan.mediation_step, legacy_mediation_cell, mediation_cell_with,
    rule_value.
  rewrite (getitem_Some _ _ _ (category_lookup i Hi)),
    (getitem_Some _ _ _ (category_lookup j Hj)). simpl.
  rewrite !tolerated_or_same_wf by done. simpl.
  destruct (known_category_cases _ Hk) as [-> | [-> | [-> | [-> | [-> | ->]]]]];
    cat_eval; try done.
  by destruct (cat_eq _ _).
Qed.
End lookups.

Lemma generate_mediation_matrix_wf dsm :
  wf_dsm dsm → Forall known_category (categories dsm) →
  _generate_mediation_matrix dsm = Ok (table_of dsm mediation_cell).
Proof.
  intros Hwf Hk. unfold _generate_mediation_matrix, table_of.
  apply for_fill_table. intros i j m Hi Hj.
  rewrite mediation_value_wf; [done..|].
  eapply (Forall_lookup_1 _ _ _ _ Hk), category_lookup; done.
Qed.

Lemma legacy_generate_mediation_matrix_wf dsm :
  wf_dsm dsm → Forall known_category (categories dsm) →
  Archan._generate_mediation_matrix dsm = Ok (table_of dsm legacy_mediation_cell).
Proof.
  intros Hwf Hk. unfold Archan._generate_mediation_matrix, table_of.
  apply for_fill_table. intros i j m Hi Hj.
  apply legacy_mediation_step_wf; [done..|].
  eapply (Forall_lookup_1 _ _ _ _ Hk), category_lookup; done.
Qed.

Lemma table_of_cell dsm f i j :
  (i < size dsm)%nat → (j < size dsm)%nat →
  cell (table_of dsm f) i j
  = Some (f (category dsm i) (category dsm j) (entity dsm i) (entity dsm j) i j).
Proof. intros. unfold cell, table_of. by rewrite lookup_table. Qed.

Lemma table_of_cell_inv dsm f i j v :
  cell (table_of dsm f) i j = Some v →
  (i < size dsm)%nat ∧ (j < size dsm)%nat ∧
  v = f (category dsm i) (category dsm j) (entity dsm i) (entity dsm j) i j.
Proof.
  unfold cell, table_of. intros H.
  apply bind_Some in H as (row & Hrow & Hv).
  apply list_lookup_fmap_Some in Hrow as (i' & -> & Hi).
  apply lookup_seq in Hi as [-> Hi].
  apply list_lookup_fmap_Some in Hv as (j' & -> & Hj).
  apply lookup_seq in Hj as [-> Hj]. done.
Qed.

Lemma table_of_shape dsm f :
  length (table_of dsm f) = size dsm ∧
  Forall (λ row, length row = size dsm) (table_of dsm f).
Proof.
  unfold table_of. split.
  - by rewrite length_fmap, length_seq.
  - apply Forall_fmap, Forall_forall. intros i _. simpl.
    by rewrite length_fmap, length_seq.
Qed.

Lemma mediation_cell_with_values ct bt ci cj ei ej i j :
  mediation_cell_with ct bt ci cj ei ej i j = -1 ∨
  mediation_cell_with ct bt ci cj ei ej i j = 0.
Proof.
  unfold mediation_cell_with, rule_value.
  repeat match goal with |- context [if ?b then _ else _] => destruct b end; auto.
Qed.

Lemma table_of_never_required dsm ct bt :
  length (table_of dsm (mediation_cell_with ct bt)) = size dsm
  ∧ Forall (λ row, length row = size dsm) (table_of dsm (mediation_cell_with ct bt))
  ∧ ∀ i j v, cell (table_of dsm (mediation_cell_with ct bt)) i j = Some v →
             (v = -1 ∨ v = 0) ∧ v ≠ 1.
Proof.
  destruct (table_of_shape dsm (mediation_cell_with ct bt)) as [Hl Hr].
  split; [done|]. split; [done|]. intros i j v Hv.
  apply table_of_cell_inv in Hv as (_ & _ & ->).
  destruct (mediation_cell_with_values ct bt (category dsm i) (category dsm j)
              (entity dsm i) (entity dsm j) i j) as [E|E]; rewrite E; lia.
Qed.

Lemma rule_value_spec tolerated cj ei ej i j :
  rule_value tolerated cj ei ej i j
  = if decide (cj ∈ tolerated
               ∨ (has_dot ei = true
                  ∧ top_level_package ei = top_level_package ej)
               ∨ i = j)
    then -1 else 0.
Proof.
  unfold rule_value, cat_in, top_level_package. rewrite startswith_package.
  case_decide as H.
  - destruct H as [H | [[H1 H2] | H]].
    + by rewrite bool_decide_eq_true_2.
    + rewrite H1, (bool_decide_eq_true_2 _ H2). simpl. by rewrite orb_true_r.
    + rewrite (bool_decide_eq_true_2 (i = j)) by done. by rewrite orb_true_r.
  - rewrite (bool_decide_eq_false_2 (cj ∈ tolerated)) by tauto.
    rewrite (bool_decide_eq_false_2 (i = j)) by tauto.
    destruct (has_dot ei) eqn:Hd; simpl; [|done].
    rewrite bool_decide_eq_false_2; [done|]. tauto.
Qed.

(** Proves the invariant of a concrete matrix. *)
Ltac solve_wf := unfold wf_dsm; simpl; repeat split; repeat constructor.
Ltac solve_known :=
  simpl; repeat constructor; unfold known_category; set_solver.

(** C8. For a well-formed matrix whose categories are all among the six
    known ones, the generator of criterion.py returns a square matrix of the
    same side in which every cell is -1 or 0, hence never 1; so does the
    generator of checker.py. *)
Theorem generated_cells_never_required dsm :
  wf_dsm dsm → Forall known_category (categories dsm) →
  (∃ m, _generate_mediation_matrix dsm = Ok m
        ∧ length m = size dsm
        ∧ Forall (λ row, length row = size dsm) m
        ∧ ∀ i j v, cell m i j = Some v → (v = -1 ∨ v = 0) ∧ v ≠ 1)
  ∧ (∃ m, Archan._generate_mediation_matrix dsm = Ok m
        ∧ length m = size dsm
        ∧ Forall (λ row, length row = size dsm) m
        ∧ ∀ i j v, cell m i j = Some v → (v = -1 ∨ v = 0) ∧ v ≠ 1).
Proof.
  intros Hwf Hk. split.
  - exists (table_of dsm mediation_cell).
    split; [by apply generate_mediation_matrix_wf|].
    apply table_of_never_required.
  - exists (table_of dsm legacy_mediation_cell).
    split; [by apply legacy_generate_mediation_matrix_wf|].
    apply table_of_never_required.
Qed.

Lemma generated_cells_never_required_witness :
  (∃ m, _generate_mediation_matrix dsm_three = Ok m
        ∧ length m = size dsm_three
        ∧ Forall (λ row, length row = size dsm_three) m
        ∧ ∀ i j v, cell m i j = Some v → (v = -1 ∨ v = 0) ∧ v ≠ 1)
  ∧ (∃ m, Archan._generate_mediation_matrix dsm_three = Ok m
        ∧ length m = size dsm_three
        ∧ Forall (λ row, length row = size dsm_three) m
        ∧ ∀ i j v, cell m i j = Some v → (v = -1 ∨ v = 0) ∧ v ≠ 1).
Proof.
  apply (generated_cells_never_required dsm_three); [solve_wf | solve_known].
Defined.

(** C1, as amended. For a well-formed matrix whose categories are all
    known, cell (i,j) of the generated matrix, for an entity i of category
    core_lib, is -1 exactly when the category of j is framework or core_lib,
    or the name of entity i has a dot and the two entities have the same
    top-level package, or i = j; it is 0 otherwise. *)
Theorem core_lib_row dsm i j :
  wf_dsm dsm → Forall known_category (categories dsm) →
  (i < size dsm)%nat → (j < size dsm)%nat →
  category dsm i = core_lib →
  ∃ m, _generate_mediation_matrix dsm = Ok m ∧
    cell m i j = Some
      (if decide (category dsm j ∈ [framework; core_lib]
                  ∨ (has_dot (entity dsm i) = true
                     ∧ top_level_package (entity dsm i)
                       = top_level_package (entity dsm j))
                  ∨ i = j)
       then -1 else 0).
Proof.
  intros Hwf Hk Hi Hj Hc. exists (table_of dsm mediation_cell).
  split; [by apply generate_mediation_matrix_wf|].
  rewrite table_of_cell by done. f_equal.
  unfold mediation_cell, mediation_cell_with. rewrite Hc. cat_eval.
  apply rule_value_spec.
Qed.

Lemma core_lib_row_witness :
  ∃ m, _generate_mediation_matrix dsm_three = Ok m ∧ cell m 0 1 = Some (-1).
Proof.
  apply (core_lib_row dsm_three 0 1);
    [solve_wf | solve_known | simpl; lia | simpl; lia | reflexivity].
Defined.

(** C1 as stated fails: in [dsm_core_in_package] entity 0 is a core library
    named [a], entity 1 is the application module [a.x]; both have the
    top-level package [a] and 0 ≠ 1, yet cell (0,1) is 0. *)
Lemma core_lib_row_counterexample :
  wf_dsm dsm_core_in_package
  ∧ Forall known_category (categories dsm_core_in_package)
  ∧ category dsm_core_in_package 0 = core_lib
  ∧ top_level_package (entity dsm_core_in_package 0)
    = top_level_package (entity dsm_core_in_package 1)
  ∧ 0%nat ≠ 1%nat
  ∧ ∃ m, _generate_mediation_matrix dsm_core_in_package = Ok m
         ∧ cell m 0 1 = Some 0.
Proof.
  split; [solve_wf|]. split; [solve_known|].
  repeat split; [done|].
  exists [[-1; 0]; [-1; -1]]. split; [|done]. vm_compute. reflexivity.
Qed.

(** X20. In checker.py a core library may not depend on another core
    library of a different package: its row is -1 for frameworks, for the
    entities of its own package when its name has a dot, and for itself. *)
Lemma legacy_core_lib_row dsm i j :
  wf_dsm dsm → Forall known_category (categories dsm) →
  (i < size dsm)%nat → (j < size dsm)%nat →
  category dsm i = core_lib →
  ∃ m, Archan._generate_mediation_matrix dsm = Ok m ∧
    cell m i j = Some
      (if decide (category dsm j ∈ [framework]
                  ∨ (has_dot (entity dsm i) = true
                     ∧ top_level_package (entity dsm i)
                       = top_level_package (entity dsm j))
                  ∨ i = j)
       then -1 else 0).
Proof.
  intros Hwf Hk Hi Hj Hc. exists (table_of dsm legacy_mediation_cell).
  split; [by apply legacy_generate_mediation_matrix_wf|].
  rewrite table_of_cell by done. f_equal.
  unfold legacy_mediation_cell, mediation_cell_with. rewrite Hc. cat_eval.
  apply rule_value_spec.
Qed.

(** C4, as amended. For i ≠ j and an entity i that is a core library, an
    application library, an application module or a broker, the package
    clause of the generator holds exactly when the name of entity i has a
    dot and its top-level package is that of entity j; the cell is -1 when
    the clause holds or the category of j is one of those listed for the
    category of i, and 0 otherwise. *)
Theorem package_clause dsm i j :
  wf_dsm dsm → Forall known_category (categories dsm) →
  (i < size dsm)%nat → (j < size dsm)%nat → i ≠ j →
  category dsm i ∈ [core_lib; app_lib; app_module; broker] →
  ∃ m b,
    _generate_mediation_matrix dsm = Ok m
    ∧ same_package_clause (entities dsm) (split_dot_0 <$> entities dsm) i j = Ok b
    ∧ (b = true ↔
         has_dot (entity dsm i) = true
         ∧ top_level_package (entity dsm i) = top_level_package (entity dsm j))
    ∧ cell m i j = Some
        (if decide (category dsm j ∈ tolerated_categories (category dsm i)
                    ∨ b = true)
         then -1 else 0).
Proof.
  intros Hwf Hk Hi Hj Hne Hc.
  exists (table_of dsm mediation_cell),
    (startswith (entity dsm i) (split_dot_0 (entity dsm j) +:+ ".")).
  split; [by apply generate_mediation_matrix_wf|].
  split; [by apply same_package_clause_wf|].
  assert (startswith (entity dsm i) (split_dot_0 (entity dsm j) +:+ ".") = true
          ↔ has_dot (entity dsm i) = true
            ∧ top_level_package (entity dsm i) = top_level_package (entity dsm j))
    as Hclause.
  { rewrite startswith_package, andb_true_iff, bool_decide_eq_true. done. }
  split; [done|].
  rewrite table_of_cell by done. f_equal.
  assert (mediation_cell (category dsm i) (category dsm j) (entity dsm i)
            (entity dsm j) i j
          = rule_value (tolerated_categories (category dsm i)) (category dsm j)
              (entity dsm i) (entity dsm j) i j) as ->.
  { unfold mediation_cell, mediation_cell_with, tolerated_categories.
    rewrite !elem_of_cons, elem_of_nil in Hc.
    destruct Hc as [-> | [-> | [-> | [-> | []]]]]; by cat_eval. }
  rewrite rule_value_spec. apply decide_ext. tauto.
Qed.

Lemma package_clause_witness :
  ∃ m b,
    _generate_mediation_matrix dsm_three = Ok m
    ∧ same_package_clause (entities dsm_three)
        (split_dot_0 <$> entities dsm_three) 1 0 = Ok b
    ∧ (b = true ↔
         has_dot (entity dsm_three 1) = true
         ∧ top_level_package (entity dsm_three 1)
           = top_level_package (entity dsm_three 0))
    ∧ cell m 1 0 = Some
        (if decide (category dsm_three 0
                      ∈ tolerated_categories (category dsm_three 1)
                    ∨ b = true)
         then -1 else 0).
Proof.
  apply (package_clause dsm_three 1 0);
    [solve_wf | solve_known | simpl; lia | simpl; lia | lia |].
  unfold category; simpl. set_solver.
Defined.

(** C4 as stated fails: in [dsm_same_package] the application modules [a]
    and [a.x] have the same top-level package, but the clause does not hold
    from [a] to [a.x], whose cell is 0, while it holds from [a.x] to [a],
    whose cell is -1. *)
Lemma package_clause_counterexample :
  wf_dsm dsm_same_package
  ∧ Forall known_category (categories dsm_same_package)
  ∧ category dsm_same_package 0 = app_module
  ∧ category dsm_same_package 1 = app_module
  ∧ top_level_package (entity dsm_same_package 0)
    = top_level_package (entity dsm_same_package 1)
  ∧ same_package_clause (entities dsm_same_package)
      (split_dot_0 <$> entities dsm_same_package) 0 1 = Ok false
  ∧ same_package_clause (entities dsm_same_package)
      (split_dot_0 <$> entities dsm_same_package) 1 0 = Ok true
  ∧ ∃ m, _generate_mediation_matrix dsm_same_package = Ok m
         ∧ cell m 0 1 = Some 0 ∧ cell m 1 0 = Some (-1).
Proof.
  split; [solve_wf|]. split; [solve_known|].
  repeat split; [done..|].
  exists [[-1; 0]; [-1; -1]]. split; [|done]. vm_compute. reflexivity.
Qed.

(** ** The compliance comparison *)

(** C3, as amended. When the observed matrix and the mediation matrix both
    have a first row and differ in their number of rows or of columns,
    [_matrices_compliance] of criterion.py raises the ArchanError about the
    numbers of rows and columns and returns no boolean, while
    [Archan._check_matrices_compliance] of checker.py prints which number
    differs and returns False. When one of the two matrices has no row,
    both raise IndexError on its first row. *)
Theorem matrices_compliance_dimension_mismatch dsm med :
  row_count (dependency_matrix dsm) ≠ row_count med
  ∨ column_count (dependency_matrix dsm) ≠ column_count med →
  (dependency_matrix dsm ≠ [] → med ≠ [] →
     _matrices_compliance dsm med
     = Raise (ArchanError
         "Matrices are NOT compliant (number of rows/columns not equal)")
     ∧ Archan._check_matrices_compliance dsm med
       = Ok (false,
             [if decide (row_count (dependency_matrix dsm) = row_count med)
              then "Matrices are NOT compliant(number of columns not equals)"
              else "Matrices are NOT compliant (number of rows not equals)"]))
  ∧ (dependency_matrix dsm = [] ∨ med = [] →
     _matrices_compliance dsm med = Raise IndexError
     ∧ Archan._check_matrices_compliance dsm med = Raise IndexError).
Proof.
  intros Hdiff.
  unfold _matrices_compliance, Archan._check_matrices_compliance, row_count,
    column_count, getitem in *.
  destruct (dependency_matrix dsm) as [|row0 m] eqn:Hm; simpl.
  { split; [done|]. intros _. done. }
  destruct med as [|mrow0 med]; simpl.
  { split; [done|]. intros _. done. }
  simpl in Hdiff. split; [|by intros [|]].
  intros _ _. split.
  - assert (bool_decide (S (length m) ≠ S (length med))
            || bool_decide (length row0 ≠ length mrow0) = true) as ->; [|done].
    apply orb_true_iff. rewrite !bool_decide_eq_true.
    destruct Hdiff as [H|H]; [by left|right]. congruence.
  - case_bool_decide as Hr; [|by rewrite decide_False].
    rewrite decide_True by done.
    case_bool_decide as Hc; [|done].
    destruct Hdiff as [H|H]; [done|]. congruence.
Qed.

Lemma matrices_compliance_dimension_mismatch_witness :
  row_count (dependency_matrix dsm_three) ≠ row_count [[0; 0]; [0; 0]]
  ∧ _matrices_compliance dsm_three [[0; 0]; [0; 0]]
    = Raise (ArchanError
        "Matrices are NOT compliant (number of rows/columns not equal)")
  ∧ Archan._check_matrices_compliance dsm_three [[0; 0]; [0; 0]]
    = Ok (false, ["Matrices are NOT compliant (number of rows not equals)"]).
Proof.
  assert (row_count (dependency_matrix dsm_three) ≠ row_count [[0; 0]; [0; 0]])
    as Hrows by (vm_compute; lia).
  split; [exact Hrows|].
  apply (proj1 (matrices_compliance_dimension_mismatch dsm_three
                  [[0; 0]; [0; 0]] (or_introl Hrows))); discriminate.
Defined.

(** C3 as stated fails twice. Against a mediation matrix without rows the
    three rows of [dsm_three] are a mismatch, and [_matrices_compliance]
    raises IndexError, not the ArchanError. Against a mediation matrix of
    two rows the comparison of checker.py returns False. *)
Lemma matrices_compliance_dimension_mismatch_counterexample :
  row_count (dependency_matrix dsm_three) ≠ row_count []
  ∧ _matrices_compliance dsm_three [] = Raise IndexError
  ∧ row_count (dependency_matrix dsm_three) ≠ row_count [[0; 0]; [0; 0]]
  ∧ Archan._check_matrices_compliance dsm_three [[0; 0]; [0; 0]]
    = Ok (false, ["Matrices are NOT compliant (number of rows not equals)"]).
Proof. repeat split; vm_compute; lia. Qed.

(** X21. When both matrices have a first row, the comparison of checker.py
    does not raise on a mismatch: it prints one line, about the rows when
    their numbers differ and about the columns otherwise, and returns
    False. *)
Lemma legacy_compliance_dimension_mismatch dsm med :
  dependency_matrix dsm ≠ [] → med ≠ [] →
  row_count (dependency_matrix dsm) ≠ row_count med
  ∨ column_count (dependency_matrix dsm) ≠ column_count med →
  Archan._check_matrices_compliance dsm med
  = Ok (false,
        [if decide (row_count (dependency_matrix dsm) = row_count med)
         then "Matrices are NOT compliant(number of columns not equals)"
         else "Matrices are NOT compliant (number of rows not equals)"]).
Proof.
  intros Hm Hmed Hdiff.
  unfold Archan._check_matrices_compliance, row_count, column_count, getitem in *.
  destruct (dependency_matrix dsm) as [|row0 m]; [done|].
  destruct med as [|mrow0 med]; [done|]. simpl in *.
  case_bool_decide as Hr; [|by rewrite decide_False].
  rewrite decide_True by done.
  case_bool_decide as Hc; [|done].
  destruct Hdiff as [H|H]; [done|]. congruence.
Qed.

(** ** Criterion.__call__ and the checks that are not implemented *)

(** C9. Calling a criterion that has a check runs the check with the
    keyword arguments of the call updated by those of the criterion, and
    turns its outcome (success, message) into (PASSED, message) when success
    is True, (FAILED, message) when it is False and
    (NOT_IMPLEMENTED, message) for any other value; an error of the check
    propagates. A criterion without a check returns (NOT_IMPLEMENTED, ''). *)
Theorem criterion_call {A} (self : Criterion A) (args : A) (kw : kwargs_t) :
  match check self with
  | Some f =>
      match f args (kwargs self ∪ kw) with
      | Ok (success, message) =>
          call self args kw
          = Ok (match success with
                | PyBool true => PASSED
                | PyBool false => FAILED
                | _ => NOT_IMPLEMENTED
                end, message)
      | Raise e => call self args kw = Raise e
      end
  | None => call self args kw = Ok (NOT_IMPLEMENTED, "")
  end.
Proof.
  unfold call. destruct (check self) as [f|]; [|done].
  destruct (f args _) as [[success message]|e]; [|done].
  by destruct success as [|[]| |].
Qed.

(** C7. Whatever the matrix, the criteria SEPARATION_OF_PRIVILEGES,
    LEAST_PRIVILEGES, OPEN_DESIGN and CODE_CLEAN return NOT_IMPLEMENTED with
    an empty message, because their checks return (None, ''). *)
Theorem unimplemented_criteria (read_criterion : string → string)
    (dsm : DesignStructureMatrix) :
  (check_separation_of_privileges dsm = Ok (PyNone, "")
   ∧ check_least_privileges dsm = Ok (PyNone, "")
   ∧ check_open_design dsm = Ok (PyNone, "")
   ∧ check_code_clean dsm = Ok (PyNone, ""))
  ∧ call (SEPARATION_OF_PRIVILEGES read_criterion) dsm ∅ = Ok (NOT_IMPLEMENTED, "")
  ∧ call (LEAST_PRIVILEGES read_criterion) dsm ∅ = Ok (NOT_IMPLEMENTED, "")
  ∧ call (OPEN_DESIGN read_criterion) dsm ∅ = Ok (NOT_IMPLEMENTED, "")
  ∧ call (CODE_CLEAN read_criterion) dsm ∅ = Ok (NOT_IMPLEMENTED, "").
Proof. repeat split. Qed.

(** The four in trivial matrices. *)
Example unimplemented_on_empty_matrix (rc : string → string) :
  let empty := {| categories := []; entities := [];
                  dependency_matrix := []; size := 0 |} in
  (λ c, call c empty ∅)
    <$> [SEPARATION_OF_PRIVILEGES rc; LEAST_PRIVILEGES rc; OPEN_DESIGN rc;
         CODE_CLEAN rc]
  = replicate 4 (Ok (NOT_IMPLEMENTED, "")).
Proof. reflexivity. Qed.

(** The methods of checker.py with these names return booleans. *)
Lemma legacy_unimplemented_checks self dsm :
  Archan.check_separation_of_privileges self dsm = false
  ∧ Archan.check_least_privileges self dsm = false
  ∧ Archan.check_open_design Archan.__init__ = false
  ∧ Archan.check_code_clean self = (true, ["No code issue found."]).
Proof. done. Qed.

(** ** Economy of mechanism *)

Lemma elem_of_square n p :
  p ∈ pairs_of (range 0 n) (λ _ : nat, range 0 n) →
  (p.1 < n)%nat ∧ (p.2 < n)%nat.
Proof.
  destruct p as [i j]. rewrite elem_of_pairs_of, !elem_of_range. simpl. lia.
Qed.

Lemma range_0 n : range 0 n = seq 0 n.
Proof. unfold range. by rewrite Nat.sub_0_r. Qed.

Section counting.
Context (dsm : DesignStructureMatrix) (Hwf : wf_dsm dsm).

Lemma economy_counted_wf i j :
  (i < size dsm)%nat → (j < size dsm)%nat →
  economy_counted (categories dsm) (dependency_matrix dsm) i j
  = Ok (coupled [framework; core_lib] dsm i j).
Proof.
  intros Hi Hj. unfold economy_counted, coupled.
  rewrite (getitem_Some _ _ _ (category_lookup dsm Hwf i Hi)),
    (getitem_Some _ _ _ (category_lookup dsm Hwf j Hj)),
    observed_lookup by done. simpl.
  destruct (cat_in (category dsm i) _); [done|]. simpl.
  by destruct (cat_in (category dsm j) _).
Qed.

Lemma legacy_economy_counted_wf i j :
  (i < size dsm)%nat → (j < size dsm)%nat →
  Archan.economy_counted (categories dsm) (dependency_matrix dsm) i j
  = Ok (coupled [framework] dsm i j).
Proof.
  intros Hi Hj. unfold Archan.economy_counted, coupled.
  rewrite (getitem_Some _ _ _ (category_lookup dsm Hwf i Hi)),
    (getitem_Some _ _ _ (category_lookup dsm Hwf j Hj)),
    observed_lookup by done. simpl.
  assert (∀ c, cat_eq c framework = cat_in c [framework]) as Heq.
  { intros c. apply bool_decide_ext. by rewrite list_elem_of_singleton. }
  rewrite !Heq.
  destruct (cat_in (category dsm i) _); [done|]. simpl.
  by destruct (cat_in (category dsm j) _).
Qed.

(** The two nested loops that count dependencies. *)
Lemma count_loop (test : nat → nat → result bool) (P : nat → nat → bool) :
  (∀ i j, (i < size dsm)%nat → (j < size dsm)%nat → test i j = Ok (P i j)) →
  for_ (range 0 (size dsm)) (λ i n,
    for_ (range 0 (size dsm)) (λ j n,
      c ← test i j; Ok (if c : bool then n + 1 else n)) n) 0
  = Ok (count_pairs (size dsm) P).
Proof.
  intros Htest.
  rewrite (for_nested _ (λ _, range 0 (size dsm))
             (λ i j n, c ← test i j; Ok (if c : bool then n + 1 else n))).
  rewrite (for_count _ (λ p, test p.1 p.2) (λ p, P p.1 p.2)).
  - unfold count_pairs. by rewrite range_0.
  - intros p Hp. apply elem_of_square in Hp as [Hi Hj]. by apply Htest.
Qed.
End counting.

(** C2, as amended. The check counts the ordered pairs (i,j) with
    observed(i,j) > 0 in which neither category is framework or core_lib,
    and passes exactly when this count is strictly less than N times the
    simplicity factor; on failure the message gives the count, N, the factor
    and the threshold. The registered criterion, called without a keyword,
    uses the factor 2. *)
Theorem economy_of_mechanism_count (read_criterion : string → string)
    (dsm : DesignStructureMatrix) (simplicity_factor : Z) :
  wf_dsm dsm →
  let count := count_pairs (size dsm) (coupled [framework; core_lib] dsm) in
  let threshold := Z.of_nat (size dsm) * simplicity_factor in
  check_economy_of_mechanism dsm simplicity_factor
  = Ok (if decide (count < threshold) then (true, "")
        else (false,
              "  Number of dependencies (" +:+ str count
              +:+ ") > number of rows (" +:+ str (Z.of_nat (size dsm))
              +:+ ") * simplicity factor (" +:+ str simplicity_factor
              +:+ ") = " +:+ str threshold))
  ∧ call (ECONOMY_OF_MECHANISM read_criterion) dsm ∅
    = prod_map (return_code ∘ PyBool) id <$> check_economy_of_mechanism dsm 2.
Proof.
  intros Hwf count threshold. split.
  - unfold check_economy_of_mechanism.
    rewrite (count_loop dsm _ (coupled [framework; core_lib] dsm))
      by (intros; by apply economy_counted_wf).
    simpl. fold count threshold.
    case_bool_decide; [by rewrite decide_True|by rewrite decide_False].
  - unfold call. simpl. unfold one_keyword.
    rewrite (right_id_L ∅ (∪)), dom_empty_L.
    rewrite bool_decide_eq_true_2 by set_solver.
    rewrite lookup_empty. simpl.
    destruct (check_economy_of_mechanism dsm 2) as [[[] msg]|e]; done.
Qed.

Lemma economy_of_mechanism_count_witness :
  check_economy_of_mechanism dsm_three 2 = Ok (true, "")
  ∧ call (ECONOMY_OF_MECHANISM (λ _, "")) dsm_three ∅
    = prod_map (return_code ∘ PyBool) id <$> check_economy_of_mechanism dsm_three 2.
Proof.
  apply (economy_of_mechanism_count (λ _, "") dsm_three 2). solve_wf.
Defined.

(** C2 as stated fails: the four dependencies between the two core
    libraries of [dsm_core_pair] involve no framework and 4 is not less than
    2 * 2, yet the check passes. *)
Lemma economy_of_mechanism_count_counterexample :
  wf_dsm dsm_core_pair
  ∧ count_pairs (size dsm_core_pair) (coupled [framework] dsm_core_pair) = 4
  ∧ ¬ (4 < Z.of_nat (size dsm_core_pair) * 2)
  ∧ check_economy_of_mechanism dsm_core_pair 2 = Ok (true, "").
Proof. split; [solve_wf|]. repeat split. simpl. lia. Qed.

(** The example of the specification: among five application modules, the
    twenty edges of the complete graph reach the threshold 10, nine edges
    do not. *)
Example complete_graph_fails :
  check_economy_of_mechanism dsm_complete 2
  = Ok (false,
        "  Number of dependencies (20) > number of rows (5) * simplicity factor (2) = 10").
Proof. vm_compute. reflexivity. Qed.

Example nine_edges_pass : check_economy_of_mechanism dsm_nine_edges 2 = Ok (true, "").
Proof. vm_compute. reflexivity. Qed.

(** The check of checker.py leaves out the framework only, and returns a
    bare boolean. *)
Lemma legacy_economy_of_mechanism self dsm :
  wf_dsm dsm →
  fst <$> Archan.check_economy_of_mechanism self dsm
  = Ok (bool_decide (count_pairs (size dsm) (coupled [framework] dsm)
                     < Z.of_nat (size dsm) * Archan.simplicity_factor self)).
Proof.
  intros Hwf. unfold Archan.check_economy_of_mechanism.
  rewrite (count_loop dsm _ (coupled [framework] dsm))
    by (intros; by apply legacy_economy_counted_wf).
  simpl. by case_bool_decide.
Qed.

(** ** Layered architecture *)

Lemma elem_of_upper_pairs n i j :
  (i, j) ∈ upper_pairs n ↔ (i < j < n)%nat.
Proof. unfold upper_pairs. rewrite elem_of_pairs_of, !elem_of_range. lia. Qed.

Lemma elem_of_filter_bool {X} (P : X → bool) (l : list X) x :
  x ∈ List.filter P l ↔ x ∈ l ∧ P x = true.
Proof. rewrite !list_elem_of_In. apply filter_In. Qed.

Lemma layering_violation_iff dsm i j :
  layering_violation dsm i j = true ↔
  category dsm i ≠ broker ∧ category dsm j ≠ broker
  ∧ top_level_package (entity dsm i) ≠ top_level_package (entity dsm j)
  ∧ 0 < observed dsm i j.
Proof.
  unfold layering_violation, cat_eq.
  rewrite !andb_true_iff, !negb_true_iff, !bool_decide_eq_false,
    bool_decide_eq_true. tauto.
Qed.

Lemma layering_step_wf dsm i j (st : bool * list string) :
  wf_dsm dsm → (i < size dsm)%nat → (j < size dsm)%nat →
  (let '(layered_architecture, messages) := st in
   g ← layering_guard (categories dsm) (entities dsm) i j;
   if g : bool then
     o ← getitem2 (dependency_matrix dsm) i j;
     if bool_decide (0 < o) then
       ei ← getitem (entities dsm) i;
       ej ← getitem (entities dsm) j;
       Ok (false, messages ++ [layering_message ei ej])
     else Ok (layered_architecture, messages)
   else Ok (layered_architecture, messages))
  = Ok (if layering_violation dsm i j
        then (false, st.2 ++ [layering_message (entity dsm i) (entity dsm j)])
        else st).
Proof.
  intros Hwf Hi Hj. destruct st as [b ms].
  unfold layering_guard, layering_violation, top_level_package.
  rewrite (getitem_Some _ _ _ (category_lookup dsm Hwf i Hi)),
    (getitem_Some _ _ _ (category_lookup dsm Hwf j Hj)),
    (getitem_Some _ _ _ (entity_lookup dsm Hwf i Hi)),
    (getitem_Some _ _ _ (entity_lookup dsm Hwf j Hj)),
    observed_lookup by done. simpl.
  destruct (cat_eq (category dsm i) broker); [done|].
  destruct (cat_eq (category dsm j) broker); [done|]. simpl.
  destruct (bool_decide (split_dot_0 _ = _)); [done|]. simpl.
  by destruct (bool_decide (0 < _)).
Qed.

Lemma check_layered_architecture_wf dsm :
  wf_dsm dsm →
  let violations :=
    List.filter (λ p, layering_violation dsm p.1 p.2) (upper_pairs (size dsm)) in
  check_layered_architecture dsm
  = Ok (bool_decide (violations = []),
        join_lines ((λ p, layering_message (entity dsm p.1) (entity dsm p.2))
                    <$> violations)).
Proof.
  intros Hwf violations. unfold check_layered_architecture.
  rewrite (for_nested (range 0 (size dsm - 1)) (λ i, range (i + 1) (size dsm))
    (λ i j '(layered_architecture, messages),
       g ← layering_guard (categories dsm) (entities dsm) i j;
       if g : bool then
         o ← getitem2 (dependency_matrix dsm) i j;
         if bool_decide (0 < o) then
           ei ← getitem (entities dsm) i;
           ej ← getitem (entities dsm) j;
           Ok (false, messages ++ [layering_message ei ej])
         else Ok (layered_architecture, messages)
       else Ok (layered_architecture, messages))).
  rewrite (for_collect _ _ (λ p, layering_violation dsm p.1 p.2)
             (λ p, layering_message (entity dsm p.1) (entity dsm p.2))).
  - done.
  - intros [i j] b ms Hp. apply elem_of_upper_pairs in Hp.
    apply (layering_step_wf dsm i j (b, ms)); [done|lia..].
Qed.

(** C5. The check fails exactly when some pair (i,j) with i < j has no
    broker at either end, different top-level packages and observed(i,j) > 0.
    The message has one line for each such pair, naming entity i and
    entity j. Cells that are not above the diagonal do not count: when no
    cell above it is positive the check passes. *)
Theorem layered_architecture_violations dsm :
  wf_dsm dsm →
  ∃ (violations : list (nat * nat)) (layered : bool),
    (∀ i j, (i, j) ∈ violations ↔
       (i < j < size dsm)%nat
       ∧ category dsm i ≠ broker ∧ category dsm j ≠ broker
       ∧ top_level_package (entity dsm i) ≠ top_level_package (entity dsm j)
       ∧ 0 < observed dsm i j)
    ∧ check_layered_architecture dsm
      = Ok (layered,
            join_lines ((λ p, "  Dependency from " +:+ entity dsm p.1 +:+ " to "
                              +:+ entity dsm p.2
                              +:+ " breaks the layered architecture.")
                        <$> violations))
    ∧ (layered = false ↔ ∃ i j, (i, j) ∈ violations)
    ∧ ((∀ i j, (i < j < size dsm)%nat → observed dsm i j ≤ 0) →
       check_layered_architecture dsm = Ok (true, "")).
Proof.
  intros Hwf.
  set (violations :=
    List.filter (λ p, layering_violation dsm p.1 p.2) (upper_pairs (size dsm))).
  assert (∀ i j, (i, j) ∈ violations ↔
       (i < j < size dsm)%nat
       ∧ category dsm i ≠ broker ∧ category dsm j ≠ broker
       ∧ top_level_package (entity dsm i) ≠ top_level_package (entity dsm j)
       ∧ 0 < observed dsm i j) as Hv.
  { intros i j. unfold violations.
    rewrite elem_of_filter_bool, elem_of_upper_pairs. simpl.
    by rewrite layering_violation_iff. }
  exists violations, (bool_decide (violations = [])).
  split; [done|]. split; [by apply check_layered_architecture_wf|]. split.
  - rewrite bool_decide_eq_false. split.
    + destruct violations as [|[i j] l]; [done|]. intros _. exists i, j. by left.
    + intros (i & j & Hin) ->. by apply elem_of_nil in Hin.
  - intros Hupper. rewrite check_layered_architecture_wf by done.
    fold violations.
    assert (violations = []) as ->; [|done].
    destruct violations as [|[i j] l]; [done|].
    assert ((i, j) ∈ (i, j) :: l) as Hin by left.
    apply Hv in Hin as (Hij & _ & _ & _ & Hpos).
    specialize (Hupper i j Hij). lia.
Qed.

Lemma layered_architecture_violations_witness :
  ∃ (violations : list (nat * nat)) (layered : bool),
    (∀ i j, (i, j) ∈ violations ↔
       (i < j < size dsm_forward_edge)%nat
       ∧ category dsm_forward_edge i ≠ broker
       ∧ category dsm_forward_edge j ≠ broker
       ∧ top_level_package (entity dsm_forward_edge i)
         ≠ top_level_package (entity dsm_forward_edge j)
       ∧ 0 < observed dsm_forward_edge i j)
    ∧ check_layered_architecture dsm_forward_edge
      = Ok (layered,
            join_lines ((λ p, "  Dependency from " +:+ entity dsm_forward_edge p.1
                              +:+ " to " +:+ entity dsm_forward_edge p.2
                              +:+ " breaks the layered architecture.")
                        <$> violations))
    ∧ (layered = false ↔ ∃ i j, (i, j) ∈ violations)
    ∧ ((∀ i j, (i < j < size dsm_forward_edge)%nat →
          observed dsm_forward_edge i j ≤ 0) →
       check_layered_architecture dsm_forward_edge = Ok (true, "")).
Proof. apply (layered_architecture_violations dsm_forward_edge). solve_wf. Defined.

(** The two matrices of the specification: the forward edge fails, the
    reverse edge alone passes. *)
Example layered_forward_edge :
  check_layered_architecture dsm_forward_edge
  = Ok (false, "  Dependency from a.x to b.y breaks the layered architecture.").
Proof. reflexivity. Qed.

Example layered_reverse_edge :
  check_layered_architecture dsm_reverse_edge = Ok (true, "").
Proof. reflexivity. Qed.

(** ** Least common mechanism *)

(** The inner loop: increments slot [j] once for every index passing the
    test. *)
Lemma for_increment (test : nat → result bool) (P : nat → bool) (j : nat)
    (l : list nat) :
  (∀ i, i ∈ l → test i = Ok (P i)) →
  ∀ (s : list Z) (v : Z),
    s !! j = Some v →
    for_ l (λ i s, c ← test i;
                   if c : bool then n ← getitem s j; setitem s j (n + 1)
                   else Ok s) s
    = Ok (<[j := v + Z.of_nat (length (List.filter P l))]> s).
Proof.
  induction l as [|i l IH]; intros Ht s v Hv; simpl.
  - by rewrite Z.add_0_r, list_insert_id.
  - rewrite Ht by left. simpl.
    assert (j < length s)%nat as Hlt by (by eapply lookup_lt_Some).
    destruct (P i); simpl.
    + rewrite (getitem_Some _ _ _ Hv). simpl. rewrite setitem_lt by done. simpl.
      rewrite (IH (λ i Hi, Ht i (list_elem_of_further _ _ _ Hi)) _ (v + 1)).
      * rewrite list_insert_insert_eq. do 2 f_equal. lia.
      * by apply list_lookup_insert_eq.
    + by apply IH; [intros; apply Ht; right|].
Qed.

(** The outer loop: appends [g j] for every index from [a] on. *)
Lemma for_append {A} (g : nat → A) (body : nat → list A → result (list A))
    (k : nat) :
  ∀ (a : nat) (s : list A),
    length s = a →
    (∀ j s, (a ≤ j < a + k)%nat → length s = j → body j s = Ok (s ++ [g j])) →
    for_ (seq a k) body s = Ok (s ++ (g <$> seq a k)).
Proof.
  induction k as [|k IH]; intros a s Hlen Hbody; simpl.
  - by rewrite app_nil_r.
  - rewrite Hbody by (done || lia). simpl. rewrite IH.
    + by rewrite <-app_assoc.
    + rewrite length_app. simpl. lia.
    + intros j s' ? ?. apply Hbody; [lia|done].
Qed.

(** The loop over [enumerate]: resets the slots of the exempt items. *)
Lemma for_reset (items : list string) :
  ∀ (k : nat) (pre suf : list Z),
    length pre = k → length suf = length items →
    for_ (zip (seq k (length items)) items)
      (λ '(index, item) s,
         if cat_eq item broker || cat_eq item app_lib
         then setitem s index 0 else Ok s) (pre ++ suf)
    = Ok (pre ++ zip_with (λ item v, if exempt item then 0 else v) items suf).
Proof.
  induction items as [|c items IH]; intros k pre suf Hpre Hsuf.
  - by destruct suf.
  - destruct suf as [|v suf]; [done|]. simpl in *.
    fold (exempt c).
    assert (∀ x, pre ++ x :: suf = (pre ++ [x]) ++ suf) as Hmid.
    { intros x. by rewrite <-app_assoc. }
    destruct (exempt c).
    + rewrite setitem_lt by (rewrite length_app; simpl; lia). simpl.
      rewrite insert_app_r_alt, Hpre, Nat.sub_diag by lia. simpl.
      rewrite Hmid, (IH (S k)); [by rewrite <-app_assoc| |lia].
      rewrite length_app. simpl. lia.
    + simpl. rewrite Hmid, (IH (S k)); [by rewrite <-app_assoc| |lia].
      rewrite length_app. simpl. lia.
Qed.

Lemma foldl_max_spec (l : list Z) :
  ∀ acc, let m := foldl Z.max acc l in
         (m = acc ∨ m ∈ l) ∧ acc ≤ m ∧ ∀ x, x ∈ l → x ≤ m.
Proof.
  induction l as [|y l IH]; intros acc; simpl.
  - split; [by left|]. split; [lia|]. intros x Hx. by apply elem_of_nil in Hx.
  - destruct (IH (Z.max acc y)) as (Hm & Hle & Hall). split; [|split].
    + destruct Hm as [Hm|Hm]; [|right; by right].
      rewrite Hm. destruct (Z.max_spec acc y) as [[_ ->]|[_ ->]]; [right; left|by left].
    + lia.
    + intros x [->|Hx]%elem_of_cons; [lia|by apply Hall].
Qed.

Lemma py_max_spec (l : list Z) :
  l ≠ [] → ∃ m, py_max l = Ok m ∧ m ∈ l ∧ ∀ x, x ∈ l → x ≤ m.
Proof.
  destruct l as [|y l]; [done|]. intros _. simpl.
  destruct (foldl_max_spec l y) as (Hm & Hle & Hall).
  eexists. split; [done|]. split.
  - destruct Hm as [->|Hm]; [left|by right].
  - intros x [->|Hx]%elem_of_cons; [done|by apply Hall].
Qed.

Lemma py_index_spec (l : list Z) (x : Z) :
  x ∈ l →
  ∃ k, py_index l x = Ok k ∧ l !! k = Some x
       ∧ ∀ k', (k' < k)%nat → l !! k' ≠ Some x.
Proof.
  induction l as [|y l IH]; intros Hx; [by apply elem_of_nil in Hx|]. simpl.
  case_bool_decide as Hy.
  - subst y. exists 0%nat. split; [done|]. split; [done|]. intros; lia.
  - apply elem_of_cons in Hx as [->|Hx]; [done|].
    destruct (IH Hx) as (k & -> & Hk & Hfirst). exists (S k).
    split; [done|]. split; [done|]. intros [|k'] Hlt; simpl; [congruence|].
    apply Hfirst. lia.
Qed.

(** Comparing with an exact quotient is comparing the cross product. *)
Lemma Qle_quotient (m n f : Z) :
  0 < f → (inject_Z m <= inject_Z n / inject_Z f)%Q ↔ m * f ≤ n.
Proof.
  intros Hf. destruct f as [|p|p]; [lia| |lia].
  unfold Qle, Qdiv, Qmult, Qinv, inject_Z. simpl. lia.
Qed.

Section in_degrees.
Context (dsm : DesignStructureMatrix) (Hwf : wf_dsm dsm).

Lemma common_counted_wf i j :
  (i < size dsm)%nat → (j < size dsm)%nat →
  common_counted (categories dsm) (dependency_matrix dsm) i j
  = Ok (coupled [framework] dsm i j).
Proof. apply (legacy_economy_counted_wf dsm Hwf). Qed.

Lemma dependent_modules_wf :
  dependent_modules dsm = Ok (counted_in_degree dsm <$> seq 0 (size dsm)).
Proof.
  unfold dependent_modules. rewrite !range_0.
  rewrite (for_append (in_degree dsm)); [|done|].
  - simpl. unfold enumerate.
    destruct Hwf as (Hc & _).
    pose proof (for_reset (categories dsm) 0 []
                  (in_degree dsm <$> seq 0 (size dsm)) eq_refl) as Hreset.
    simpl in Hreset. rewrite Hreset by (by rewrite length_fmap, length_seq).
    f_equal. apply list_eq. intros k.
    rewrite lookup_zip_with, !list_lookup_fmap.
    destruct (decide (k < size dsm)%nat) as [Hk|Hk].
    + rewrite (category_lookup dsm Hwf k Hk), lookup_seq_lt by done. done.
    + rewrite (lookup_ge_None_2 (seq 0 (size dsm))) by (rewrite length_seq; lia).
      simpl. by destruct (categories dsm !! k).
  - intros j s Hj Hs.
    assert (∀ i, i ∈ seq 0 (size dsm) →
              common_counted (categories dsm) (dependency_matrix dsm) i j
              = Ok (coupled [framework] dsm i j)) as Ht.
    { intros i Hi. apply elem_of_seq in Hi. apply common_counted_wf; lia. }
    rewrite (for_increment _ _ j _ Ht _ 0).
    + rewrite insert_app_r_alt, Hs, Nat.sub_diag by lia. done.
    + rewrite lookup_app_r, Hs, Nat.sub_diag by lia. done.
Qed.
End in_degrees.

Lemma check_least_common_mechanism_wf (str_float : Q → string)
    (dsm : DesignStructureMatrix) (independence_factor : Z) :
  wf_dsm dsm → (0 < size dsm)%nat → 0 < independence_factor →
  ∃ (maximum : Z) (k : nat) (passed : bool),
    (k < size dsm)%nat
    ∧ counted_in_degree dsm k = maximum
    ∧ (∀ j, (j < size dsm)%nat → counted_in_degree dsm j ≤ maximum)
    ∧ (∀ j, (j < k)%nat → counted_in_degree dsm j < maximum)
    ∧ (passed = true ↔
       (inject_Z maximum
        <= inject_Z (Z.of_nat (size dsm)) / inject_Z independence_factor)%Q)
    ∧ check_least_common_mechanism str_float dsm independence_factor
      = Ok (if passed then (true, "")
            else (false,
                  "  Dependencies to " +:+ entity dsm k
                  +:+ " (" +:+ str maximum +:+ ") "
                  +:+ "> matrix size (" +:+ str (Z.of_nat (size dsm))
                  +:+ ") / independence factor (" +:+ str independence_factor
                  +:+ ") = "
                  +:+ str_float (inject_Z (Z.of_nat (size dsm))
                                 / inject_Z independence_factor)%Q)).
Proof.
  intros Hwf Hn Hf.
  set (degrees := counted_in_degree dsm <$> seq 0 (size dsm)).
  assert (degrees ≠ []) as Hne.
  { intros Hnil. apply (f_equal length) in Hnil.
    unfold degrees in Hnil. rewrite length_fmap, length_seq in Hnil.
    simpl in Hnil. lia. }
  destruct (py_max_spec degrees Hne) as (maximum & Hmax & Hin & Hall).
  destruct (py_index_spec degrees maximum Hin) as (k & Hindex & Hk & Hfirst).
  assert (∀ j, (j < size dsm)%nat → degrees !! j = Some (counted_in_degree dsm j))
    as Hlt.
  { intros j Hj. unfold degrees. by rewrite list_lookup_fmap, lookup_seq_lt. }
  assert (k < size dsm)%nat as Hksize.
  { apply lookup_lt_Some in Hk. unfold degrees in Hk.
    by rewrite length_fmap, length_seq in Hk. }
  exists maximum, k,
    (Qle_bool (inject_Z maximum)
       (inject_Z (Z.of_nat (size dsm)) / inject_Z independence_factor)).
  split; [done|]. split.
  { rewrite Hlt in Hk by done. congruence. }
  split.
  { intros j Hj. apply Hall. apply list_elem_of_lookup. exists j. by apply Hlt. }
  split.
  { intros j Hj.
    assert (counted_in_degree dsm j ≤ maximum).
    { apply Hall, list_elem_of_lookup. exists j. apply Hlt. lia. }
    assert (counted_in_degree dsm j ≠ maximum); [|lia].
    intros Heq. apply (Hfirst j Hj). rewrite Hlt by lia. congruence. }
  split; [apply Qle_bool_iff|].
  unfold check_least_common_mechanism.
  rewrite dependent_modules_wf by done. fold degrees. simpl.
  rewrite Hmax. simpl. unfold truediv.
  rewrite bool_decide_eq_false_2 by lia. simpl.
  destruct (Qle_bool _ _); [done|].
  rewrite Hindex. simpl.
  by rewrite (getitem_Some _ _ _ (entity_lookup dsm Hwf k Hksize)).
Qed.

(** C6. For a positive independence factor and at least one entity, the
    check computes for every entity j the number of entities i, possibly j
    itself, with observed(i,j) > 0 and no framework at either end, counts 0
    instead for brokers and application libraries, and passes exactly when
    the largest of these numbers is at most N / independence_factor, the
    exact quotient. On failure the message names the first entity that
    reaches the largest number, this number, N and the factor. The
    registered criterion, called without a keyword, uses the factor 5. *)
Theorem least_common_mechanism_maximum (str_float : Q → string)
    (read_criterion : string → string)
    (dsm : DesignStructureMatrix) (independence_factor : Z) :
  wf_dsm dsm → (0 < size dsm)%nat → 0 < independence_factor →
  ∃ (maximum : Z) (k : nat) (passed : bool),
    (k < size dsm)%nat
    ∧ counted_in_degree dsm k = maximum
    ∧ (∀ j, (j < size dsm)%nat → counted_in_degree dsm j ≤ maximum)
    ∧ (∀ j, (j < k)%nat → counted_in_degree dsm j < maximum)
    ∧ (passed = true ↔
       (inject_Z maximum
        <= inject_Z (Z.of_nat (size dsm)) / inject_Z independence_factor)%Q)
    ∧ check_least_common_mechanism str_float dsm independence_factor
      = Ok (if passed then (true, "")
            else (false,
                  "  Dependencies to " +:+ entity dsm k
                  +:+ " (" +:+ str maximum +:+ ") "
                  +:+ "> matrix size (" +:+ str (Z.of_nat (size dsm))
                  +:+ ") / independence factor (" +:+ str independence_factor
                  +:+ ") = "
                  +:+ str_float (inject_Z (Z.of_nat (size dsm))
                                 / inject_Z independence_factor)%Q))
    ∧ call (LEAST_COMMON_MECHANISM read_criterion str_float) dsm ∅
      = prod_map (return_code ∘ PyBool) id
          <$> check_least_common_mechanism str_float dsm 5.
Proof.
  intros Hwf Hn Hf.
  destruct (check_least_common_mechanism_wf str_float dsm independence_factor
              Hwf Hn Hf) as (maximum & k & passed & H1 & H2 & H3 & H4 & H5 & H6).
  exists maximum, k, passed. do 6 (split; [done|]).
  unfold call. simpl. unfold one_keyword.
  rewrite (right_id_L ∅ (∪)), dom_empty_L.
  rewrite bool_decide_eq_true_2 by set_solver.
  rewrite lookup_empty. simpl.
  destruct (check_least_common_mechanism str_float dsm 5) as [[[] msg]|e]; done.
Qed.

Lemma least_common_mechanism_maximum_witness :
  ∃ (maximum : Z) (k : nat) (passed : bool),
    (k < size dsm_hub)%nat
    ∧ counted_in_degree dsm_hub k = maximum
    ∧ (∀ j, (j < size dsm_hub)%nat → counted_in_degree dsm_hub j ≤ maximum)
    ∧ (∀ j, (j < k)%nat → counted_in_degree dsm_hub j < maximum)
    ∧ (passed = true ↔
       (inject_Z maximum <= inject_Z (Z.of_nat (size dsm_hub)) / inject_Z 5)%Q)
    ∧ check_least_common_mechanism (λ _, "2.0") dsm_hub 5
      = Ok (if passed then (true, "")
            else (false,
                  "  Dependencies to " +:+ entity dsm_hub k
                  +:+ " (" +:+ str maximum +:+ ") "
                  +:+ "> matrix size (" +:+ str (Z.of_nat (size dsm_hub))
                  +:+ ") / independence factor (" +:+ str 5
                  +:+ ") = " +:+ "2.0"))
    ∧ call (LEAST_COMMON_MECHANISM (λ _, "") (λ _, "2.0")) dsm_hub ∅
      = prod_map (return_code ∘ PyBool) id
          <$> check_least_common_mechanism (λ _, "2.0") dsm_hub 5.
Proof.
  apply (least_common_mechanism_maximum (λ _, "2.0") (λ _, "") dsm_hub 5);
    [solve_wf | simpl; lia | lia].
Defined.

(** The example of the specification: three incoming edges among ten
    entities exceed 10 / 5; two do not. *)
Example hub_of_three_fails :
  check_least_common_mechanism (λ _, "2.0") dsm_hub 5
  = Ok (false,
        "  Dependencies to m.j (3) > matrix size (10) / independence factor (5) = 2.0").
Proof. vm_compute. reflexivity. Qed.

(** Without any entity [max] has nothing to choose from. *)
Example no_entity_raises (str_float : Q → string) :
  check_least_common_mechanism str_float
    {| categories := []; entities := []; dependency_matrix := []; size := 0 |} 5
  = Raise ValueError.
Proof. reflexivity. Qed.

(** X19. The check of checker.py compares with the floor of the quotient,
    which decides the same for integers: it returns the boolean of the check
    of criterion.py. *)
Lemma legacy_least_common_mechanism self dsm :
  wf_dsm dsm → (0 < size dsm)%nat → 0 < Archan.independence_factor self →
  fst <$> Archan.check_least_common_mechanism self dsm
  = fst <$> check_least_common_mechanism (λ _, "") dsm
              (Archan.independence_factor self).
Proof.
  intros Hwf Hn Hf.
  set (degrees := counted_in_degree dsm <$> seq 0 (size dsm)).
  assert (degrees ≠ []) as Hne.
  { intros Hnil. apply (f_equal length) in Hnil.
    unfold degrees in Hnil. rewrite length_fmap, length_seq in Hnil.
    simpl in Hnil. lia. }
  destruct (py_max_spec degrees Hne) as (m & Hmax & Hin & _).
  destruct (py_index_spec degrees m Hin) as (k & Hindex & Hk & _).
  assert (k < size dsm)%nat as Hksize.
  { apply lookup_lt_Some in Hk. unfold degrees in Hk.
    by rewrite length_fmap, length_seq in Hk. }
  unfold Archan.check_least_common_mechanism, check_least_common_mechanism.
  rewrite dependent_modules_wf by done. fold degrees. simpl.
  rewrite Hmax. simpl.
  unfold Archan.old_div, truediv. rewrite bool_decide_eq_false_2 by lia. simpl.
  assert (bool_decide (m ≤ Z.of_nat (size dsm) `div` Archan.independence_factor self)
          = Qle_bool (inject_Z m)
              (inject_Z (Z.of_nat (size dsm))
               / inject_Z (Archan.independence_factor self))) as ->.
  { apply eq_true_iff_eq.
    rewrite bool_decide_eq_true, Qle_bool_iff, Qle_quotient by done.
    split; intros H.
    - etrans; [apply Z.mul_le_mono_nonneg_r, H; lia|].
      rewrite Z.mul_comm. apply Z.mul_div_le. lia.
    - apply Z.div_le_lower_bound; lia. }
  destruct (Qle_bool _ _); [done|]. simpl.
  rewrite Hindex. simpl.
  by rewrite (getitem_Some _ _ _ (entity_lookup dsm Hwf k Hksize)).
Qed.

(** ** Only the sign of a cell matters *)

Lemma for_alike {X S1 S2} (R : S1 → S2 → Prop) (l : list X)
    (body : X → S1 → result S1) (body' : X → S2 → result S2) :
  (∀ x s s', x ∈ l → R s s' → alike R (body x s) (body' x s')) →
  ∀ s s', R s s' → alike R (for_ l body s) (for_ l body' s').
Proof.
  induction l as [|x l IH]; intros Hb s s' HR; simpl; [done|].
  pose proof (Hb x s s' (list_elem_of_here _ _) HR) as Hx.
  destruct (body x s) as [t|e], (body' x s') as [t'|e']; simpl in *; try done.
  apply IH; [|done]. intros; apply Hb; [by right|done].
Qed.

Lemma getitem_fmap {A B} (f : A → B) (l : list A) i :
  getitem (f <$> l) i = f <$> getitem l i.
Proof. unfold getitem. rewrite list_lookup_fmap. by destruct (l !! i). Qed.

Lemma getitem2_binarize (m : list (list Z)) i j :
  getitem2 (binarize_matrix m) i j = indicator <$> getitem2 m i j.
Proof.
  unfold getitem2, binarize_matrix. rewrite getitem_fmap.
  destruct (getitem m i) as [row|e]; simpl; [|done]. apply getitem_fmap.
Qed.

Lemma getitem_binarize_matrix (m : list (list Z)) i :
  getitem (binarize_matrix m) i = (λ row : list Z, indicator <$> row) <$> getitem m i.
Proof. apply getitem_fmap. Qed.

Lemma length_binarize_matrix (m : list (list Z)) :
  length (binarize_matrix m) = length m.
Proof. apply length_fmap. Qed.

Lemma indicator_positive x : bool_decide (0 < indicator x) = bool_decide (0 < x).
Proof. unfold indicator. by repeat case_bool_decide; try lia. Qed.

Lemma indicator_below_1 x : bool_decide (indicator x < 1) = bool_decide (x < 1).
Proof. unfold indicator. by repeat case_bool_decide; try lia. Qed.

(** A test that only asks whether the cell is positive. *)
Lemma positive_test_binarize (m : list (list Z)) i j :
  (o ← getitem2 (binarize_matrix m) i j; Ok (bool_decide (0 < o)))
  = (o ← getitem2 m i j; Ok (bool_decide (0 < o))).
Proof.
  rewrite getitem2_binarize. destruct (getitem2 m i j); simpl; [|done].
  by rewrite indicator_positive.
Qed.

Lemma missing_test_binarize (m : list (list Z)) i j :
  (o ← getitem2 (binarize_matrix m) i j; Ok (bool_decide (o < 1)))
  = (o ← getitem2 m i j; Ok (bool_decide (o < 1))).
Proof.
  rewrite getitem2_binarize. destruct (getitem2 m i j); simpl; [|done].
  by rewrite indicator_below_1.
Qed.

Lemma is_discrepancy_binarize (m med : list (list Z)) i j :
  is_discrepancy (binarize_matrix m) med i j = is_discrepancy m med i j.
Proof.
  unfold is_discrepancy.
  by rewrite positive_test_binarize, missing_test_binarize.
Qed.

Lemma economy_counted_binarize cat (m : list (list Z)) i j :
  economy_counted cat (binarize_matrix m) i j = economy_counted cat m i j.
Proof. unfold economy_counted. by rewrite positive_test_binarize. Qed.

Lemma common_counted_binarize cat (m : list (list Z)) i j :
  common_counted cat (binarize_matrix m) i j = common_counted cat m i j.
Proof. unfold common_counted. by rewrite positive_test_binarize. Qed.

Lemma check_economy_of_mechanism_binarize dsm simplicity_factor :
  check_economy_of_mechanism (binarize dsm) simplicity_factor
  = check_economy_of_mechanism dsm simplicity_factor.
Proof.
  unfold check_economy_of_mechanism. simpl. f_equal.
  apply for_ext. intros i n _. apply for_ext. intros j n' _.
  by rewrite economy_counted_binarize.
Qed.

Lemma dependent_modules_binarize dsm :
  dependent_modules (binarize dsm) = dependent_modules dsm.
Proof.
  unfold dependent_modules. simpl. f_equal.
  apply for_ext. intros j s _. apply for_ext. intros i s' _.
  by rewrite common_counted_binarize.
Qed.

Lemma check_least_common_mechanism_binarize str_float dsm independence_factor :
  check_least_common_mechanism str_float (binarize dsm) independence_factor
  = check_least_common_mechanism str_float dsm independence_factor.
Proof.
  unfold check_least_common_mechanism. by rewrite dependent_modules_binarize.
Qed.

Lemma check_layered_architecture_binarize dsm :
  check_layered_architecture (binarize dsm) = check_layered_architecture dsm.
Proof.
  unfold check_layered_architecture. simpl. f_equal.
  apply for_ext. intros i st _. apply for_ext. intros j [b ms] _.
  destruct (layering_guard _ _ i j) as [[]|e]; simpl; [|done..].
  rewrite getitem2_binarize.
  destruct (getitem2 (dependency_matrix dsm) i j); simpl; [|done].
  by rewrite indicator_positive.
Qed.

Lemma matrices_compliance_binarize dsm med :
  fst <$> _matrices_compliance (binarize dsm) med
  = fst <$> _matrices_compliance dsm med.
Proof.
  unfold _matrices_compliance. simpl.
  rewrite getitem_binarize_matrix, !length_binarize_matrix.
  destruct (getitem (dependency_matrix dsm) 0) as [row0|e]; simpl; [|done].
  destruct (getitem med 0) as [mrow0|e]; simpl; [|done].
  rewrite length_fmap.
  destruct (_ || _); [done|].
  set (R := λ st st' : bool * list string, st.1 = st'.1).
  match goal with |- fst <$> (?a ≫= _) = fst <$> (?b ≫= _) =>
    assert (alike R a b) as Halike end.
  { apply for_alike; [|done]. intros i st st' _ Hst.
    apply for_alike; [|done]. intros j [b ms] [b' ms'] _ Hb.
    unfold R in Hb. simpl in Hb. subst b'.
    rewrite is_discrepancy_binarize.
    destruct (is_discrepancy _ _ i j) as [[]|e]; simpl; [|done..].
    destruct (getitem (entities dsm) i); simpl; [|done].
    destruct (getitem (entities dsm) j); simpl; [|done].
    rewrite getitem2_binarize.
    destruct (getitem2 (dependency_matrix dsm) i j); simpl; [|done].
    by destruct (getitem2 med i j). }
  destruct (for_ _ _ _) as [[b ms]|e], (for_ _ _ _) as [[b' ms']|e'];
    simpl in *; try done; unfold R in *; simpl in *; congruence.
Qed.

(** C10. Replacing every cell of the observed matrix by 1 when it is
    positive and by 0 otherwise changes the outcome of none of the four
    checks: complete mediation returns the same boolean or raises the same
    error, and economy of mechanism, least common mechanism and layered
    architecture return the same boolean and the same message. *)
Theorem checks_depend_on_positive_cells (str_float : Q → string)
    (dsm : DesignStructureMatrix) (simplicity_factor independence_factor : Z) :
  fst <$> check_complete_mediation (binarize dsm)
  = fst <$> check_complete_mediation dsm
  ∧ check_economy_of_mechanism (binarize dsm) simplicity_factor
    = check_economy_of_mechanism dsm simplicity_factor
  ∧ check_least_common_mechanism str_float (binarize dsm) independence_factor
    = check_least_common_mechanism str_float dsm independence_factor
  ∧ check_layered_architecture (binarize dsm) = check_layered_architecture dsm.
Proof.
  split; [|split; [|split]].
  - unfold check_complete_mediation.
    change (_generate_mediation_matrix (binarize dsm))
      with (_generate_mediation_matrix dsm).
    destruct (_generate_mediation_matrix dsm) as [med|e]; simpl; [|done].
    apply matrices_compliance_binarize.
  - apply check_economy_of_mechanism_binarize.
  - apply check_least_common_mechanism_binarize.
  - apply check_layered_architecture_binarize.
Qed.

(** * Further properties *)

(** ** Loops that stop on an error *)

Lemma for_invariant {X St} (I : St → Prop) (l : list X)
    (body : X → St → result St) :
  (∀ x s, x ∈ l → I s → ∃ s', body x s = Ok s' ∧ I s') →
  ∀ s, I s → ∃ s', for_ l body s = Ok s' ∧ I s'.
Proof.
  induction l as [|x l IH]; intros Hb s Hs; simpl; [by exists s|].
  destruct (Hb x s (list_elem_of_here _ _) Hs) as (s1 & -> & Hs1). simpl.
  apply IH; [|done]. intros y t Hy. apply Hb. by right.
Qed.

Lemma for_raise {X St} (l1 l2 : list X) (x : X) (body : X → St → result St)
    (s s' : St) (e : exn) :
  for_ l1 body s = Ok s' → body x s' = Raise e →
  for_ (l1 ++ x :: l2) body s = Raise e.
Proof. intros H1 Hx. rewrite for_app, H1. simpl. by rewrite Hx. Qed.

(** One row of the table: the inner loop of the generators. *)
Lemma for_fill_row (n : nat) (f : nat → Z) (k : nat)
    (body : nat → list (list Z) → result (list (list Z))) (m : list (list Z)) :
  (∀ j m, (j < n)%nat → body j m = setitem2 m k j (f j)) →
  (k < n)%nat → square n m →
  for_ (range 0 n) body m = Ok (<[k := f <$> seq 0 n]> m).
Proof.
  intros Hbody Hk [Hlen Hrows]. rewrite range_0.
  assert (is_Some (m !! k)) as [row Hrow] by (apply lookup_lt_is_Some; lia).
  assert (length row = n) as Hrowlen.
  { by eapply (Forall_lookup_1 _ _ _ _ Hrows). }
  rewrite (for_ext _ _ (λ j m, setitem2 m k j (f j))).
  2:{ intros j m' Hj. apply elem_of_seq in Hj. apply Hbody; lia. }
  rewrite (for_setitem2 _ _ _ _ row) by done.
  rewrite (for_assign (λ _, True) f); simpl; try done.
  - by apply Forall_true.
  - intros j s Hj Hs _. apply setitem_lt. lia.
Qed.

Lemma square_insert n (m : list (list Z)) k row :
  square n m → length row = n → square n (<[k := row]> m).
Proof.
  intros [Hlen Hrows] Hrow. split; [by rewrite length_insert|].
  by apply Forall_insert.
Qed.

Lemma square_replicate n : square n (replicate n (replicate n 0)).
Proof.
  split; [by rewrite length_replicate|].
  apply Forall_replicate. by rewrite length_replicate.
Qed.

Lemma range_split i n : (i < n)%nat → range 0 n = seq 0 i ++ i :: seq (S i) (n - S i).
Proof.
  intros Hi. rewrite range_0.
  replace n with (i + S (n - S i))%nat at 1 by lia.
  rewrite seq_app. done.
Qed.

Lemma unknown_category_eq c :
  ¬ known_category c →
  cat_eq c framework = false ∧ cat_eq c core_lib = false
  ∧ cat_eq c app_lib = false ∧ cat_eq c app_module = false
  ∧ cat_eq c broker = false ∧ cat_eq c data = false.
Proof.
  intros Hc. unfold known_category in Hc.
  rewrite !elem_of_cons, elem_of_nil in Hc.
  repeat split; apply cat_eq_ne; tauto.
Qed.

(** ** Unknown categories *)

(** The nested loops of a generator stop at column 0 of the first row
    whose body raises; the rows before it are filled. *)
Lemma generator_stops (n i : nat) (f : nat → nat → Z) (e : exn)
    (body : nat → nat → list (list Z) → result (list (list Z))) :
  (i < n)%nat →
  (∀ k j m, (k < i)%nat → (j < n)%nat → body k j m = setitem2 m k j (f k j)) →
  (∀ m, square n m → body i 0%nat m = Raise e) →
  for_ (range 0 n) (λ i m, for_ (range 0 n) (λ j m, body i j m) m)
       (replicate n (replicate n 0))
  = Raise e.
Proof.
  intros Hi Hrows Hstop. rewrite (range_split i n Hi) at 1.
  destruct (for_invariant (square n) (seq 0 i)
              (λ i m, for_ (range 0 n) (λ j m, body i j m) m)) with
    (s := replicate n (replicate n 0)) as (m & Hm & Hsq).
  - intros k m Hk Hsq. apply elem_of_seq in Hk.
    exists (<[k := f k <$> seq 0 n]> m). split.
    + apply for_fill_row; [|lia|done]. intros j m' Hj. apply Hrows; lia.
    + apply square_insert; [done|]. by rewrite length_fmap, length_seq.
  - apply square_replicate.
  - apply (for_raise _ _ _ _ _ m); [done|].
    rewrite (range_split 0 n) by lia. simpl. by rewrite Hstop.
Qed.

(** X1. When some entity has a category outside the six known ones, the
    generator of criterion.py raises the ArchanError that names the first
    such row and column 0, and so does the complete mediation check. *)
Theorem generate_unknown_category dsm i c :
  wf_dsm dsm → (i < size dsm)%nat →
  categories dsm !! i = Some c → ¬ known_category c →
  (∀ k, (k < i)%nat → known_category (category dsm k)) →
  _generate_mediation_matrix dsm
  = Raise (ArchanError ("Mediation matrix value NOT generated for "
                        +:+ str (Z.of_nat i) +:+ ":0"))
  ∧ check_complete_mediation dsm
    = Raise (ArchanError ("Mediation matrix value NOT generated for "
                          +:+ str (Z.of_nat i) +:+ ":0")).
Proof.
  intros Hwf Hi Hc Hunknown Hbefore.
  assert (_generate_mediation_matrix dsm
          = Raise (ArchanError ("Mediation matrix value NOT generated for "
                                +:+ str (Z.of_nat i) +:+ ":0"))) as Hgen.
  { unfold _generate_mediation_matrix. cbv zeta.
    apply (generator_stops (size dsm) i
             (λ k j, mediation_cell (category dsm k) (category dsm j)
                       (entity dsm k) (entity dsm j) k j)); [done| |].
    - intros k j m Hk Hj. rewrite mediation_value_wf; [done|done|lia|done|].
      by apply Hbefore.
    - intros m _. unfold mediation_value. rewrite (getitem_Some _ _ _ Hc). simpl.
      destruct (unknown_category_eq c Hunknown) as (-> & -> & -> & -> & -> & ->).
      done. }
  split; [done|]. unfold check_complete_mediation. by rewrite Hgen.
Qed.

Lemma generate_unknown_category_witness :
  _generate_mediation_matrix dsm_stray
  = Raise (ArchanError "Mediation matrix value NOT generated for 1:0")
  ∧ check_complete_mediation dsm_stray
    = Raise (ArchanError "Mediation matrix value NOT generated for 1:0").
Proof.
  apply (generate_unknown_category dsm_stray 1 "plugin");
    [solve_wf | simpl; lia | done | |].
  - unfold known_category. rewrite !elem_of_cons, elem_of_nil.
    intros [H|[H|[H|[H|[H|[H|[]]]]]]]; discriminate H.
  - intros k Hk. assert (k = 0)%nat as -> by lia.
    unfold known_category, category. simpl. set_solver.
Defined.

(** X2. The generator of checker.py raises the same error in the same
    situation: the -2 it stores first is lost with the matrix. *)
Theorem legacy_generate_unknown_category dsm i c :
  wf_dsm dsm → (i < size dsm)%nat →
  categories dsm !! i = Some c → ¬ known_category c →
  (∀ k, (k < i)%nat → known_category (category dsm k)) →
  Archan._generate_mediation_matrix dsm
  = Raise (ArchanError ("Mediation matrix value NOT generated for "
                        +:+ str (Z.of_nat i) +:+ ":0"))
  ∧ Archan.check_complete_mediation Archan.__init__ dsm
    = Raise (ArchanError ("Mediation matrix value NOT generated for "
                          +:+ str (Z.of_nat i) +:+ ":0")).
Proof.
  intros Hwf Hi Hc Hunknown Hbefore.
  assert (Archan._generate_mediation_matrix dsm
          = Raise (ArchanError ("Mediation matrix value NOT generated for "
                                +:+ str (Z.of_nat i) +:+ ":0"))) as Hgen.
  { unfold Archan._generate_mediation_matrix. cbv zeta.
    apply (generator_stops (size dsm) i
             (λ k j, legacy_mediation_cell (category dsm k) (category dsm j)
                       (entity dsm k) (entity dsm j) k j)); [done| |].
    - intros k j m Hk Hj. apply legacy_mediation_step_wf; [done|lia|done|].
      by apply Hbefore.
    - intros m [Hlen Hrows]. unfold Archan.mediation_step.
      rewrite (getitem_Some _ _ _ Hc). simpl.
      destruct (unknown_category_eq c Hunknown) as (-> & -> & -> & -> & -> & ->).
      assert (is_Some (m !! i)) as [row Hrow] by (apply lookup_lt_is_Some; lia).
      assert (length row = size dsm) as Hrowlen.
      { by eapply (Forall_lookup_1 _ _ _ _ Hrows). }
      rewrite (setitem2_Some _ _ _ _ _ Hrow), setitem_lt by lia. done. }
  split; [done|]. unfold Archan.check_complete_mediation. by rewrite Hgen.
Qed.

Lemma legacy_generate_unknown_category_witness :
  Archan._generate_mediation_matrix dsm_stray
  = Raise (ArchanError "Mediation matrix value NOT generated for 1:0")
  ∧ Archan.check_complete_mediation Archan.__init__ dsm_stray
    = Raise (ArchanError "Mediation matrix value NOT generated for 1:0").
Proof.
  apply (legacy_generate_unknown_category dsm_stray 1 "plugin");
    [solve_wf | simpl; lia | done | |].
  - unfold known_category. rewrite !elem_of_cons, elem_of_nil.
    intros [H|[H|[H|[H|[H|[H|[]]]]]]]; discriminate H.
  - intros k Hk. assert (k = 0)%nat as -> by lia.
    unfold known_category, category. simpl. set_solver.
Defined.

(** ** Rows of the mediation matrix *)

Lemma mediation_cell_with_diagonal ct bt c e i :
  mediation_cell_with ct bt c c e e i i = -1.
Proof.
  unfold mediation_cell_with, rule_value.
  rewrite (bool_decide_eq_true_2 (i = i)) by done. rewrite !orb_true_r.
  by repeat match goal with |- context [if ?b then _ else _] => destruct b end.
Qed.

(** X3. Every entity may depend on itself: the diagonal of the matrix
    generated by criterion.py, and of the one generated by checker.py, is
    -1 whatever the categories and the names are. *)
Theorem diagonal_tolerated dsm i :
  wf_dsm dsm → Forall known_category (categories dsm) → (i < size dsm)%nat →
  (∃ m, _generate_mediation_matrix dsm = Ok m ∧ cell m i i = Some (-1))
  ∧ (∃ m, Archan._generate_mediation_matrix dsm = Ok m ∧ cell m i i = Some (-1)).
Proof.
  intros Hwf Hk Hi. split.
  - exists (table_of dsm mediation_cell).
    split; [by apply generate_mediation_matrix_wf|].
    rewrite table_of_cell by done. f_equal. apply mediation_cell_with_diagonal.
  - exists (table_of dsm legacy_mediation_cell).
    split; [by apply legacy_generate_mediation_matrix_wf|].
    rewrite table_of_cell by done. f_equal. apply mediation_cell_with_diagonal.
Qed.

Lemma diagonal_tolerated_witness :
  (∃ m, _generate_mediation_matrix dsm_three = Ok m ∧ cell m 2 2 = Some (-1))
  ∧ (∃ m, Archan._generate_mediation_matrix dsm_three = Ok m
          ∧ cell m 2 2 = Some (-1)).
Proof.
  apply (diagonal_tolerated dsm_three 2); [solve_wf | solve_known | simpl; lia].
Defined.

Lemma mediation_cell_with_framework ct bt cj ei ej i j :
  mediation_cell_with ct bt framework cj ei ej i j
  = if decide (cj = framework) then -1 else 0.
Proof.
  unfold mediation_cell_with. cat_eval. unfold cat_eq.
  case_bool_decide; [by rewrite decide_True|by rewrite decide_False].
Qed.

Lemma mediation_cell_with_data ct bt cj ei ej i j :
  mediation_cell_with ct bt data cj ei ej i j
  = if decide (cj = framework ∨ i = j) then -1 else 0.
Proof.
  unfold mediation_cell_with. cat_eval. unfold cat_eq.
  repeat case_bool_decide; simpl;
    [rewrite decide_True by tauto..|rewrite decide_False by tauto]; done.
Qed.

(** X4. The rows of a framework and of a data entity do not look at names:
    in both generators a framework entity may depend on frameworks only, and
    a data entity on frameworks and on itself only. *)
Theorem framework_and_data_rows dsm i j :
  wf_dsm dsm → Forall known_category (categories dsm) →
  (i < size dsm)%nat → (j < size dsm)%nat →
  ∃ m m',
    _generate_mediation_matrix dsm = Ok m
    ∧ Archan._generate_mediation_matrix dsm = Ok m'
    ∧ (category dsm i = framework →
       cell m i j = Some (if decide (category dsm j = framework) then -1 else 0)
       ∧ cell m' i j = cell m i j)
    ∧ (category dsm i = data →
       cell m i j
       = Some (if decide (category dsm j = framework ∨ i = j) then -1 else 0)
       ∧ cell m' i j = cell m i j).
Proof.
  intros Hwf Hk Hi Hj.
  exists (table_of dsm mediation_cell), (table_of dsm legacy_mediation_cell).
  split; [by apply generate_mediation_matrix_wf|].
  split; [by apply legacy_generate_mediation_matrix_wf|].
  rewrite !table_of_cell by done. unfold mediation_cell, legacy_mediation_cell.
  split; intros ->.
  - by rewrite !mediation_cell_with_framework.
  - by rewrite !mediation_cell_with_data.
Qed.

Lemma framework_and_data_rows_witness :
  ∃ m m',
    _generate_mediation_matrix dsm_three = Ok m
    ∧ Archan._generate_mediation_matrix dsm_three = Ok m'
    ∧ (category dsm_three 2 = framework →
       cell m 2 0
       = Some (if decide (category dsm_three 0 = framework) then -1 else 0)
       ∧ cell m' 2 0 = cell m 2 0)
    ∧ (category dsm_three 2 = data →
       cell m 2 0
       = Some (if decide (category dsm_three 0 = framework ∨ 2%nat = 0%nat)
               then -1 else 0)
       ∧ cell m' 2 0 = cell m 2 0).
Proof.
  apply (framework_and_data_rows dsm_three 2 0);
    [solve_wf | solve_known | simpl; lia | simpl; lia].
Defined.

(** ** Cells in row-major order *)

Lemma seq_sorted a n : StronglySorted lt (seq a n).
Proof.
  revert a. induction n as [|n IH]; intros a; simpl; constructor; [apply IH|].
  apply Forall_forall. intros x Hx. apply elem_of_seq in Hx. lia.
Qed.

Lemma filter_sorted {X} (R : relation X) (P : X → bool) (l : list X) :
  StronglySorted R l → StronglySorted R (List.filter P l).
Proof.
  induction 1 as [|x l Hl IH Hx]; simpl; [constructor|].
  destruct (P x); [|done]. constructor; [done|].
  rewrite Forall_forall in *. intros y Hy.
  apply elem_of_filter_bool in Hy as [Hy _]. by apply Hx.
Qed.

Lemma square_pairs_sorted n : StronglySorted row_major (square_pairs n).
Proof.
  unfold square_pairs, pairs_of.
  generalize (seq_sorted 0 n). generalize (seq 0 n) at 1 3. intros l1.
  induction 1 as [|x l1 Hl1 IH Hx]; [constructor|].
  rewrite bind_cons. apply StronglySorted_app_2; [| |done].
  - intros [i j] [i' j'] Hp Hq.
    apply list_elem_of_fmap in Hp as (y & [= -> ->] & _).
    apply (elem_of_pairs_of l1 (λ _, seq 0 n)) in Hq as [Hq _].
    left. simpl. rewrite Forall_forall in Hx. by apply Hx.
  - apply (StronglySorted_fmap (pair x) lt row_major); [|apply seq_sorted].
    intros y y' Hy. right. simpl. done.
Qed.

(** A list of cells in strictly increasing row-major order is determined
    by its members. *)
Lemma row_major_unique (l1 l2 : list (nat * nat)) :
  StronglySorted row_major l1 → StronglySorted row_major l2 →
  (∀ p, p ∈ l1 ↔ p ∈ l2) → l1 = l2.
Proof.
  assert (∀ l, StronglySorted row_major l → NoDup l) as Hnodup.
  { induction 1 as [|x l Hl IH Hx]; constructor; [|done].
    intros Hin. rewrite Forall_forall in Hx. specialize (Hx x Hin).
    unfold row_major in Hx. lia. }
  intros H1 H2 Hmem. apply (StronglySorted_unique_strong row_major); [|done..|].
  - intros [i j] [i' j'] _ _. unfold row_major. simpl. lia.
  - apply NoDup_Permutation; auto.
Qed.

(** ** The compliance comparison on matrices of the same side *)

(** A loop that collects a line for every index passing a test and raises a
    flag when there is one. *)
Lemma for_report {X} (l : list X)
    (body : X → bool * list string → result (bool * list string))
    (P : X → bool) (msg : X → string) (b : bool) (ms : list string) :
  (∀ x b ms, x ∈ l →
     body x (b, ms) = Ok (if P x then (true, ms ++ [msg x]) else (b, ms))) →
  for_ l body (b, ms)
  = Ok (b || negb (bool_decide (List.filter P l = [])),
        ms ++ (msg <$> List.filter P l)).
Proof.
  revert b ms. induction l as [|x l IH]; intros b ms Hb; simpl.
  - by rewrite orb_false_r, app_nil_r.
  - rewrite Hb by left. simpl. destruct (P x); simpl.
    + rewrite IH by (intros; apply Hb; by right). simpl.
      by rewrite orb_true_r, <-app_assoc.
    + rewrite IH by (intros; apply Hb; by right). done.
Qed.

Lemma filter_nil_iff {X} (P : X → bool) (l : list X) :
  List.filter P l = [] ↔ ∀ x, x ∈ l → P x = false.
Proof.
  induction l as [|x l IH]; simpl.
  - split; [|done]. intros _ x Hx. by apply elem_of_nil in Hx.
  - destruct (P x) eqn:Hx.
    + split; [done|]. intros H. specialize (H x (list_elem_of_here _ _)). congruence.
    + rewrite IH. split.
      * intros H y [->|Hy]%elem_of_cons; auto.
      * intros H y Hy. apply H. by right.
Qed.

Lemma elem_of_square_pairs n i j :
  (i, j) ∈ square_pairs n ↔ (i < n)%nat ∧ (j < n)%nat.
Proof. unfold square_pairs. rewrite elem_of_pairs_of, !elem_of_seq. lia. Qed.

Lemma expected_lookup n (med : list (list Z)) i j :
  square n med → (i < n)%nat → (j < n)%nat →
  getitem2 med i j = Ok (expected med i j).
Proof.
  intros [Hlen Hrows] Hi Hj. unfold expected, cell, getitem2.
  destruct (lookup_lt_is_Some_2 med i) as [row Hrow]; [lia|].
  rewrite (getitem_Some _ _ _ Hrow), Hrow. simpl.
  assert (length row = n) as Hrowlen.
  { by eapply (Forall_lookup_1 _ _ _ _ Hrows). }
  destruct (lookup_lt_is_Some_2 row j) as [x Hx]; [lia|].
  by rewrite (getitem_Some _ _ _ Hx), Hx.
Qed.

Lemma first_row n (m : list (list Z)) :
  square n m → (0 < n)%nat → ∃ row, getitem m 0 = Ok row ∧ length row = n.
Proof.
  intros [Hlen Hrows] Hn.
  destruct (lookup_lt_is_Some_2 m 0) as [row Hrow]; [lia|].
  exists row. split; [by apply getitem_Some|].
  by eapply (Forall_lookup_1 _ _ _ _ Hrows).
Qed.

Lemma wf_dsm_square dsm : wf_dsm dsm → square (size dsm) (dependency_matrix dsm).
Proof. by intros (_ & _ & ? & ?). Qed.

Lemma is_discrepancy_wf dsm med i j :
  wf_dsm dsm → square (size dsm) med → (i < size dsm)%nat → (j < size dsm)%nat →
  is_discrepancy (dependency_matrix dsm) med i j = Ok (discrepancy dsm med i j).
Proof.
  intros Hwf Hmed Hi Hj. unfold is_discrepancy, discrepancy.
  rewrite (expected_lookup _ _ _ _ Hmed Hi Hj), observed_lookup by done. simpl.
  destruct (bool_decide (expected med i j = 0)); simpl.
  - destruct (bool_decide (0 < observed dsm i j)); simpl; [done|].
    by destruct (bool_decide (expected med i j = 1)).
  - by destruct (bool_decide (expected med i j = 1)).
Qed.

Lemma matrices_compliance_wf dsm med :
  wf_dsm dsm → (0 < size dsm)%nat → square (size dsm) med →
  _matrices_compliance dsm med
  = Ok (bool_decide
          (List.filter (λ p, discrepancy dsm med p.1 p.2)
             (square_pairs (size dsm)) = []),
        join_lines
          ((λ p, untolerated_message p.1 p.2 (entity dsm p.1) (entity dsm p.2)
                   (observed dsm p.1 p.2) (expected med p.1 p.2))
           <$> List.filter (λ p, discrepancy dsm med p.1 p.2)
                 (square_pairs (size dsm)))).
Proof.
  intros Hwf Hn Hmed. unfold _matrices_compliance.
  destruct (first_row _ _ (wf_dsm_square dsm Hwf) Hn) as (row0 & -> & Hrow0).
  destruct (first_row _ _ Hmed Hn) as (mrow0 & -> & Hmrow0). simpl.
  destruct Hmed as [Hmlen Hmrows].
  destruct (wf_dsm_square dsm Hwf) as [Hlen _].
  rewrite Hrow0, Hmrow0, Hlen, Hmlen.
  rewrite !bool_decide_eq_false_2 by (intros H; by apply H). simpl.
  rewrite (for_nested (range 0 (size dsm)) (λ _, range 0 (size dsm))
    (λ i j '(discrepancy_found, message),
       c ← is_discrepancy (dependency_matrix dsm) med i j;
       if c : bool then
         ei ← getitem (entities dsm) i;
         ej ← getitem (entities dsm) j;
         o ← getitem2 (dependency_matrix dsm) i j;
         e ← getitem2 med i j;
         Ok (true, message ++ [untolerated_message i j ei ej o e])
       else Ok (discrepancy_found, message))).
  rewrite (for_report _ _ (λ p, discrepancy dsm med p.1 p.2)
             (λ p, untolerated_message p.1 p.2 (entity dsm p.1) (entity dsm p.2)
                     (observed dsm p.1 p.2) (expected med p.1 p.2))).
  - simpl. rewrite !range_0. fold (square_pairs (size dsm)).
    by destruct (bool_decide _).
  - intros [i j] b ms Hp. apply elem_of_square in Hp as [Hi Hj]. simpl in *.
    rewrite is_discrepancy_wf by done.
    destruct (discrepancy dsm med i j); [|done]. simpl.
    rewrite (getitem_Some _ _ _ (entity_lookup dsm Hwf i Hi)),
      (getitem_Some _ _ _ (entity_lookup dsm Hwf j Hj)),
      observed_lookup by done. simpl.
    by rewrite (expected_lookup _ _ _ _ (conj Hmlen Hmrows) Hi Hj).
Qed.

Lemma discrepancy_iff dsm med i j :
  discrepancy dsm med i j = true ↔
  (expected med i j = 0 ∧ 0 < observed dsm i j)
  ∨ (expected med i j = 1 ∧ observed dsm i j < 1).
Proof.
  unfold discrepancy.
  by rewrite orb_true_iff, !andb_true_iff, !bool_decide_eq_true.
Qed.

(** X5. For a well-formed matrix with at least one entity and a mediation
    matrix of the same side, [_matrices_compliance] returns True exactly
    when no cell is expected to be 0 and observed positive, or expected to
    be 1 and observed below 1; its message has one line for each such cell,
    row by row, giving the two indices, the two names, the observed value
    and the expected one. The list [found] of the reported cells is fixed
    by its members and by its strictly increasing row-major order, which
    leaves no room for a repeated or a displaced line. *)
Theorem matrices_compliance_verdict dsm med :
  wf_dsm dsm → (0 < size dsm)%nat → square (size dsm) med →
  ∃ (found : list (nat * nat)) (compliant : bool),
    (∀ i j, (i, j) ∈ found ↔
       (i < size dsm)%nat ∧ (j < size dsm)%nat
       ∧ ((expected med i j = 0 ∧ 0 < observed dsm i j)
          ∨ (expected med i j = 1 ∧ observed dsm i j < 1)))
    ∧ StronglySorted row_major found
    ∧ _matrices_compliance dsm med
      = Ok (compliant,
            join_lines
              ((λ p, "  Untolerated dependency at " +:+ str (Z.of_nat p.1)
                     +:+ ":" +:+ str (Z.of_nat p.2)
                     +:+ " (" +:+ entity dsm p.1 +:+ ":" +:+ entity dsm p.2
                     +:+ "): " +:+ str (observed dsm p.1 p.2)
                     +:+ " instead of " +:+ str (expected med p.1 p.2))
               <$> found))
    ∧ (compliant = true ↔ found = []).
Proof.
  intros Hwf Hn Hmed.
  exists (List.filter (λ p, discrepancy dsm med p.1 p.2) (square_pairs (size dsm))),
    (bool_decide (List.filter (λ p, discrepancy dsm med p.1 p.2)
                    (square_pairs (size dsm)) = [])).
  split; [|split; [|split]].
  - intros i j. rewrite elem_of_filter_bool, elem_of_square_pairs. simpl.
    rewrite discrepancy_iff. tauto.
  - apply filter_sorted, square_pairs_sorted.
  - by apply matrices_compliance_wf.
  - apply bool_decide_eq_true.
Qed.

Lemma matrices_compliance_verdict_witness :
  ∃ (found : list (nat * nat)) (compliant : bool),
    (∀ i j, (i, j) ∈ found ↔
       (i < size dsm_unmediated)%nat ∧ (j < size dsm_unmediated)%nat
       ∧ ((expected [[0; 1; -1]; [-1; -1; -1]; [0; 0; 1]] i j = 0
           ∧ 0 < observed dsm_unmediated i j)
          ∨ (expected [[0; 1; -1]; [-1; -1; -1]; [0; 0; 1]] i j = 1
             ∧ observed dsm_unmediated i j < 1)))
    ∧ StronglySorted row_major found
    ∧ _matrices_compliance dsm_unmediated [[0; 1; -1]; [-1; -1; -1]; [0; 0; 1]]
      = Ok (compliant,
            join_lines
              ((λ p, "  Untolerated dependency at " +:+ str (Z.of_nat p.1)
                     +:+ ":" +:+ str (Z.of_nat p.2)
                     +:+ " (" +:+ entity dsm_unmediated p.1 +:+ ":"
                     +:+ entity dsm_unmediated p.2
                     +:+ "): " +:+ str (observed dsm_unmediated p.1 p.2)
                     +:+ " instead of "
                     +:+ str (expected [[0; 1; -1]; [-1; -1; -1]; [0; 0; 1]]
                                p.1 p.2))
               <$> found))
    ∧ (compliant = true ↔ found = []).
Proof.
  apply (matrices_compliance_verdict dsm_unmediated
           [[0; 1; -1]; [-1; -1; -1]; [0; 0; 1]]);
    [solve_wf | simpl; lia | split; [done | repeat constructor]].
Defined.

(** A required dependency that is missing is reported like a forbidden one
    that is present. *)
Example missing_required_dependency :
  _matrices_compliance dsm_unmediated [[0; 1; -1]; [-1; -1; -1]; [0; 0; 1]]
  = Ok (false,
        "  Untolerated dependency at 2:0 (hub.events:shop.cart): 1 instead of 0"
        +:+ String "010"
        "  Untolerated dependency at 2:1 (hub.events:blog.posts): 1 instead of 0"
        +:+ String "010"
        "  Untolerated dependency at 2:2 (hub.events:hub.events): 0 instead of 1").
Proof. vm_compute. reflexivity. Qed.

(** ** Complete mediation *)

Lemma expected_table dsm f i j :
  (i < size dsm)%nat → (j < size dsm)%nat →
  expected (table_of dsm f) i j
  = f (category dsm i) (category dsm j) (entity dsm i) (entity dsm j) i j.
Proof. intros Hi Hj. unfold expected. by rewrite table_of_cell. Qed.

Lemma table_of_square dsm f : square (size dsm) (table_of dsm f).
Proof. apply table_of_shape. Qed.

(** X6. On a well-formed matrix with known categories and at least one
    entity, the complete mediation check of criterion.py fails exactly when
    some cell that the generated matrix sets to 0 is observed positive; the
    message has one line for each such cell, and every line ends with
    "instead of 0": a missing dependency is never reported. The list
    [forbidden] of the reported cells is fixed by its members and by its
    strictly increasing row-major order. *)
Theorem complete_mediation_forbidden dsm :
  wf_dsm dsm → Forall known_category (categories dsm) → (0 < size dsm)%nat →
  ∃ (m : list (list Z)) (forbidden : list (nat * nat)) (compliant : bool),
    _generate_mediation_matrix dsm = Ok m
    ∧ (∀ i j, (i, j) ∈ forbidden ↔
         cell m i j = Some 0 ∧ 0 < observed dsm i j)
    ∧ StronglySorted row_major forbidden
    ∧ check_complete_mediation dsm
      = Ok (compliant,
            join_lines
              ((λ p, "  Untolerated dependency at " +:+ str (Z.of_nat p.1)
                     +:+ ":" +:+ str (Z.of_nat p.2)
                     +:+ " (" +:+ entity dsm p.1 +:+ ":" +:+ entity dsm p.2
                     +:+ "): " +:+ str (observed dsm p.1 p.2)
                     +:+ " instead of 0")
               <$> forbidden))
    ∧ (compliant = true ↔ forbidden = []).
Proof.
  intros Hwf Hk Hn.
  set (m := table_of dsm mediation_cell).
  set (found := List.filter (λ p, discrepancy dsm m p.1 p.2)
                  (square_pairs (size dsm))).
  assert (∀ i j, (i, j) ∈ found ↔ cell m i j = Some 0 ∧ 0 < observed dsm i j)
    as Hfound.
  { intros i j. unfold found.
    rewrite elem_of_filter_bool, elem_of_square_pairs. simpl.
    rewrite discrepancy_iff. split.
    - intros ([Hi Hj] & H). unfold m in *. rewrite expected_table in H by done.
      rewrite table_of_cell by done.
      destruct (mediation_cell_with_values [framework; core_lib]
        [app_module; core_lib; framework] (category dsm i) (category dsm j)
        (entity dsm i) (entity dsm j) i j) as [E|E];
        unfold mediation_cell in *; rewrite E in *; [lia|].
      split; [done|]. lia.
    - intros [Hc Ho]. unfold m in Hc.
      pose proof (table_of_cell_inv _ _ _ _ _ Hc) as (Hi & Hj & Hv).
      split; [done|]. left. split; [|done].
      unfold m. rewrite expected_table by done. congruence. }
  exists m, found, (bool_decide (found = [])).
  split; [by apply generate_mediation_matrix_wf|]. split; [done|].
  split; [apply filter_sorted, square_pairs_sorted|].
  split; [|apply bool_decide_eq_true].
  unfold check_complete_mediation.
  rewrite generate_mediation_matrix_wf by done. simpl.
  rewrite matrices_compliance_wf by (done || apply table_of_square).
  fold m found. do 3 f_equal.
  apply Forall_fmap_ext, Forall_forall. intros [i j] Hp. simpl.
  apply Hfound in Hp as [Hc _]. unfold untolerated_message, expected.
  by rewrite Hc.
Qed.

Lemma complete_mediation_forbidden_witness :
  ∃ (m : list (list Z)) (forbidden : list (nat * nat)) (compliant : bool),
    _generate_mediation_matrix dsm_unmediated = Ok m
    ∧ (∀ i j, (i, j) ∈ forbidden ↔
         cell m i j = Some 0 ∧ 0 < observed dsm_unmediated i j)
    ∧ StronglySorted row_major forbidden
    ∧ check_complete_mediation dsm_unmediated
      = Ok (compliant,
            join_lines
              ((λ p, "  Untolerated dependency at " +:+ str (Z.of_nat p.1)
                     +:+ ":" +:+ str (Z.of_nat p.2)
                     +:+ " (" +:+ entity dsm_unmediated p.1 +:+ ":"
                     +:+ entity dsm_unmediated p.2
                     +:+ "): " +:+ str (observed dsm_unmediated p.1 p.2)
                     +:+ " instead of 0")
               <$> forbidden))
    ∧ (compliant = true ↔ forbidden = []).
Proof.
  apply (complete_mediation_forbidden dsm_unmediated);
    [solve_wf | solve_known | simpl; lia].
Defined.

(** Two modules that use each other without the broker are both reported;
    their use of the broker is not. *)
Example unmediated_modules :
  check_complete_mediation dsm_unmediated
  = Ok (false,
        "  Untolerated dependency at 0:1 (shop.cart:blog.posts): 2 instead of 0"
        +:+ String "010"
        "  Untolerated dependency at 1:0 (blog.posts:shop.cart): 1 instead of 0").
Proof. vm_compute. reflexivity. Qed.

(** ** Matrices without entities *)

(** X7. On a matrix without entities the checks of criterion.py do not
    agree: complete mediation raises IndexError on the first row of the
    empty matrix, least common mechanism raises ValueError on the maximum of
    no in-degree, economy of mechanism fails for every factor because 0 is
    not below 0, and layered architecture passes. *)
Theorem no_entities (str_float : Q → string) dsm (factor : Z) :
  size dsm = 0%nat → dependency_matrix dsm = [] → categories dsm = [] →
  check_complete_mediation dsm = Raise IndexError
  ∧ check_least_common_mechanism str_float dsm factor = Raise ValueError
  ∧ check_economy_of_mechanism dsm factor
    = Ok (false,
          "  Number of dependencies (0) > number of rows (0) * simplicity factor ("
          +:+ str factor +:+ ") = 0")
  ∧ check_layered_architecture dsm = Ok (true, "").
Proof.
  intros Hsize Hm Hc.
  unfold check_complete_mediation, _generate_mediation_matrix,
    _matrices_compliance, check_least_common_mechanism, dependent_modules,
    check_economy_of_mechanism, check_layered_architecture.
  rewrite Hsize, Hm, Hc. repeat split.
Qed.

Lemma no_entities_witness :
  check_complete_mediation
    {| categories := []; entities := []; dependency_matrix := []; size := 0 |}
  = Raise IndexError
  ∧ check_least_common_mechanism (λ _, "")
      {| categories := []; entities := []; dependency_matrix := []; size := 0 |} 5
    = Raise ValueError
  ∧ check_economy_of_mechanism
      {| categories := []; entities := []; dependency_matrix := []; size := 0 |} 2
    = Ok (false,
          "  Number of dependencies (0) > number of rows (0) * simplicity factor (2) = 0")
  ∧ check_layered_architecture
      {| categories := []; entities := []; dependency_matrix := []; size := 0 |}
    = Ok (true, "").
Proof.
  apply (no_entities (λ _, "")
           {| categories := []; entities := []; dependency_matrix := [];
              size := 0 |} 2); reflexivity.
Defined.

(** ** The simplicity factor *)

Lemma check_economy_of_mechanism_wf dsm simplicity_factor :
  wf_dsm dsm →
  check_economy_of_mechanism dsm simplicity_factor
  = Ok (if bool_decide (count_pairs (size dsm) (coupled [framework; core_lib] dsm)
                        < Z.of_nat (size dsm) * simplicity_factor)
        then (true, "")
        else (false,
              economy_message
                (count_pairs (size dsm) (coupled [framework; core_lib] dsm))
                (size dsm) simplicity_factor)).
Proof.
  intros Hwf. unfold check_economy_of_mechanism.
  rewrite (count_loop dsm _ (coupled [framework; core_lib] dsm))
    by (intros; by apply economy_counted_wf).
  simpl. by case_bool_decide.
Qed.

Lemma count_pairs_nonneg n P : 0 ≤ count_pairs n P.
Proof. unfold count_pairs. lia. Qed.

(** X8. A simplicity factor of zero or below fails every well-formed
    matrix, whatever its dependencies are. *)
Theorem economy_non_positive_factor dsm simplicity_factor :
  wf_dsm dsm → simplicity_factor ≤ 0 →
  ∃ message, check_economy_of_mechanism dsm simplicity_factor = Ok (false, message).
Proof.
  intros Hwf Hf. rewrite check_economy_of_mechanism_wf by done.
  pose proof (count_pairs_nonneg (size dsm) (coupled [framework; core_lib] dsm)).
  rewrite bool_decide_eq_false_2 by nia. by eexists.
Qed.

Lemma economy_non_positive_factor_witness :
  ∃ message, check_economy_of_mechanism dsm_three 0 = Ok (false, message).
Proof. apply (economy_non_positive_factor dsm_three 0); [solve_wf | lia]. Defined.

(** X9. Increasing the simplicity factor never turns a pass into a
    failure. *)
Theorem economy_factor_monotone dsm (f f' : Z) :
  wf_dsm dsm → f ≤ f' →
  check_economy_of_mechanism dsm f = Ok (true, "") →
  check_economy_of_mechanism dsm f' = Ok (true, "").
Proof.
  intros Hwf Hle. rewrite !check_economy_of_mechanism_wf by done.
  case_bool_decide as Hf; [|done]. intros _.
  rewrite bool_decide_eq_true_2; [done|]. nia.
Qed.

Lemma economy_factor_monotone_witness :
  check_economy_of_mechanism dsm_nine_edges 3 = Ok (true, "").
Proof.
  apply (economy_factor_monotone dsm_nine_edges 2 3);
    [solve_wf | lia | vm_compute; reflexivity].
Defined.

(** ** The independence factor *)

(** X10. With a negative independence factor, a well-formed matrix in
    which some entity has a counted dependent fails the check: the largest
    in-degree is at least 1 and the quotient is not positive, however it is
    rounded. The message names the first entity that reaches the largest
    in-degree, this number, N, the factor and the quotient. *)
Theorem least_common_mechanism_negative_factor (str_float : Q → string) dsm
    (independence_factor : Z) :
  wf_dsm dsm → independence_factor < 0 →
  (∃ j, (j < size dsm)%nat ∧ 0 < counted_in_degree dsm j) →
  ∃ (maximum : Z) (k : nat),
    (k < size dsm)%nat
    ∧ 0 < maximum
    ∧ counted_in_degree dsm k = maximum
    ∧ (∀ j, (j < size dsm)%nat → counted_in_degree dsm j ≤ maximum)
    ∧ (∀ j, (j < k)%nat → counted_in_degree dsm j < maximum)
    ∧ check_least_common_mechanism str_float dsm independence_factor
      = Ok (false,
            "  Dependencies to " +:+ entity dsm k
            +:+ " (" +:+ str maximum +:+ ") "
            +:+ "> matrix size (" +:+ str (Z.of_nat (size dsm))
            +:+ ") / independence factor (" +:+ str independence_factor
            +:+ ") = "
            +:+ str_float (inject_Z (Z.of_nat (size dsm))
                           / inject_Z independence_factor)%Q).
Proof.
  intros Hwf Hf (j0 & Hj0 & Hpos).
  set (degrees := counted_in_degree dsm <$> seq 0 (size dsm)).
  assert (∀ j, (j < size dsm)%nat → degrees !! j = Some (counted_in_degree dsm j))
    as Hlt.
  { intros j Hj. unfold degrees. by rewrite list_lookup_fmap, lookup_seq_lt. }
  assert (counted_in_degree dsm j0 ∈ degrees) as Hjin.
  { apply list_elem_of_lookup. exists j0. by apply Hlt. }
  assert (degrees ≠ []) as Hne.
  { intros Hnil. rewrite Hnil in Hjin. by apply elem_of_nil in Hjin. }
  destruct (py_max_spec degrees Hne) as (maximum & Hmax & Hin & Hall).
  destruct (py_index_spec degrees maximum Hin) as (k & Hindex & Hk & Hfirst).
  assert (k < size dsm)%nat as Hksize.
  { apply lookup_lt_Some in Hk. unfold degrees in Hk.
    by rewrite length_fmap, length_seq in Hk. }
  assert (0 < maximum) as Hm.
  { specialize (Hall _ Hjin). lia. }
  exists maximum, k. split; [done|]. split; [done|]. split.
  { rewrite Hlt in Hk by done. congruence. }
  split.
  { intros j Hj. apply Hall. apply list_elem_of_lookup. exists j. by apply Hlt. }
  split.
  { intros j Hj.
    assert (counted_in_degree dsm j ≤ maximum).
    { apply Hall, list_elem_of_lookup. exists j. apply Hlt. lia. }
    assert (counted_in_degree dsm j ≠ maximum); [|lia].
    intros Heq. apply (Hfirst j Hj). rewrite Hlt by lia. congruence. }
  unfold check_least_common_mechanism.
  rewrite dependent_modules_wf by done. fold degrees. simpl.
  rewrite Hmax. simpl. unfold truediv.
  rewrite bool_decide_eq_false_2 by lia. simpl.
  assert (Qle_bool (inject_Z maximum)
            (inject_Z (Z.of_nat (size dsm)) / inject_Z independence_factor)
          = false) as ->.
  { apply not_true_is_false. rewrite Qle_bool_iff.
    destruct independence_factor as [|p|p]; [lia..|].
    unfold Qle, Qdiv, Qmult, Qinv, inject_Z. simpl. nia. }
  rewrite Hindex. simpl.
  by rewrite (getitem_Some _ _ _ (entity_lookup dsm Hwf k Hksize)).
Qed.

Lemma least_common_mechanism_negative_factor_witness :
  ∃ (maximum : Z) (k : nat),
    (k < size dsm_hub)%nat
    ∧ 0 < maximum
    ∧ counted_in_degree dsm_hub k = maximum
    ∧ (∀ j, (j < size dsm_hub)%nat → counted_in_degree dsm_hub j ≤ maximum)
    ∧ (∀ j, (j < k)%nat → counted_in_degree dsm_hub j < maximum)
    ∧ check_least_common_mechanism (λ _, "-2.0") dsm_hub (-5)
      = Ok (false,
            "  Dependencies to " +:+ entity dsm_hub k
            +:+ " (" +:+ str maximum +:+ ") "
            +:+ "> matrix size (" +:+ str (Z.of_nat (size dsm_hub))
            +:+ ") / independence factor (" +:+ str (-5) +:+ ") = "
            +:+ (λ _ : Q, "-2.0")
                  (inject_Z (Z.of_nat (size dsm_hub)) / inject_Z (-5))%Q).
Proof.
  apply (least_common_mechanism_negative_factor (λ _, "-2.0") dsm_hub (-5));
    [solve_wf | lia |].
  exists 9%nat. split; [simpl; lia|]. vm_compute. reflexivity.
Defined.

(** X26. With at least one entity, the independence factor 0 makes the
    check raise ZeroDivisionError on a well-formed matrix: the in-degrees
    and their maximum are computed first, then the division fails. *)
Theorem least_common_mechanism_zero_factor (str_float : Q → string) dsm :
  wf_dsm dsm → (0 < size dsm)%nat →
  check_least_common_mechanism str_float dsm 0 = Raise ZeroDivisionError.
Proof.
  intros Hwf Hn.
  assert (counted_in_degree dsm <$> seq 0 (size dsm) ≠ []) as Hne.
  { intros Hnil. apply (f_equal length) in Hnil.
    rewrite length_fmap, length_seq in Hnil. simpl in Hnil. lia. }
  destruct (py_max_spec _ Hne) as (m & Hmax & _).
  unfold check_least_common_mechanism.
  rewrite dependent_modules_wf by done. simpl. by rewrite Hmax.
Qed.

Lemma least_common_mechanism_zero_factor_witness :
  check_least_common_mechanism (λ _, "") dsm_three 0 = Raise ZeroDivisionError.
Proof.
  apply (least_common_mechanism_zero_factor (λ _, "") dsm_three);
    [solve_wf | simpl; lia].
Defined.

(** ** Messages and return codes *)

Lemma join_lines_nonempty (l : list string) :
  l ≠ [] → Forall (λ line, line ≠ "") l → join_lines l ≠ "".
Proof.
  destruct l as [|x l]; [done|]. intros _ Hl.
  apply Forall_cons in Hl as [Hx _]. unfold join_lines. simpl.
  destruct x as [|c x]; [done|]. by destruct l.
Qed.

Lemma join_lines_fmap_nonempty {X} (f : X → string) (l : list X) :
  (∀ x, f x ≠ "") → l ≠ [] → join_lines (f <$> l) ≠ "".
Proof.
  intros Hf Hl. apply join_lines_nonempty.
  - by destruct l.
  - apply Forall_fmap, Forall_forall. intros x _. apply Hf.
Qed.

Lemma consistent_report {X} (f : X → string) (l : list X) :
  (∀ x, f x ≠ "") →
  consistent (Ok (bool_decide (l = []), join_lines (f <$> l))).
Proof.
  intros Hf. destruct l as [|x l]; [by left|]. right.
  exists (join_lines (f <$> x :: l)). split; [|done].
  by apply join_lines_fmap_nonempty.
Qed.

Section consistency.
Context (str_float : Q → string) (dsm : DesignStructureMatrix).
Context (Hwf : wf_dsm dsm) (Hn : (0 < size dsm)%nat).

Lemma check_complete_mediation_consistent :
  Forall known_category (categories dsm) →
  consistent (check_complete_mediation dsm).
Proof.
  intros Hk. unfold check_complete_mediation.
  rewrite generate_mediation_matrix_wf by done. simpl.
  rewrite matrices_compliance_wf by (done || apply table_of_square).
  by apply consistent_report.
Qed.

Lemma check_economy_of_mechanism_consistent simplicity_factor :
  consistent (check_economy_of_mechanism dsm simplicity_factor).
Proof.
  rewrite check_economy_of_mechanism_wf by done.
  case_bool_decide; [by left|right].
  eexists. split; [|reflexivity]. unfold economy_message. discriminate.
Qed.

Lemma check_least_common_mechanism_consistent independence_factor :
  0 < independence_factor →
  consistent (check_least_common_mechanism str_float dsm independence_factor).
Proof.
  intros Hf.
  destruct (check_least_common_mechanism_wf str_float dsm independence_factor
              Hwf Hn Hf) as (maximum & k & passed & _ & _ & _ & _ & _ & ->).
  destruct passed; [by left|right].
  eexists. split; [|reflexivity]. discriminate.
Qed.

Lemma check_layered_architecture_consistent :
  consistent (check_layered_architecture dsm).
Proof.
  rewrite check_layered_architecture_wf by done. by apply consistent_report.
Qed.
End consistency.

(** X11. On a well-formed matrix with known categories and at least one
    entity, each of the four implemented checks of criterion.py returns
    either True with an empty message or False with a message that is not
    empty. *)
Theorem message_empty_iff_passed (str_float : Q → string) dsm
    (simplicity_factor independence_factor : Z) :
  wf_dsm dsm → Forall known_category (categories dsm) → (0 < size dsm)%nat →
  0 < independence_factor →
  ∀ r, r ∈ [check_complete_mediation dsm;
            check_economy_of_mechanism dsm simplicity_factor;
            check_least_common_mechanism str_float dsm independence_factor;
            check_layered_architecture dsm] →
    ∃ passed message,
      r = Ok (passed, message) ∧ (passed = true ↔ message = "").
Proof.
  intros Hwf Hk Hn Hf r Hr.
  assert (consistent r) as [->|(message & Hne & ->)].
  { rewrite !elem_of_cons, elem_of_nil in Hr.
    destruct Hr as [-> | [-> | [-> | [-> | []]]]].
    - by apply check_complete_mediation_consistent.
    - by apply check_economy_of_mechanism_consistent.
    - by apply check_least_common_mechanism_consistent.
    - by apply check_layered_architecture_consistent. }
  - by exists true, "".
  - exists false, message. split; [done|]. split; [done|]. by intros ->.
Qed.

Lemma message_empty_iff_passed_witness :
  ∃ passed message,
    check_complete_mediation dsm_unmediated = Ok (passed, message)
    ∧ (passed = true ↔ message = "").
Proof.
  apply (message_empty_iff_passed (λ _, "") dsm_unmediated 2 5);
    [solve_wf | solve_known | simpl; lia | lia | left].
Defined.

Lemma call_without_keyword {B} (c : Criterion B) (f : B → result (bool * string))
    (args : B) :
  kwargs c = ∅ →
  check c = Some (λ dsm, no_keyword (returns_bool (f dsm))) →
  call c args ∅ = prod_map (return_code ∘ PyBool) id <$> f args.
Proof.
  intros Hkw Hcheck. unfold call. rewrite Hkw, Hcheck, (right_id_L ∅ (∪)).
  unfold no_keyword. rewrite bool_decide_eq_true_2 by done.
  by destruct (f args) as [[[] msg]|e].
Qed.

Lemma call_default_keyword {B} (c : Criterion B) (name : string) (dflt : Z)
    (f : B → Z → result (bool * string)) (args : B) :
  kwargs c = ∅ →
  check c = Some (λ dsm, one_keyword name dflt (λ x, returns_bool (f dsm x))) →
  call c args ∅ = prod_map (return_code ∘ PyBool) id <$> f args dflt.
Proof.
  intros Hkw Hcheck. unfold call. rewrite Hkw, Hcheck, (right_id_L ∅ (∪)).
  unfold one_keyword. rewrite dom_empty_L.
  rewrite bool_decide_eq_true_2 by set_solver. rewrite lookup_empty. simpl.
  by destruct (f args dflt) as [[[] msg]|e].
Qed.

Lemma consistent_code (r : result (bool * string)) :
  consistent r →
  prod_map (return_code ∘ PyBool) id <$> r = Ok (PASSED, "")
  ∨ ∃ message, message ≠ ""
      ∧ prod_map (return_code ∘ PyBool) id <$> r = Ok (FAILED, message).
Proof.
  intros [->|(message & Hne & ->)]; [by left|right]. by exists message.
Qed.

(** X12. On such a matrix the four implemented criteria of the registry,
    called without keyword, return PASSED with an empty message or FAILED
    with a message that is not empty: never NOT_IMPLEMENTED, IGNORED or an
    error. *)
Theorem implemented_criteria_pass_or_fail (read_criterion : string → string)
    (str_float : Q → string) dsm :
  wf_dsm dsm → Forall known_category (categories dsm) → (0 < size dsm)%nat →
  ∀ c, c ∈ [COMPLETE_MEDIATION read_criterion;
            ECONOMY_OF_MECHANISM read_criterion;
            LEAST_COMMON_MECHANISM read_criterion str_float;
            LAYERED_ARCHITECTURE read_criterion] →
    call c dsm ∅ = Ok (PASSED, "")
    ∨ ∃ message, message ≠ "" ∧ call c dsm ∅ = Ok (FAILED, message).
Proof.
  intros Hwf Hk Hn c Hc. rewrite !elem_of_cons, elem_of_nil in Hc.
  destruct Hc as [-> | [-> | [-> | [-> | []]]]].
  - rewrite (call_without_keyword _ check_complete_mediation) by done.
    by apply consistent_code, check_complete_mediation_consistent.
  - rewrite (call_default_keyword _ "simplicity_factor" 2
               check_economy_of_mechanism) by done.
    by apply consistent_code, check_economy_of_mechanism_consistent.
  - rewrite (call_default_keyword _ "independence_factor" 5
               (check_least_common_mechanism str_float)) by done.
    by apply consistent_code, check_least_common_mechanism_consistent.
  - rewrite (call_without_keyword _ check_layered_architecture) by done.
    by apply consistent_code, check_layered_architecture_consistent.
Qed.

Lemma implemented_criteria_pass_or_fail_witness :
  call (LAYERED_ARCHITECTURE (λ _, "")) dsm_forward_edge ∅ = Ok (PASSED, "")
  ∨ ∃ message,
      message ≠ ""
      ∧ call (LAYERED_ARCHITECTURE (λ _, "")) dsm_forward_edge ∅
        = Ok (FAILED, message).
Proof.
  apply (implemented_criteria_pass_or_fail (λ _, "") (λ _, "") dsm_forward_edge);
    [solve_wf | solve_known | simpl; lia | set_solver].
Defined.

(** ** Keyword arguments *)

(** X13. The keyword arguments bound when a criterion is created win over
    those of the call: two calls that differ only in keywords the criterion
    binds itself give the same result. *)
Theorem criterion_keywords_win {A} (self : Criterion A) (args : A)
    (kw kw' : kwargs_t) :
  (∀ k, kwargs self !! k = None → kw !! k = kw' !! k) →
  call self args kw = call self args kw'.
Proof.
  intros Hagree. unfold call.
  assert (kwargs self ∪ kw = kwargs self ∪ kw') as ->; [|done].
  apply map_eq. intros k. rewrite !lookup_union.
  destruct (kwargs self !! k) as [x|] eqn:Hk.
  - by destruct (kw !! k), (kw' !! k).
  - by rewrite (Hagree k Hk).
Qed.

Lemma criterion_keywords_win_witness :
  call STRICT_ECONOMY dsm_nine_edges {["simplicity_factor" := 100]}
  = call STRICT_ECONOMY dsm_nine_edges ∅.
Proof.
  apply (criterion_keywords_win STRICT_ECONOMY dsm_nine_edges).
  intros k Hk. simpl in Hk. apply lookup_singleton_None in Hk.
  by rewrite lookup_singleton_ne, lookup_empty.
Defined.

(** With the factor 2 of the default the nine dependencies pass; with the
    factor 1 the criterion binds they fail, whatever the call asks for. *)
Example strict_economy_ignores_call :
  call STRICT_ECONOMY dsm_nine_edges {["simplicity_factor" := 100]}
  = Ok (FAILED,
        "  Number of dependencies (9) > number of rows (5) * simplicity factor (1) = 5").
Proof. vm_compute. reflexivity. Qed.

(** X14. A registered criterion called with a keyword its check does not
    take raises TypeError before the check runs; ECONOMY_OF_MECHANISM called
    with [simplicity_factor] runs its check with that factor. *)
Theorem registry_keywords (read_criterion : string → string) dsm (kw : kwargs_t) :
  (kw ≠ ∅ →
   ∀ c, c ∈ [COMPLETE_MEDIATION read_criterion;
             SEPARATION_OF_PRIVILEGES read_criterion;
             LEAST_PRIVILEGES read_criterion;
             LAYERED_ARCHITECTURE read_criterion;
             OPEN_DESIGN read_criterion;
             CODE_CLEAN read_criterion] →
     call c dsm kw = Raise TypeError)
  ∧ ((∃ k, k ≠ "simplicity_factor" ∧ is_Some (kw !! k)) →
     call (ECONOMY_OF_MECHANISM read_criterion) dsm kw = Raise TypeError)
  ∧ (∀ f, call (ECONOMY_OF_MECHANISM read_criterion) dsm
            {["simplicity_factor" := f]}
          = prod_map (return_code ∘ PyBool) id
              <$> check_economy_of_mechanism dsm f).
Proof.
  split; [|split].
  - intros Hkw c Hc. rewrite !elem_of_cons, elem_of_nil in Hc.
    destruct Hc as [-> | [-> | [-> | [-> | [-> | [-> | []]]]]]];
      unfold call; simpl; rewrite (left_id_L ∅ (∪)); unfold no_keyword;
      by rewrite bool_decide_eq_false_2.
  - intros (k & Hk & Hin). unfold call. simpl. rewrite (left_id_L ∅ (∪)).
    unfold one_keyword. rewrite bool_decide_eq_false_2; [done|].
    intros Hsub. apply elem_of_dom in Hin. apply Hsub in Hin.
    by apply elem_of_singleton in Hin.
  - intros f. unfold call. simpl. rewrite (left_id_L ∅ (∪)).
    unfold one_keyword. rewrite dom_singleton_L.
    rewrite bool_decide_eq_true_2 by done. rewrite lookup_singleton_eq. simpl.
    by destruct (check_economy_of_mechanism dsm f) as [[[] msg]|e].
Qed.

(** ** checker.py: the compliance comparison *)

Lemma legacy_discrepancy_iff dsm med i j :
  legacy_discrepancy dsm med i j = true ↔
  expected med i j ≠ -1 ∧ observed dsm i j ≠ expected med i j.
Proof.
  unfold legacy_discrepancy.
  by rewrite andb_true_iff, !negb_true_iff, !bool_decide_eq_false.
Qed.

Lemma legacy_matrices_compliance_wf dsm med :
  wf_dsm dsm → (0 < size dsm)%nat → square (size dsm) med →
  Archan._check_matrices_compliance dsm med
  = Ok (bool_decide
          (List.filter (λ p, legacy_discrepancy dsm med p.1 p.2)
             (square_pairs (size dsm)) = []),
        (λ p, Archan.discrepancy_line p.1 p.2 (entity dsm p.1) (entity dsm p.2))
        <$> List.filter (λ p, legacy_discrepancy dsm med p.1 p.2)
              (square_pairs (size dsm))).
Proof.
  intros Hwf Hn Hmed. unfold Archan._check_matrices_compliance.
  destruct (first_row _ _ (wf_dsm_square dsm Hwf) Hn) as (row0 & -> & Hrow0).
  destruct (first_row _ _ Hmed Hn) as (mrow0 & -> & Hmrow0). simpl.
  pose proof Hmed as [Hmlen Hmrows].
  destruct (wf_dsm_square dsm Hwf) as [Hlen _].
  rewrite Hrow0, Hmrow0, Hlen, Hmlen.
  rewrite !bool_decide_eq_true_2 by done.
  rewrite (for_nested (range 0 (size dsm)) (λ _, range 0 (size dsm))
    (λ i j '(discrepancy_found, out),
       c ← pand (e ← getitem2 med i j; Ok (negb (bool_decide (e = -1))))
                (o ← getitem2 (dependency_matrix dsm) i j;
                 e ← getitem2 med i j;
                 Ok (negb (bool_decide (o = e))));
       if c : bool then
         ei ← getitem (entities dsm) i;
         ej ← getitem (entities dsm) j;
         Ok (true, out ++ [Archan.discrepancy_line i j ei ej])
       else Ok (discrepancy_found, out))).
  rewrite (for_report _ _ (λ p, legacy_discrepancy dsm med p.1 p.2)
             (λ p, Archan.discrepancy_line p.1 p.2 (entity dsm p.1)
                     (entity dsm p.2))).
  - simpl. rewrite !range_0. fold (square_pairs (size dsm)).
    by destruct (bool_decide _).
  - intros [i j] b ms Hp. apply elem_of_square in Hp as [Hi Hj]. simpl in *.
    rewrite (expected_lookup _ _ _ _ Hmed Hi Hj), observed_lookup by done.
    simpl. unfold legacy_discrepancy.
    destruct (bool_decide (expected med i j = -1)); simpl; [done|].
    destruct (bool_decide (observed dsm i j = expected med i j)); simpl; [done|].
    by rewrite (getitem_Some _ _ _ (entity_lookup dsm Hwf i Hi)),
      (getitem_Some _ _ _ (entity_lookup dsm Hwf j Hj)).
Qed.

(** X15. For a well-formed matrix with at least one entity and a mediation
    matrix of the same side, the comparison of checker.py returns True
    exactly when every cell whose expected value is not -1 is observed with
    exactly that value, and prints one line for every other cell, with its
    indices and the two names. The list [found] of the printed cells is
    fixed by its members and by its strictly increasing row-major order. *)
Theorem legacy_compliance_verdict dsm med :
  wf_dsm dsm → (0 < size dsm)%nat → square (size dsm) med →
  ∃ (found : list (nat * nat)) (compliant : bool),
    (∀ i j, (i, j) ∈ found ↔
       (i < size dsm)%nat ∧ (j < size dsm)%nat
       ∧ expected med i j ≠ -1 ∧ observed dsm i j ≠ expected med i j)
    ∧ StronglySorted row_major found
    ∧ Archan._check_matrices_compliance dsm med
      = Ok (compliant,
            (λ p, "Matrix discrepancy found at " +:+ str (Z.of_nat p.1)
                  +:+ ":" +:+ str (Z.of_nat p.2)
                  +:+ " (" +:+ entity dsm p.1 +:+ ":" +:+ entity dsm p.2 +:+ ")")
            <$> found)
    ∧ (compliant = true ↔ found = []).
Proof.
  intros Hwf Hn Hmed.
  exists (List.filter (λ p, legacy_discrepancy dsm med p.1 p.2)
            (square_pairs (size dsm))),
    (bool_decide (List.filter (λ p, legacy_discrepancy dsm med p.1 p.2)
                    (square_pairs (size dsm)) = [])).
  split; [|split; [|split]].
  - intros i j. rewrite elem_of_filter_bool, elem_of_square_pairs. simpl.
    rewrite legacy_discrepancy_iff. tauto.
  - apply filter_sorted, square_pairs_sorted.
  - by apply legacy_matrices_compliance_wf.
  - apply bool_decide_eq_true.
Qed.

Lemma legacy_compliance_verdict_witness :
  ∃ (found : list (nat * nat)) (compliant : bool),
    (∀ i j, (i, j) ∈ found ↔
       (i < size dsm_unmediated)%nat ∧ (j < size dsm_unmediated)%nat
       ∧ expected [[0; 2; -1]; [-1; -1; -1]; [0; 0; 1]] i j ≠ -1
       ∧ observed dsm_unmediated i j
         ≠ expected [[0; 2; -1]; [-1; -1; -1]; [0; 0; 1]] i j)
    ∧ StronglySorted row_major found
    ∧ Archan._check_matrices_compliance dsm_unmediated
        [[0; 2; -1]; [-1; -1; -1]; [0; 0; 1]]
      = Ok (compliant,
            (λ p, "Matrix discrepancy found at " +:+ str (Z.of_nat p.1)
                  +:+ ":" +:+ str (Z.of_nat p.2)
                  +:+ " (" +:+ entity dsm_unmediated p.1 +:+ ":"
                  +:+ entity dsm_unmediated p.2 +:+ ")")
            <$> found)
    ∧ (compliant = true ↔ found = []).
Proof.
  apply (legacy_compliance_verdict dsm_unmediated
           [[0; 2; -1]; [-1; -1; -1]; [0; 0; 1]]);
    [solve_wf | simpl; lia | split; [done | repeat constructor]].
Defined.

(** ** checker.py against criterion.py *)

Lemma rule_value_mono (tolerated tolerated' : list string) cj ei ej i j :
  tolerated' ⊆ tolerated →
  rule_value tolerated cj ei ej i j = 0 →
  rule_value tolerated' cj ei ej i j = 0.
Proof.
  intros Hsub. unfold rule_value, cat_in.
  case_bool_decide as Hin; simpl; [done|].
  rewrite (bool_decide_eq_false_2 (cj ∈ tolerated')); [done|].
  intros Hin'. by apply Hin, Hsub.
Qed.

(** What criterion.py forbids, checker.py forbids too. *)
Lemma legacy_mediation_cell_forbids ci cj ei ej i j :
  mediation_cell ci cj ei ej i j = 0 → legacy_mediation_cell ci cj ei ej i j = 0.
Proof.
  unfold mediation_cell, legacy_mediation_cell, mediation_cell_with.
  destruct (cat_eq ci framework); [done|].
  destruct (cat_eq ci core_lib).
  { apply rule_value_mono. intros x. rewrite !elem_of_cons, !elem_of_nil. tauto. }
  destruct (cat_eq ci app_lib); [done|].
  destruct (cat_eq ci app_module); [done|].
  destruct (cat_eq ci broker); [|done].
  apply rule_value_mono. intros x. rewrite !elem_of_cons, !elem_of_nil. tauto.
Qed.

(** X16. A well-formed matrix that passes the complete mediation check of
    checker.py passes the one of criterion.py: the newer generator
    tolerates everything the older one tolerates, and the newer comparison
    reports positive cells only. *)
Theorem legacy_complete_mediation_stricter self dsm (out : list string) :
  wf_dsm dsm → Forall known_category (categories dsm) → (0 < size dsm)%nat →
  Archan.check_complete_mediation self dsm = Ok (true, out) →
  check_complete_mediation dsm = Ok (true, "").
Proof.
  intros Hwf Hk Hn.
  unfold Archan.check_complete_mediation, check_complete_mediation.
  rewrite legacy_generate_mediation_matrix_wf,
    generate_mediation_matrix_wf by done. simpl.
  rewrite legacy_matrices_compliance_wf, matrices_compliance_wf
    by (done || apply table_of_square).
  intros [= Hlegacy _]. apply bool_decide_eq_true in Hlegacy.
  rewrite filter_nil_iff in Hlegacy.
  assert (List.filter
            (λ p, discrepancy dsm (table_of dsm mediation_cell) p.1 p.2)
            (square_pairs (size dsm)) = []) as ->; [|done].
  apply filter_nil_iff. intros [i j] Hp. simpl.
  apply not_true_is_false. intros Hd.
  specialize (Hlegacy (i, j) Hp). simpl in Hlegacy.
  apply not_true_iff_false in Hlegacy. apply Hlegacy.
  apply elem_of_square_pairs in Hp as [Hi Hj].
  apply discrepancy_iff in Hd. apply legacy_discrepancy_iff.
  rewrite expected_table in * by done.
  destruct (mediation_cell_with_values [framework; core_lib]
    [app_module; core_lib; framework] (category dsm i) (category dsm j)
    (entity dsm i) (entity dsm j) i j) as [E|E];
    unfold mediation_cell in Hd; rewrite E in Hd; [lia|].
  rewrite (legacy_mediation_cell_forbids _ _ _ _ _ _ E). lia.
Qed.

Lemma legacy_complete_mediation_stricter_witness :
  check_complete_mediation dsm_three = Ok (true, "").
Proof.
  apply (legacy_complete_mediation_stricter Archan.__init__ dsm_three []);
    [solve_wf | solve_known | simpl; lia | vm_compute; reflexivity].
Defined.

Lemma filter_length_mono {X} (P Q : X → bool) (l : list X) :
  (∀ x, P x = true → Q x = true) →
  (length (List.filter P l) ≤ length (List.filter Q l))%nat.
Proof.
  intros HPQ. induction l as [|x l IH]; simpl; [done|].
  destruct (P x) eqn:HP.
  - rewrite (HPQ x HP). simpl. lia.
  - destruct (Q x); simpl; lia.
Qed.

Lemma coupled_mono dsm i j :
  coupled [framework; core_lib] dsm i j = true → coupled [framework] dsm i j = true.
Proof.
  unfold coupled, cat_in.
  rewrite !andb_true_iff, !negb_true_iff, !bool_decide_eq_false,
    !elem_of_cons, !elem_of_nil. tauto.
Qed.

Lemma legacy_check_economy_of_mechanism_wf self dsm :
  wf_dsm dsm →
  Archan.check_economy_of_mechanism self dsm
  = Ok (if bool_decide (count_pairs (size dsm) (coupled [framework] dsm)
                        < Z.of_nat (size dsm) * Archan.simplicity_factor self)
        then (true, [])
        else (false,
              ["dependency_number: "
                 +:+ str (count_pairs (size dsm) (coupled [framework] dsm));
               "rowsdep_matrix: " +:+ str (Z.of_nat (size dsm));
               "expected dependencies: " +:+ str (Archan.simplicity_factor self)])).
Proof.
  intros Hwf. unfold Archan.check_economy_of_mechanism.
  rewrite (count_loop dsm _ (coupled [framework] dsm))
    by (intros; by apply legacy_economy_counted_wf).
  simpl. by case_bool_decide.
Qed.

(** X17. The economy check of checker.py counts the ordered pairs (i,j)
    with a positive cell and no framework at either end, core libraries
    included, and passes when the count is below N times the simplicity
    factor of the checker; otherwise it prints the count, N and the
    factor. *)
Theorem legacy_economy_report self dsm :
  wf_dsm dsm →
  let count := count_pairs (size dsm) (coupled [framework] dsm) in
  Archan.check_economy_of_mechanism self dsm
  = Ok (if decide (count < Z.of_nat (size dsm) * Archan.simplicity_factor self)
        then (true, [])
        else (false,
              ["dependency_number: " +:+ str count;
               "rowsdep_matrix: " +:+ str (Z.of_nat (size dsm));
               "expected dependencies: "
                 +:+ str (Archan.simplicity_factor self)])).
Proof.
  intros Hwf count. rewrite legacy_check_economy_of_mechanism_wf by done.
  fold count. case_bool_decide; [by rewrite decide_True|by rewrite decide_False].
Qed.

Lemma legacy_economy_report_witness :
  Archan.check_economy_of_mechanism Archan.__init__ dsm_complete
  = Ok (false, ["dependency_number: 20"; "rowsdep_matrix: 5";
                "expected dependencies: 2"]).
Proof. apply (legacy_economy_report Archan.__init__ dsm_complete). solve_wf. Defined.

(** X18. A well-formed matrix that passes the economy check of checker.py
    passes the one of criterion.py with the same factor: the newer check
    counts no dependency the older one does not count. *)
Theorem legacy_economy_stricter self dsm (out : list string) :
  wf_dsm dsm →
  Archan.check_economy_of_mechanism self dsm = Ok (true, out) →
  check_economy_of_mechanism dsm (Archan.simplicity_factor self) = Ok (true, "").
Proof.
  intros Hwf.
  rewrite legacy_check_economy_of_mechanism_wf,
    check_economy_of_mechanism_wf by done.
  case_bool_decide as Hlegacy; [|done]. intros _.
  rewrite bool_decide_eq_true_2; [done|].
  assert (count_pairs (size dsm) (coupled [framework; core_lib] dsm)
          ≤ count_pairs (size dsm) (coupled [framework] dsm)); [|lia].
  unfold count_pairs. apply inj_le, filter_length_mono.
  intros [i j]. apply coupled_mono.
Qed.

Lemma legacy_economy_stricter_witness :
  check_economy_of_mechanism dsm_nine_edges (Archan.simplicity_factor Archan.__init__)
  = Ok (true, "").
Proof.
  apply (legacy_economy_stricter Archan.__init__ dsm_nine_edges []);
    [solve_wf | vm_compute; reflexivity].
Defined.

(** The converse fails: the four dependencies between two core libraries
    pass the newer check and fail the older one. *)
Example economy_not_equivalent :
  check_economy_of_mechanism dsm_core_pair 2 = Ok (true, "")
  ∧ fst <$> Archan.check_economy_of_mechanism Archan.__init__ dsm_core_pair
    = Ok false.
Proof. split; vm_compute; reflexivity. Qed.

(** Witnesses of the comparisons with checker.py proved above. *)
Lemma legacy_least_common_mechanism_witness :
  fst <$> Archan.check_least_common_mechanism Archan.__init__ dsm_hub
  = fst <$> check_least_common_mechanism (λ _, "") dsm_hub
              (Archan.independence_factor Archan.__init__).
Proof.
  apply (legacy_least_common_mechanism Archan.__init__ dsm_hub);
    [solve_wf | simpl; lia | simpl; lia].
Defined.

Lemma legacy_core_lib_row_witness :
  ∃ m, Archan._generate_mediation_matrix dsm_core_pair = Ok m
       ∧ cell m 0 1 = Some 0.
Proof.
  apply (legacy_core_lib_row dsm_core_pair 0 1);
    [solve_wf | solve_known | simpl; lia | simpl; lia | reflexivity].
Defined.

Lemma legacy_compliance_dimension_mismatch_witness :
  Archan._check_matrices_compliance dsm_three [[0; 0]; [0; 0]]
  = Ok (false, ["Matrices are NOT compliant (number of rows not equals)"]).
Proof.
  apply (legacy_compliance_dimension_mismatch dsm_three [[0; 0]; [0; 0]]);
    [done | done | left; vm_compute; lia].
Defined.

(** ** checker.py: check_all *)

Lemma legacy_check_least_common_mechanism_returns self dsm :
  wf_dsm dsm → (0 < size dsm)%nat → Archan.independence_factor self ≠ 0 →
  ∃ passed out, Archan.check_least_common_mechanism self dsm = Ok (passed, out).
Proof.
  intros Hwf Hn Hf.
  assert (counted_in_degree dsm <$> seq 0 (size dsm) ≠ []) as Hne.
  { intros Hnil. apply (f_equal length) in Hnil.
    rewrite length_fmap, length_seq in Hnil. simpl in Hnil. lia. }
  destruct (py_max_spec _ Hne) as (m & Hmax & _).
  unfold Archan.check_least_common_mechanism.
  rewrite dependent_modules_wf by done. simpl. rewrite Hmax. simpl.
  unfold Archan.old_div. rewrite bool_decide_eq_false_2 by done. simpl.
  destruct (bool_decide _); by eexists _, _.
Qed.

(** X22. On a well-formed matrix with known categories and at least one
    entity, and with an independence factor that is not 0, [check_all]
    returns a dictionary with the eight keys CM, EOM, SOP, LP, LCM, LA, OD
    and CC, in which CM, EOM and LCM are the results of the three checks.
    Whatever the matrix is, SOP, LP and LA are False and CC is True, OD is
    the conjunction of the six flags of the checker, and the last line
    printed is "No code issue found.". *)
Theorem legacy_check_all self dsm :
  wf_dsm dsm → Forall known_category (categories dsm) → (0 < size dsm)%nat →
  Archan.independence_factor self ≠ 0 →
  ∃ (d : gmap string bool) (out : list string) (cm eom lcm : bool),
    Archan.check_all self dsm = Ok (d, out)
    ∧ dom d = list_to_set ["CM"; "EOM"; "SOP"; "LP"; "LCM"; "LA"; "OD"; "CC"]
    ∧ fst <$> Archan.check_complete_mediation self dsm = Ok cm
    ∧ fst <$> Archan.check_economy_of_mechanism self dsm = Ok eom
    ∧ fst <$> Archan.check_least_common_mechanism self dsm = Ok lcm
    ∧ d !! "CM" = Some cm ∧ d !! "EOM" = Some eom ∧ d !! "LCM" = Some lcm
    ∧ d !! "SOP" = Some false ∧ d !! "LP" = Some false
    ∧ d !! "LA" = Some false ∧ d !! "CC" = Some true
    ∧ d !! "OD" = Some (Archan.check_open_design self)
    ∧ last out = Some "No code issue found.".
Proof.
  intros Hwf Hk Hn Hf.
  assert (∃ cm out, Archan.check_complete_mediation self dsm = Ok (cm, out))
    as (cm & out_cm & Hcm).
  { unfold Archan.check_complete_mediation.
    rewrite legacy_generate_mediation_matrix_wf by done. simpl.
    rewrite legacy_matrices_compliance_wf by (done || apply table_of_square).
    by eexists _, _. }
  assert (∃ eom out, Archan.check_economy_of_mechanism self dsm = Ok (eom, out))
    as (eom & out_eom & Heom).
  { rewrite legacy_check_economy_of_mechanism_wf by done.
    destruct (bool_decide _); by eexists _, _. }
  destruct (legacy_check_least_common_mechanism_returns self dsm Hwf Hn Hf)
    as (lcm & out_lcm & Hlcm).
  unfold Archan.check_all. rewrite Hcm, Heom, Hlcm. simpl.
  eexists _, _, cm, eom, lcm. split; [reflexivity|].
  split.
  { rewrite !dom_insert_L, dom_singleton_L. simpl. set_solver. }
  do 3 (split; [done|]).
  repeat (split; [by simplify_map_eq|]).
  by rewrite !app_assoc, last_snoc.
Qed.

Lemma legacy_check_all_witness :
  ∃ (d : gmap string bool) (out : list string) (cm eom lcm : bool),
    Archan.check_all Archan.__init__ dsm_unmediated = Ok (d, out)
    ∧ dom d = list_to_set ["CM"; "EOM"; "SOP"; "LP"; "LCM"; "LA"; "OD"; "CC"]
    ∧ fst <$> Archan.check_complete_mediation Archan.__init__ dsm_unmediated
      = Ok cm
    ∧ fst <$> Archan.check_economy_of_mechanism Archan.__init__ dsm_unmediated
      = Ok eom
    ∧ fst <$> Archan.check_least_common_mechanism Archan.__init__ dsm_unmediated
      = Ok lcm
    ∧ d !! "CM" = Some cm ∧ d !! "EOM" = Some eom ∧ d !! "LCM" = Some lcm
    ∧ d !! "SOP" = Some false ∧ d !! "LP" = Some false
    ∧ d !! "LA" = Some false ∧ d !! "CC" = Some true
    ∧ d !! "OD" = Some (Archan.check_open_design Archan.__init__)
    ∧ last out = Some "No code issue found.".
Proof.
  apply (legacy_check_all Archan.__init__ dsm_unmediated);
    [solve_wf | solve_known | simpl; lia | done].
Defined.

(** ** Matrices that always pass *)

(** X23. Dependencies of an entity on itself never fail complete
    mediation: a well-formed matrix with known categories whose cells
    outside the diagonal are not positive passes with an empty message. *)
Theorem self_dependencies_tolerated dsm :
  wf_dsm dsm → Forall known_category (categories dsm) → (0 < size dsm)%nat →
  (∀ i j, (i < size dsm)%nat → (j < size dsm)%nat → i ≠ j →
     observed dsm i j ≤ 0) →
  check_complete_mediation dsm = Ok (true, "").
Proof.
  intros Hwf Hk Hn Hoff. unfold check_complete_mediation.
  rewrite generate_mediation_matrix_wf by done. simpl.
  rewrite matrices_compliance_wf by (done || apply table_of_square).
  assert (List.filter
            (λ p, discrepancy dsm (table_of dsm mediation_cell) p.1 p.2)
            (square_pairs (size dsm)) = []) as ->; [|done].
  apply filter_nil_iff. intros [i j] Hp. simpl.
  apply elem_of_square_pairs in Hp as [Hi Hj].
  apply not_true_is_false. rewrite discrepancy_iff, expected_table by done.
  destruct (decide (i = j)) as [->|Hne].
  - unfold mediation_cell. rewrite mediation_cell_with_diagonal. lia.
  - specialize (Hoff i j Hi Hj Hne).
    destruct (mediation_cell_with_values [framework; core_lib]
      [app_module; core_lib; framework] (category dsm i) (category dsm j)
      (entity dsm i) (entity dsm j) i j) as [E|E];
      unfold mediation_cell; rewrite E; lia.
Qed.

Lemma self_dependencies_tolerated_witness :
  check_complete_mediation
    {| categories := [data; app_module]; entities := ["store.t"; "shop.cart"];
       dependency_matrix := [[3; 0]; [0; 1]]; size := 2 |}
  = Ok (true, "").
Proof.
  apply (self_dependencies_tolerated
           {| categories := [data; app_module];
              entities := ["store.t"; "shop.cart"];
              dependency_matrix := [[3; 0]; [0; 1]]; size := 2 |});
    [solve_wf | solve_known | simpl; lia |].
  intros [|[|i]] [|[|j]] Hi Hj Hne; simpl in *; try lia; done.
Defined.

Lemma filter_length_le {X} (P : X → bool) (l : list X) :
  (length (List.filter P l) ≤ length l)%nat.
Proof. induction l as [|x l IH]; simpl; [done|]. destruct (P x); simpl; lia. Qed.

Lemma length_pairs_of_const {X Y} (l1 : list X) (l2 : list Y) :
  length (pairs_of l1 (λ _, l2)) = (length l1 * length l2)%nat.
Proof.
  unfold pairs_of. induction l1 as [|x l1 IH]; [done|].
  rewrite bind_cons, length_app, length_fmap, IH. simpl. lia.
Qed.

Lemma count_pairs_le n P : count_pairs n P ≤ Z.of_nat n * Z.of_nat n.
Proof.
  unfold count_pairs.
  pose proof (filter_length_le (λ p, P p.1 p.2) (pairs_of (seq 0 n) (λ _, seq 0 n))) as H.
  rewrite length_pairs_of_const, !length_seq in H. lia.
Qed.

(** X24. With at least one entity, a simplicity factor above the number of
    entities passes every well-formed matrix: there are at most N times N
    dependencies to count. *)
Theorem economy_large_factor dsm simplicity_factor :
  wf_dsm dsm → (0 < size dsm)%nat → Z.of_nat (size dsm) < simplicity_factor →
  check_economy_of_mechanism dsm simplicity_factor = Ok (true, "").
Proof.
  intros Hwf Hn Hf. rewrite check_economy_of_mechanism_wf by done.
  pose proof (count_pairs_le (size dsm) (coupled [framework; core_lib] dsm)).
  rewrite bool_decide_eq_true_2; [done|]. nia.
Qed.

Lemma economy_large_factor_witness :
  check_economy_of_mechanism dsm_complete 6 = Ok (true, "").
Proof.
  apply (economy_large_factor dsm_complete 6); [solve_wf | simpl; lia | simpl; lia].
Defined.

Lemma counted_in_degree_le dsm j : counted_in_degree dsm j ≤ Z.of_nat (size dsm).
Proof.
  unfold counted_in_degree, in_degree. destruct (exempt _); [lia|].
  pose proof (filter_length_le (λ i, coupled [framework] dsm i j)
                (seq 0 (size dsm))) as H.
  rewrite length_seq in H. lia.
Qed.

(** X25. With at least one entity, the independence factor 1 passes every
    well-formed matrix: no entity has more than N entities depending on
    it. *)
Theorem least_common_mechanism_factor_1 (str_float : Q → string) dsm :
  wf_dsm dsm → (0 < size dsm)%nat →
  check_least_common_mechanism str_float dsm 1 = Ok (true, "").
Proof.
  intros Hwf Hn.
  destruct (check_least_common_mechanism_wf str_float dsm 1 Hwf Hn)
    as (maximum & k & passed & Hk & Hmax & _ & _ & Hpassed & ->); [lia|].
  assert (passed = true) as ->; [|done].
  apply Hpassed. apply Qle_quotient; [lia|].
  rewrite <-Hmax. pose proof (counted_in_degree_le dsm k). lia.
Qed.

Lemma least_common_mechanism_factor_1_witness :
  check_least_common_mechanism (λ _, "") dsm_hub 1 = Ok (true, "").
Proof.
  apply (least_common_mechanism_factor_1 (λ _, "") dsm_hub);
    [solve_wf | simpl; lia].
Defined.
